(** * timesheet_parser: activity intervals, weekly tallies and trends

    A shallow embedding of [timesheet_parser.py].  The functions of the
    script take no argument and read the log directory; here the content
    they compute from is passed explicitly: the lines of the log files to
    the loader, the loader's dictionary to everything downstream.

    Python values are embedded as follows: [int] is [Z], [str] is
    [string], [float] is the binary64 type [float] of the kernel, a [dict]
    is a [gmap] (dictionary equality is extensional), a list is a [list],
    and a raised exception is the [Raise] branch of [result]. *)

From Stdlib Require Import ZArith Lia Strings.String Strings.Ascii.
From Stdlib Require Import Decimal Numbers.DecimalString Numbers.DecimalZ Numbers.DecimalPos.
From Stdlib Require Import Floats.PrimFloat Floats.FloatOps Floats.SpecFloat Floats.FloatAxioms.
From stdpp Require Import gmap strings list fin_maps sorting.

Open Scope Z_scope.

(** ** Python runtime *)

Inductive exn : Set :=
  | ValueError
  | TypeError
  | KeyError
  | IndexError
  | NameError
  | OverflowError
  | ZeroDivisionError.

Inductive result (A : Type) : Type :=
  | Ok (a : A)
  | Raise (e : exn).
Arguments Ok {A} a.
Arguments Raise {A} e.

#[global] Instance result_ret : MRet result := @Ok.
#[global] Instance result_bind : MBind result := fun A B f r =>
  match r with
  | Ok a => f a
  | Raise e => Raise e
  end.

#[global] Instance result_fmap : FMap result := fun A B f r =>
  match r with
  | Ok a => Ok (f a)
  | Raise e => Raise e
  end.

Definition raises {A} (r : result A) : Prop :=
  match r with
  | Ok _ => False
  | Raise _ => True
  end.

#[global] Instance exn_eq_dec : EqDecision exn.
Proof. solve_decision. Defined.

(** [str.__le__]: lexicographic on the character codes, a proper prefix
    first. *)
Definition str_le (s1 s2 : string) : Prop := String.leb s1 s2 = true.
Definition str_lt (s1 s2 : string) : Prop := String.ltb s1 s2 = true.

#[global] Instance str_le_dec : RelDecision str_le.
Proof. intros s1 s2. unfold str_le. apply bool_eq_dec. Defined.

(** [sorted(xs)] on strings, and [sorted(items, key=lambda t: t[0])]. *)
Definition sorted_str (l : list string) : list string := merge_sort str_le l.

Definition key_le {A} (a b : string * A) : Prop := str_le a.1 b.1.

#[global] Instance key_le_dec {A} : RelDecision (@key_le A).
Proof. intros a b. unfold key_le. apply _. Defined.

Definition sorted_by_key {A} (l : list (string * A)) : list (string * A) :=
  merge_sort key_le l.

(** [str(n)] and [int(s)] for decimal integers; [int] raises [ValueError]
    on anything but an optional minus sign and digits. *)
Definition py_str (z : Z) : string := NilZero.string_of_int (Z.to_int z).

Definition py_int (s : string) : result Z :=
  match NilZero.int_of_string s with
  | Some d => Ok (Z.of_int d)
  | None => Raise ValueError
  end.

(** [s.split(sep)] for a single separator character. *)
Fixpoint split_on (sep : ascii) (s : string) : list string :=
  match s with
  | EmptyString => [EmptyString]
  | String c r =>
      if Ascii.eqb c sep then EmptyString :: split_on sep r
      else match split_on sep r with
           | [] => [String c EmptyString]
           | w :: ws => String c w :: ws
           end
  end.

(** [s[:-1]]. *)
Fixpoint drop_last (s : string) : string :=
  match s with
  | EmptyString => EmptyString
  | String c EmptyString => EmptyString
  | String c r => String c (drop_last r)
  end.

(** [range(start, stop, -1)]. *)
Definition range_down (start stop : Z) : list Z :=
  (fun k : nat => start - Z.of_nat k) <$> seq 0 (Z.to_nat (start - stop)).

(** Conversion of an [int] to a [float]: round to nearest, ties to even.
    (Python raises [OverflowError] beyond the binary64 range, where this
    gives an infinity; no quantity of the script comes near it.) *)
Definition float_of_Z (z : Z) : float :=
  SF2Prim (binary_normalize prec emax z 0 false).

(** [x / y] on floats raises on a zero divisor. *)
Definition py_fdiv (x y : float) : result float :=
  if PrimFloat.eqb y 0%float then Raise ZeroDivisionError
  else Ok (x / y)%float.

(** [x / y] on ints (the script runs under Python 2: floor division). *)
Definition py_idiv (x y : Z) : result Z :=
  if y =? 0 then Raise ZeroDivisionError else Ok (x / y).

(** [int(x)] on a float: truncation towards zero. *)
Definition int_of_float (x : float) : result Z :=
  match Prim2SF x with
  | S754_zero _ => Ok 0
  | S754_finite s m e =>
      let v := if 0 <=? e then Z.pos m * 2 ^ e else Z.pos m / 2 ^ (- e) in
      Ok (if s then - v else v)
  | S754_infinity _ => Raise OverflowError
  | S754_nan => Raise ValueError
  end.

(** [sum(l)] and [sorted(l)] on ints.  ([from pylab import *] puts numpy's
    [sum] in place of the builtin: the same number on a list of ints, but
    a numpy scalar, whose division by zero does not raise.  Nothing below
    is evaluated where that matters: the statements on the reports are on
    histories where no [sum] is reached, or on [get_daily_statistics],
    which has none.) *)
Definition py_sum (l : list Z) : Z := foldl Z.add 0 l.
Definition sorted_int (l : list Z) : list Z := merge_sort Z.le l.

(** ** The [datetime] module, as far as the script uses it *)

Module Datetime.

Record datetime : Set := mk_datetime {
  dt_year : Z; dt_month : Z; dt_day : Z;
  dt_hour : Z; dt_minute : Z; dt_second : Z
}.

Record timedelta : Set := mk_timedelta { td_days : Z; td_seconds : Z }.

Definition is_leap (year : Z) : bool :=
  (year mod 4 =? 0) && (negb (year mod 100 =? 0) || (year mod 400 =? 0)).

Definition days_before_year (year : Z) : Z :=
  let y := year - 1 in y * 365 + y / 4 - y / 100 + y / 400.

Definition days_in_month (year month : Z) : Z :=
  if (month =? 2) && is_leap year then 29
  else nth (Z.to_nat month) [-1; 31; 28; 31; 30; 31; 30; 31; 31; 30; 31; 30; 31] 0.

Definition days_before_month (year month : Z) : Z :=
  nth (Z.to_nat month) [-1; 0; 31; 59; 90; 120; 151; 181; 212; 243; 273; 304; 334] 0
  + (if (2 <? month) && is_leap year then 1 else 0).

Definition ymd2ord (year month day : Z) : Z :=
  days_before_year year + days_before_month year month + day.

Definition toordinal (d : datetime) : Z :=
  ymd2ord (dt_year d) (dt_month d) (dt_day d).

(** [timedelta(days, seconds)] normalises the seconds into [0, 86400). *)
Definition make_timedelta (days seconds : Z) : timedelta :=
  mk_timedelta (days + seconds / 86400) (seconds mod 86400).

(** [a - b] on naive datetimes. *)
Definition sub (a b : datetime) : timedelta :=
  let secs1 := dt_second a + dt_minute a * 60 + dt_hour a * 3600 in
  let secs2 := dt_second b + dt_minute b * 60 + dt_hour b * 3600 in
  make_timedelta (toordinal a - toordinal b) (secs1 - secs2).

Definition isoweek1monday (year : Z) : Z :=
  let firstday := ymd2ord year 1 1 in
  let firstweekday := (firstday + 6) mod 7 in
  let week1monday := firstday - firstweekday in
  if 3 <? firstweekday then week1monday + 7 else week1monday.

(** [d.isocalendar()]: (ISO year, ISO week number, ISO weekday). *)
Definition isocalendar (d : datetime) : Z * Z * Z :=
  let year := dt_year d in
  let week1monday := isoweek1monday year in
  let today := toordinal d in
  let week := (today - week1monday) / 7 in
  let day := (today - week1monday) mod 7 in
  if week <? 0 then
    let year := year - 1 in
    let week1monday := isoweek1monday year in
    (year, (today - week1monday) / 7 + 1, (today - week1monday) mod 7 + 1)
  else if (52 <=? week) && (isoweek1monday (year + 1) <=? today) then
    (year + 1, 1, day + 1)
  else (year, week + 1, day + 1).

Definition valid (d : datetime) : bool :=
  (1 <=? dt_year d) && (dt_year d <=? 9999)
  && (1 <=? dt_month d) && (dt_month d <=? 12)
  && (1 <=? dt_day d) && (dt_day d <=? days_in_month (dt_year d) (dt_month d))
  && (0 <=? dt_hour d) && (dt_hour d <=? 23)
  && (0 <=? dt_minute d) && (dt_minute d <=? 59)
  && (0 <=? dt_second d) && (dt_second d <=? 59).

Definition digit_of_char (c : ascii) : option Z :=
  let n := Z.of_N (N_of_ascii c) in
  if (48 <=? n) && (n <=? 57) then Some (n - 48) else None.

Fixpoint digits_value (s : string) (acc : Z) : option Z :=
  match s with
  | EmptyString => Some acc
  | String c r =>
      match digit_of_char c with
      | Some d => digits_value r (10 * acc + d)
      | None => None
      end
  end.

(** [datetime.strptime(ts, '%Y%m%d%H%M%S')] on the stamps the script
    writes: fourteen digits, read as six fixed-width fields.  Anything
    else, and any field out of range, is a [ValueError]. *)
Definition strptime (ts : string) : result datetime :=
  if (String.length ts =? 14)%nat then
    match digits_value ts 0 with
    | Some n =>
        let d := mk_datetime (n / 10000000000) (n / 100000000 mod 100)
                   (n / 1000000 mod 100) (n / 10000 mod 100)
                   (n / 100 mod 100) (n mod 100) in
        if valid d then Ok d else Raise ValueError
    | None => Raise ValueError
    end
  else Raise ValueError.

(** Zero-padded decimal of width [w] (for [%m], [%d], [%H], [%M], [%S]
    and, with [w = 4], [%Y]). *)
Fixpoint zero_pad (w : nat) (s : string) : string :=
  match w with
  | O => s
  | S w' => if (String.length s <=? w')%nat then zero_pad w' (String "0" s) else s
  end.

(** [d.strftime('%Y%m%d%H%M%S')]. *)
Definition strftime (d : datetime) : string :=
  zero_pad 4 (py_str (dt_year d)) +:+ zero_pad 2 (py_str (dt_month d))
  +:+ zero_pad 2 (py_str (dt_day d)) +:+ zero_pad 2 (py_str (dt_hour d))
  +:+ zero_pad 2 (py_str (dt_minute d)) +:+ zero_pad 2 (py_str (dt_second d)).

End Datetime.

Import Datetime.

(** ** Event loader *)

Definition LOG_TIMESTAMP_FORMAT : string := "%Y%m%d%H%M%S".

Inductive diagnostic : Set :=
  | IssueConvertingTimestamp (ts fmt : string).

(** [sys.exc_traceback()]: under Python 2.7 [sys.exc_traceback] is the
    traceback object of the exception being handled, not a function, so
    the call raises [TypeError]. *)
Definition sys_exc_traceback_call : result unit := Raise TypeError.

Record loader_state : Type := mk_loader_state {
  localtime_activities : gmap string string;
  utc_ts : option datetime;      (* the local variable, unbound at first *)
  printed : list diagnostic
}.

Section Loader.

(** [utc_ts.replace(tzinfo=from_zone).astimezone(to_zone)]: the zone
    rules of the machine, a parameter here. *)
Variable astimezone : datetime -> datetime.

(** One iteration of [for entry in f_p.readlines()].  The output
    printed so far is kept next to the outcome. *)
Definition load_entry (st : loader_state) (entry : string)
  : list diagnostic * result loader_state :=
  match split_on " " (drop_last entry) with
  | [ts; activity] =>
      let after_try : list diagnostic * result (option datetime) :=
        match strptime ts with
        | Ok d => (printed st, Ok (Some d))
        | Raise ValueError =>
            let out := printed st ++ [IssueConvertingTimestamp ts LOG_TIMESTAMP_FORMAT] in
            (out, _ ← sys_exc_traceback_call; Ok (utc_ts st))
        | Raise e => (printed st, Raise e)
        end in
      (after_try.1,
       cur ← after_try.2;
       match cur with
       | None => Raise NameError
       | Some utc =>
           let local_ts := astimezone utc in
           Ok (mk_loader_state
                 (<[strftime local_ts := activity]> (localtime_activities st))
                 (Some utc) after_try.1)
       end)
  | _ => (printed st, Raise ValueError)
  end.

Fixpoint load_entries (st : loader_state) (entries : list string)
  : list diagnostic * result loader_state :=
  match entries with
  | [] => (printed st, Ok st)
  | entry :: rest =>
      match load_entry st entry with
      | (_, Ok st') => load_entries st' rest
      | (out, Raise e) => (out, Raise e)
      end
  end.

(** [get_activities_in_localtime], on the lines of the matching log
    files (one list of lines per file, in [os.listdir] order). *)
Definition get_activities_in_localtime (log_files : list (list string))
  : list diagnostic * result (gmap string string) :=
  let r := load_entries (mk_loader_state ∅ None []) (concat log_files) in
  (r.1, st ← r.2; Ok (localtime_activities st)).

End Loader.

(** ** Interval reconstruction *)

Definition get_ordered_activity_timestamps (acts : gmap string string)
  : list (string * string) :=
  sorted_by_key (map_to_list acts).

(** The tuple a timing is yielded as. *)
Record timing : Set := mk_timing {
  activity : string;
  year : Z;
  week_number : Z;
  day_of_week : Z;
  time_delta : Z
}.

#[global] Instance timing_eq_dec : EqDecision timing.
Proof. solve_decision. Defined.

(** The body of the loop of [get_activity_timings] at index [x]: [None]
    for [continue], [Some t] for [yield t].  (The warning printed for a
    span of more than 15 hours does not change what is yielded and is
    left out.) *)
Definition timing_at (filter_off : bool) (ordered_timestamps : list (string * string))
    (x : Z) : result (option timing) :=
  match ordered_timestamps !! Z.to_nat x, ordered_timestamps !! Z.to_nat (x - 1) with
  | Some (end_ts, end_activity), Some (start_ts, start_activity) =>
      if filter_off && String.eqb start_activity "Off" then Ok None
      else
        end_time ← strptime end_ts;
        start_time ← strptime start_ts;
        let time_diff := Datetime.sub end_time start_time in
        let time_delta := td_days time_diff * 24 * 3600 + td_seconds time_diff in
        let '(year, week_number, day_of_week) := isocalendar end_time in
        Ok (Some (mk_timing start_activity year week_number day_of_week time_delta))
  | _, _ => Raise IndexError
  end.

(** A generator run to its end: what it yielded, and the exception that
    ended it, if one did. *)
Definition generated (A : Type) : Type := (list A * option exn)%type.

Fixpoint timings_from (filter_off : bool) (ordered_timestamps : list (string * string))
    (xs : list Z) : generated timing :=
  match xs with
  | [] => ([], None)
  | x :: xs' =>
      match timing_at filter_off ordered_timestamps x with
      | Raise e => ([], Some e)
      | Ok None => timings_from filter_off ordered_timestamps xs'
      | Ok (Some t) =>
          let r := timings_from filter_off ordered_timestamps xs' in (t :: r.1, r.2)
      end
  end.

Definition get_activity_timings (filter_off : bool) (acts : gmap string string)
  : generated timing :=
  let ordered_timestamps := get_ordered_activity_timestamps acts in
  timings_from filter_off ordered_timestamps
    (range_down (Z.of_nat (length ordered_timestamps) - 1) 1).

(** [for t in gen: acc = body(acc, t)], the exception of the generator
    propagating out of the loop. *)
Definition for_each {A S} (g : generated A) (body : S -> A -> result S) (init : S)
  : result S :=
  r ← foldl (fun acc t => s ← acc; body s t) (Ok init) g.1;
  match g.2 with
  | None => Ok r
  | Some e => Raise e
  end.

(** [d[k]] on a dictionary. *)
Definition getitem `{Countable K} {V} (d : gmap K V) (k : K) : result V :=
  match d !! k with
  | Some v => Ok v
  | None => Raise KeyError
  end.

(** [d.keys()]. *)
Definition keys `{Countable K} {V} (d : gmap K V) : list K := (map_to_list d).*1.

(** [for k in d: acc = body(acc, k, d[k])]. *)
Definition for_items `{Countable K} {V S} (d : gmap K V)
    (body : S -> K -> V -> result S) (init : S) : result S :=
  map_fold (fun k v acc => s ← acc; body s k v) (Ok init) d.

(** [range(n)] and [enumerate(l)]. *)
Definition range (n : Z) : list Z := Z.of_nat <$> seq 0 (Z.to_nat n).
Definition enumerate {A} (l : list A) : list (Z * A) := zip (range (Z.of_nat (length l))) l.

(** ** Weekly aggregation *)

(** [{'count': c, 'time': t}]. *)
Record tally : Set := mk_tally { count : Z; time : Z }.

#[global] Instance tally_eq_dec : EqDecision tally.
Proof. solve_decision. Defined.

Definition weekly_key (yr week : Z) : string :=
  if week <? 10 then py_str yr +:+ "-0" +:+ py_str week
  else py_str yr +:+ "-" +:+ py_str week.

(** The body of the loop of [get_weekly_info]. *)
Definition weekly_step (weekly_info : gmap string (gmap string tally)) (t : timing)
  : gmap string (gmap string tally) :=
  let weekly_key := weekly_key (year t) (week_number t) in
  let weekly_info :=
    match weekly_info !! weekly_key with
    | None => <[weekly_key := ∅]> weekly_info
    | Some _ => weekly_info
    end in
  let week := default ∅ (weekly_info !! weekly_key) in
  match week !! activity t with
  | None =>
      <[weekly_key := <[activity t := mk_tally 1 (time_delta t)]> week]> weekly_info
  | Some v =>
      <[weekly_key := <[activity t := mk_tally (count v + 1) (time v + time_delta t)]> week]>
        weekly_info
  end.

(** The fold of [get_weekly_info] over the yielded timings. *)
Definition weekly_info_of (g : generated timing)
  : result (gmap string (gmap string tally)) :=
  for_each g (fun wi t => Ok (weekly_step wi t)) ∅.

Definition get_weekly_info (acts : gmap string string)
  : result (gmap string (gmap string tally)) :=
  weekly_info_of (get_activity_timings true acts).

(** ** Week over week changes *)

(** The averaged tally: [count] and [time] are floats after the division. *)
Record average : Set := mk_average { avg_count : float; avg_time : float }.

(** [{'wow_count': c, 'wow_time': t}]. *)
Record wow : Set := mk_wow { wow_count : float; wow_time : float }.

Definition compute_weeks_ago_index (cur_week_index : string) (weeks_ago : Z)
  : result string :=
  match split_on "-" cur_week_index with
  | [current_yr; current_week] =>
      w ← py_int current_week;
      let prev_week := w - weeks_ago in
      if prev_week <? 1 then
        y ← py_int current_yr;
        Ok (py_str (y - 1) +:+ "-" +:+ py_str (52 + prev_week))
      else Ok (current_yr +:+ "-" +:+ py_str prev_week)
  | _ => Raise ValueError
  end.

(** The first loop of [get_previous_weekly_tally], one week back at a
    time: the running sums and the number of weeks that fed each. *)
Definition previous_week_step (cur_week : string)
    (weekly_info : gmap string (gmap string tally))
    (st : gmap string tally * gmap string Z) (i : Z)
  : result (gmap string tally * gmap string Z) :=
  week_index ← compute_weeks_ago_index cur_week (i + 1);
  match weekly_info !! week_index with
  | Some week =>
      for_items week (fun '(previous_weekly_tally, active_week_count) activity v =>
        match previous_weekly_tally !! activity with
        | Some p =>
            n ← getitem active_week_count activity;
            Ok (<[activity := mk_tally (count p + count v) (time p + time v)]>
                  previous_weekly_tally,
                <[activity := n + 1]> active_week_count)
        | None =>
            Ok (<[activity := mk_tally (count v) (time v)]> previous_weekly_tally,
                <[activity := 1]> active_week_count)
        end) st
  | None => Ok st
  end.

Definition get_previous_weekly_tally (weeks_ago : Z) (cur_week : string)
    (weekly_info : gmap string (gmap string tally)) : result (gmap string average) :=
  st ← foldl (fun acc i => st ← acc; previous_week_step cur_week weekly_info st i)
         (Ok (∅, ∅)) (range weeks_ago);
  let '(previous_weekly_tally, active_week_count) := st in
  for_items previous_weekly_tally (fun averaged activity p =>
    n ← getitem active_week_count activity;
    c ← py_fdiv (1.0 * float_of_Z (count p)) (float_of_Z n);
    t ← py_fdiv (1.0 * float_of_Z (time p)) (float_of_Z n);
    Ok (<[activity := mk_average c t]> averaged)) ∅.

(** The two guarded percentages of one activity of one week. *)
Definition wow_of (cur : tally) (previous_weekly_tally : gmap string average)
    (activity : string) : result wow :=
  let default_percentage := 0.0%float in
  match previous_weekly_tally !! activity with
  | Some p =>
      wow_count ←
        (let cur := float_of_Z (count cur) in
         let prev := avg_count p in
         if (1.0 <=? prev)%float then py_fdiv (100.0 * (cur - prev)) prev
         else Ok default_percentage);
      wow_time ←
        (let cur := float_of_Z (time cur) in
         let prev := avg_time p in
         if (float_of_Z 1 <? prev)%float then py_fdiv (100.0 * (cur - prev)) prev
         else Ok default_percentage);
      Ok (mk_wow wow_count wow_time)
  | None => Ok (mk_wow default_percentage default_percentage)
  end.

(** The body of [for activity in weekly_info[week]]. *)
Definition wow_activity_step (weeks_ago : Z) (week : string)
    (weekly_info : gmap string (gmap string tally))
    (st : gmap string (gmap string wow) * gmap string tally)
    (activity : string) (v : tally)
  : result (gmap string (gmap string wow) * gmap string tally) :=
  let '(wow_change, current_weekly_info) := st in
  let current_weekly_info :=
    <[activity := mk_tally (count v) (time v)]> current_weekly_info in
  previous_weekly_tally ← get_previous_weekly_tally weeks_ago week weekly_info;
  cur ← getitem current_weekly_info activity;
  w ← wow_of cur previous_weekly_tally activity;
  this_week ← getitem wow_change week;
  Ok (<[week := <[activity := w]> this_week]> wow_change, current_weekly_info).

(** The body of [for cnt, week in enumerate(sorted(weekly_info.keys()))]. *)
Definition wow_week_step (weeks_ago : Z)
    (weekly_info : gmap string (gmap string tally))
    (st : gmap string (gmap string wow) * gmap string tally)
    (cw : Z * string)
  : result (gmap string (gmap string wow) * gmap string tally) :=
  let '(cnt, week) := cw in
  if weeks_ago <? cnt then
    let '(wow_change, current_weekly_info) := st in
    let wow_change := <[week := ∅]> wow_change in
    this_week ← getitem weekly_info week;
    for_items this_week (wow_activity_step weeks_ago week weekly_info)
      (wow_change, current_weekly_info)
  else Ok st.

(** [get_wow_changes], from the weekly table on. *)
Definition wow_changes_of (weeks_ago : Z)
    (weekly_info : gmap string (gmap string tally))
  : result (gmap string (gmap string wow)) :=
  st ← foldl (fun acc cw => st ← acc; wow_week_step weeks_ago weekly_info st cw)
         (Ok (∅, ∅)) (enumerate (sorted_str (keys weekly_info)));
  Ok st.1.

Definition get_wow_changes (weeks_ago : Z) (acts : gmap string string)
  : result (gmap string (gmap string wow)) :=
  weekly_info ← get_weekly_info acts;
  wow_changes_of weeks_ago weekly_info.

(** ** Daily and overall statistics *)

Definition NUM_TO_DAY_MAP : list (Z * string) :=
  [(1, "mon"); (2, "tue"); (3, "wed"); (4, "thu"); (5, "fri"); (6, "sat"); (7, "sun")].

(** What a day's dictionary holds: an int under ['context_switches'],
    ['day_cnts'] and ['total_time'], and [{'total_time': t, 'cnt': c}]
    under the name of an activity. *)
Inductive day_value : Set :=
  | DInt (n : Z)
  | DAct (total_time cnt : Z).

#[global] Instance day_value_eq_dec : EqDecision day_value.
Proof. solve_decision. Defined.

Definition as_int (v : day_value) : result Z :=
  match v with
  | DInt n => Ok n
  | DAct _ _ => Raise TypeError
  end.

(** [try: body except exc: handler]. *)
Definition try_except {A} (body : result A) (exc : exn) (handler : result A) : result A :=
  match body with
  | Raise e => if decide (e = exc) then handler else Raise e
  | ok => ok
  end.

(** [d[day][field] += delta] for an int field. *)
Definition add_to_field (daily_statistics : gmap Z (gmap string day_value))
    (day : Z) (field : string) (delta : Z) : result (gmap Z (gmap string day_value)) :=
  entry ← getitem daily_statistics day;
  v ← getitem entry field;
  n ← as_int v;
  Ok (<[day := <[field := DInt (n + delta)]> entry]> daily_statistics).

Definition daily_statistics_init : gmap Z (gmap string day_value) :=
  foldl (fun daily_statistics day =>
           <[day := <["context_switches" := DInt 0]>
                      (<["day_cnts" := DInt 0]> (<["total_time" := DInt 0]> ∅))]>
             daily_statistics)
        ∅ NUM_TO_DAY_MAP.*1.

(** The body of the loop of [daily_statistics]; the state is the
    dictionary and [current_day]. *)
Definition daily_step (st : gmap Z (gmap string day_value) * Z) (t : timing)
  : result (gmap Z (gmap string day_value) * Z) :=
  let '(daily_statistics, current_day) := st in
  let day_of_week := day_of_week t in
  '(daily_statistics, current_day) ←
    (if decide (day_of_week ≠ current_day) then
       daily_statistics ←
         try_except (add_to_field daily_statistics day_of_week "day_cnts" 1)
           ValueError (Ok daily_statistics);
       Ok (daily_statistics, day_of_week)
     else Ok (daily_statistics, current_day));
  daily_statistics ← add_to_field daily_statistics day_of_week "context_switches" 1;
  daily_statistics ← add_to_field daily_statistics day_of_week "total_time" (time_delta t);
  entry ← getitem daily_statistics day_of_week;
  match entry !! activity t with
  | None =>
      Ok (<[day_of_week := <[activity t := DAct (time_delta t) 1]> entry]> daily_statistics,
          current_day)
  | Some (DAct total_time cnt) =>
      Ok (<[day_of_week := <[activity t := DAct (total_time + time_delta t) (cnt + 1)]> entry]>
            daily_statistics,
          current_day)
  | Some (DInt _) => Raise TypeError
  end.

(** The fold of [daily_statistics] over the yielded timings. *)
Definition daily_statistics_of (g : generated timing)
  : result (gmap Z (gmap string day_value)) :=
  st ← for_each g daily_step (daily_statistics_init, 0);
  Ok st.1.

Definition daily_statistics (acts : gmap string string)
  : result (gmap Z (gmap string day_value)) :=
  daily_statistics_of (get_activity_timings true acts).

(** A line of the report of [get_daily_statistics], before formatting. *)
Inductive daily_row : Set :=
  | Percentage (day : Z) (activity : string) (percentage : float)
  | CtxSw (day : Z) (ctx_sw : float)
  | WorkTm (day : Z) (work_tm : float).

(** [100.0 * daily_stats[day][activity]['total_time'] / daily_stats[day]['total_time']]. *)
Definition day_percentage (daily_stats : gmap Z (gmap string day_value))
    (day : Z) (activity : string) : result float :=
  entry ← getitem daily_stats day;
  v ← getitem entry activity;
  a ← match v with
      | DAct total_time _ => Ok total_time
      | DInt _ => Raise TypeError
      end;
  total ← (v ← getitem entry "total_time"; as_int v);
  py_fdiv (100.0 * float_of_Z a) (float_of_Z total).

Definition day_report (daily_stats : gmap Z (gmap string day_value))
    (activities : list string) (day : Z) : result (list daily_row) :=
  rows ← foldl (fun acc activity =>
                  rows ← acc;
                  percentage ← try_except (day_percentage daily_stats day activity)
                                 KeyError (Ok 0.0%float);
                  Ok (rows ++ [Percentage day activity percentage]))
           (Ok []) activities;
  entry ← getitem daily_stats day;
  context_switches ← (v ← getitem entry "context_switches"; as_int v);
  day_cnts ← (v ← getitem entry "day_cnts"; as_int v);
  total_time ← (v ← getitem entry "total_time"; as_int v);
  ctx_sw ← py_fdiv (1.0 * float_of_Z context_switches) (float_of_Z day_cnts);
  w ← py_fdiv (1.0 * float_of_Z total_time) (float_of_Z day_cnts);
  work_tm ← py_fdiv w 60.0;
  Ok (rows ++ [CtxSw day ctx_sw; WorkTm day work_tm]).

Definition get_daily_statistics (acts : gmap string string) : result (list daily_row) :=
  daily_stats ← daily_statistics acts;
  all_keys ← foldl (fun acc day =>
                      activities ← acc;
                      entry ← getitem daily_stats day;
                      Ok (activities ∪ dom entry))
               (Ok (∅ : gset string)) NUM_TO_DAY_MAP.*1;
  let activities :=
    sorted_str (elements (all_keys ∖ {["day_cnts"; "total_time"; "context_switches"]})) in
  foldl (fun acc day =>
           rows ← acc;
           more ← day_report daily_stats activities day;
           Ok (rows ++ more))
    (Ok []) NUM_TO_DAY_MAP.*1.

(** An entry of [activities] in [get_overall_actitivity_info]. *)
Record activity_info : Set := mk_activity_info {
  total_time : Z;
  weekday_timings : list Z;
  weekday_count : Z;
  weekend_timings : list Z;
  weekend_count : Z;
  percentage_totals : option float     (* set after the loop *)
}.

Record activity_counts : Set := mk_activity_counts { weekday_cnt : Z; weekend_cnt : Z }.

Record overall_state : Set := mk_overall_state {
  ov_counts : activity_counts;
  ov_activities : gmap string activity_info;
  ov_total : Z;
  ov_current_day : Z;
  ov_current_week : Z
}.

(** The body of the loop of [get_overall_actitivity_info]. *)
Definition overall_step (st : overall_state) (t : timing) : overall_state :=
  let total := ov_total st + time_delta t in
  let activities :=
    match ov_activities st !! activity t with
    | None => <[activity t := mk_activity_info 0 [] 0 [] 0 None]> (ov_activities st)
    | Some _ => ov_activities st
    end in
  let a := default (mk_activity_info 0 [] 0 [] 0 None) (activities !! activity t) in
  let a_total := total_time a + time_delta t in
  let new_day :=
    bool_decide (day_of_week t ≠ ov_current_day st ∨ week_number t ≠ ov_current_week st) in
  let current_day := if new_day then day_of_week t else ov_current_day st in
  let current_week := if new_day then week_number t else ov_current_week st in
  if bool_decide (day_of_week t ∈ [1; 2; 3; 4; 5]) then
    mk_overall_state
      (mk_activity_counts
         (if new_day then weekday_cnt (ov_counts st) + 1 else weekday_cnt (ov_counts st))
         (weekend_cnt (ov_counts st)))
      (<[activity t := mk_activity_info a_total (weekday_timings a ++ [time_delta t])
                         (weekday_count a + 1) (weekend_timings a) (weekend_count a)
                         (percentage_totals a)]> activities)
      total current_day current_week
  else
    mk_overall_state
      (mk_activity_counts
         (weekday_cnt (ov_counts st))
         (if new_day then weekend_cnt (ov_counts st) + 1 else weekend_cnt (ov_counts st)))
      (<[activity t := mk_activity_info a_total (weekday_timings a) (weekday_count a)
                         (weekend_timings a ++ [time_delta t]) (weekend_count a + 1)
                         (percentage_totals a)]> activities)
      total current_day current_week.

Definition overall_of (g : generated timing)
  : result (gmap string activity_info * activity_counts) :=
  st ← for_each g (fun st t => Ok (overall_step st t))
         (mk_overall_state (mk_activity_counts 0 0) ∅ 0 (-1) (-1));
  activities ←
    for_items (ov_activities st) (fun activities activity a =>
      p ← py_fdiv (float_of_Z (total_time a) * 100.0) (float_of_Z (ov_total st));
      Ok (<[activity := mk_activity_info (total_time a) (weekday_timings a)
                          (weekday_count a) (weekend_timings a) (weekend_count a)
                          (Some p)]> activities))
      (ov_activities st);
  Ok (activities, ov_counts st).

Definition get_overall_actitivity_info (acts : gmap string string)
  : result (gmap string activity_info * activity_counts) :=
  overall_of (get_activity_timings true acts).

(** A line of the report of [get_activity_statistics], before formatting. *)
Inductive stat_row : Set :=
  | ActivityRow (activity : string) (cnt avg medium : Z)
  | TotalDays (days : Z)
  | AverageWorkDay (mins : Z).

Definition average_mins (timing_list : list Z) : result Z :=
  let cnt := Z.of_nat (length timing_list) in
  if cnt =? 0 then Ok 0
  else
    q ← py_idiv (py_sum timing_list) cnt;
    x ← py_fdiv (float_of_Z q) 60.0;
    int_of_float x.

Definition medium_mins (timing_list : list Z) : result Z :=
  let cnt := Z.of_nat (length timing_list) in
  if cnt =? 0 then Ok 0
  else
    mid ← py_idiv cnt 2;
    match sorted_int timing_list !! Z.to_nat mid with
    | Some v => x ← py_fdiv (float_of_Z v) 60.0; int_of_float x
    | None => Raise IndexError
    end.

(** One of the two blocks of [get_activity_statistics]: the weekday one,
    or with [weekend] the weekend one. *)
Definition class_statistics (weekend : bool)
    (activities : gmap string activity_info) (activity_counts : activity_counts)
  : result (list stat_row) :=
  let timings a := if weekend then weekend_timings a else weekday_timings a in
  let counted a := if weekend then weekend_count a else weekday_count a in
  let days := if weekend then weekend_cnt activity_counts else weekday_cnt activity_counts in
  st ← for_items activities (fun '(rows, total_work_time) activity a =>
          avg ← average_mins (timings a);
          medium ← medium_mins (timings a);
          Ok (rows ++ [ActivityRow activity (counted a) avg medium],
              total_work_time + py_sum (timings a)))
        ([], 0);
  let '(rows, total_work_time) := st in
  per_day ← py_idiv total_work_time days;
  mins ← py_idiv per_day 60;
  Ok (rows ++ [TotalDays days; AverageWorkDay mins]).

Definition get_activity_statistics (acts : gmap string string) : result (list stat_row) :=
  activity_info ← get_overall_actitivity_info acts;
  let '(activities, activity_counts) := activity_info in
  weekday ← class_statistics false activities activity_counts;
  weekend ← class_statistics true activities activity_counts;
  Ok (weekday ++ weekend).


(** ** Notions the statements below are phrased in *)

(** Seconds since the start of day 0 of the proleptic calendar. *)
Definition epoch (d : datetime) : Z :=
  toordinal d * 86400 + dt_hour d * 3600 + dt_minute d * 60 + dt_second d.

(** The number a fourteen-digit stamp reads as. *)
Definition stamp (d : datetime) : Z :=
  dt_year d * 10000000000 + dt_month d * 100000000 + dt_day d * 1000000
  + dt_hour d * 10000 + dt_minute d * 100 + dt_second d.

Definition month_cases (m : Z) : Prop :=
  m = 1 \/ m = 2 \/ m = 3 \/ m = 4 \/ m = 5 \/ m = 6 \/
  m = 7 \/ m = 8 \/ m = 9 \/ m = 10 \/ m = 11 \/ m = 12.

(** Strictly ascending keys. *)
Definition key_lt {A} (a b : string * A) : Prop := str_lt a.1 b.1.

(** [t] is the timing the generator yields for the pair that ends at the
    event stamped [end_ts]. *)
Definition ends_at (filter_off : bool) (ordered_timestamps : list (string * string))
    (end_ts : string) (t : timing) : Prop :=
  exists x end_activity,
    ordered_timestamps !! Z.to_nat x = Some (end_ts, end_activity) /\
    timing_at filter_off ordered_timestamps x = Ok (Some t).

(** The four events of the end-to-end scenario, stamped [k0] to [k3]. *)
Definition four_events (k0 k1 k2 k3 : string) : gmap string string :=
  <[k0 := "Off"]> (<[k1 := "Coding"]> (<[k2 := "Meetings"]> (<[k3 := "Off"]> ∅))).

(** The scenario on Monday 1 January 2024, from 08:00. *)
Definition scenario : gmap string string :=
  four_events "20240101080000" "20240101090000" "20240101110000" "20240101120000".

(** ['{0}-{1}'.format(yr, week)]. *)
Definition week_index (yr week : Z) : string := py_str yr +:+ "-" +:+ py_str week.

(** What one timing does to the tally of its activity. *)
Definition bump (delta : Z) (o : option tally) : tally :=
  match o with
  | None => mk_tally 1 delta
  | Some v => mk_tally (count v + 1) (time v + delta)
  end.

(** What [get_wow_changes] must hold for an activity of a week, given the
    tally [cur] of the week and the averages [previous] of the weeks
    before it. *)
Definition guarded_change (cur : tally) (previous : gmap string average)
    (activity : string) (w : wow) : Prop :=
  match previous !! activity with
  | Some avg =>
      wow_count w
      = (if (1 <=? avg_count avg)%float
         then (100 * (float_of_Z (count cur) - avg_count avg) / avg_count avg)%float
         else 0%float) /\
      wow_time w
      = (if (1 <? avg_time avg)%float
         then (100 * (float_of_Z (time cur) - avg_time avg) / avg_time avg)%float
         else 0%float)
  | None => w = mk_wow 0 0
  end.

Definition wow_entry_ok (weeks_ago : Z) (weekly_info : gmap string (gmap string tally))
    (week activity : string) (w : wow) : Prop :=
  exists this_week cur previous,
    weekly_info !! week = Some this_week /\ this_week !! activity = Some cur /\
    get_previous_weekly_tally weeks_ago week weekly_info = Ok previous /\
    guarded_change cur previous activity w.

Definition wow_table_ok (weeks_ago : Z) (weekly_info : gmap string (gmap string tally))
    (wow_change : gmap string (gmap string wow)) : Prop :=
  forall week this activity w,
    wow_change !! week = Some this -> this !! activity = Some w ->
    wow_entry_ok weeks_ago weekly_info week activity w.

(** Two weekly tables of four weeks, the current week being the last.
    Over the two weeks before it, the first table has an average count of
    0.5 and an average time of 1800.0; the second has an average count of
    1.0 and an average time of 1.0.  (A count of 0 does not come out of
    [get_weekly_info]; the tables are there to exercise the guards.) *)
Definition half_average_weeks : gmap string (gmap string tally) :=
  <["2024-10" := {["Coding" := mk_tally 0 1800]}]>
  (<["2024-11" := {["Coding" := mk_tally 1 1800]}]>
  (<["2024-12" := {["Coding" := mk_tally 3 7200]}]>
  (<["2024-09" := {["Email" := mk_tally 1 60]}]> ∅))).

Definition unit_average_weeks : gmap string (gmap string tally) :=
  <["2024-10" := {["Coding" := mk_tally 1 1]}]>
  (<["2024-11" := {["Coding" := mk_tally 1 1]}]>
  (<["2024-12" := {["Coding" := mk_tally 3 7200]}]>
  (<["2024-09" := {["Email" := mk_tally 1 60]}]> ∅))).

(** The entry every day starts with. *)
Definition zero_entry : gmap string day_value :=
  <["context_switches" := DInt 0]> (<["day_cnts" := DInt 0]> (<["total_time" := DInt 0]> ∅)).

Definition field_names : list string := ["context_switches"; "day_cnts"; "total_time"].

(** The three counters are there, and nothing else holds an int. *)
Definition entry_ok (entry : gmap string day_value) : Prop :=
  (exists context_switches day_cnts total_time,
     entry !! "context_switches" = Some (DInt context_switches) /\
     entry !! "day_cnts" = Some (DInt day_cnts) /\
     entry !! "total_time" = Some (DInt total_time)) /\
  (forall k n, entry !! k = Some (DInt n) -> k ∈ field_names).

Definition days_ok (l : list timing) (ds : gmap Z (gmap string day_value)) : Prop :=
  dom ds = list_to_set [1; 2; 3; 4; 5; 6; 7] /\
  forall day entry, ds !! day = Some entry ->
    entry_ok entry /\ (entry = zero_entry \/ exists t, t ∈ l /\ day_of_week t = day).

(** Mondays of ISO weeks 8, 9 and 10 of 2024: one hour of coding, then
    two, then one and two. *)
Definition single_digit_history : gmap string string :=
  list_to_map
    [("20240219080000", "Off"); ("20240219090000", "Coding"); ("20240219100000", "Off");
     ("20240226090000", "Coding"); ("20240226110000", "Off");
     ("20240304090000", "Coding"); ("20240304100000", "Off");
     ("20240304110000", "Coding"); ("20240304130000", "Off")].

(** The same days two weeks later: ISO weeks 10, 11 and 12. *)
Definition double_digit_history : gmap string string :=
  list_to_map
    [("20240304080000", "Off"); ("20240304090000", "Coding"); ("20240304100000", "Off");
     ("20240311090000", "Coding"); ("20240311110000", "Off");
     ("20240318090000", "Coding"); ("20240318100000", "Off");
     ("20240318110000", "Coding"); ("20240318130000", "Off")].

(** Work on two Mondays a week apart, and on no day between them. *)
Definition mondays : gmap string string :=
  list_to_map
    [("20240101080000", "Off"); ("20240101090000", "Coding"); ("20240101100000", "Off");
     ("20240108090000", "Coding"); ("20240108100000", "Off")].

(** The number of distinct (day of week, ISO week) pairs among the
    timings that end on [day], as the specification counts the days
    seen. *)
Definition distinct_days_seen (l : list timing) (day : Z) : nat :=
  length (remove_dups ((fun t => (year t, week_number t)) <$>
                         filter (fun t => day_of_week t = day) l)).

(** ** Notions of the further properties *)

(** *** The generator of timings *)

(** The labels of the events that start a pair the generator visits, in
    the order it visits them: all but the first and the last event, newest
    first. *)
Definition started (ordered_timestamps : list (string * string)) : list string :=
  reverse (snd <$> take (length ordered_timestamps - 2) (drop 1 ordered_timestamps)).

(** Every stamp of the dictionary parses. *)
Definition stamps_parse (acts : gmap string string) : Prop :=
  forall k a, acts !! k = Some a -> exists d, strptime k = Ok d.

(** The instant of the event at position [i] of the stream (0 where the
    stamp does not parse). *)
Definition epoch_at (ordered_timestamps : list (string * string)) (i : nat) : Z :=
  match ordered_timestamps !! i with
  | Some (ts, _) => match strptime ts with Ok d => epoch d | Raise _ => 0 end
  | None => 0
  end.

(** What the filter lets through. *)
Definition kept (filter_off : bool) (labels : list string) : list string :=
  if filter_off then filter (fun a => a <> "Off") labels else labels.

(** *** The log writer and the loader *)


(** [s.count(c)]. *)
Fixpoint count_char (c : ascii) (s : string) : nat :=
  match s with
  | EmptyString => 0
  | String a r => if Ascii.eqb a c then S (count_char c r) else count_char c r
  end.








(** *** The weekly table and its keys *)

(** [weekly_info[k][a]], where it is there. *)
Definition tally_at (weekly_info : gmap string (gmap string tally)) (k a : string)
  : option tally :=
  weekly_info !! k ≫= (.!! a).

(** The timings of the week filed under [k] that have the activity [a]. *)
Definition timings_of (l : list timing) (k a : string) : list timing :=
  filter (fun t => weekly_key (year t) (week_number t) = k /\ activity t = a) l.

(** The week of a weekly key: two characters. *)
Definition week_part (week : Z) : string :=
  if week <? 10 then "0" +:+ py_str week else py_str week.

Definition field_ok (w : nat) (s : string) (n : Z) : bool :=
  (String.length s =? w)%nat
  && match digits_value s 0 with Some v => v =? n | None => false end.

(** The week a step of [n] from week [w] lands on. *)
Definition target_week (w n : Z) : Z := if 1 <=? w - n then w - n else 52 + (w - n).

Definition target_year (yr w n : Z) : Z := if 1 <=? w - n then yr else yr - 1.

(** *** The table of changes *)

(** The weeks past the warm-up: those whose position in sorted order is
    above [weeks_ago]. *)
Definition reported_weeks (weeks_ago : Z) (weekly_info : gmap string (gmap string tally))
  : list string :=
  snd <$> filter (fun cw => weeks_ago < cw.1) (enumerate (sorted_str (keys weekly_info))).

(** Every week of the table of changes has the activities the weekly
    table has for it. *)
Definition same_activities (weekly_info : gmap string (gmap string tally))
    (wow_change : gmap string (gmap string wow)) : Prop :=
  forall week this, wow_change !! week = Some this ->
    exists this_week, weekly_info !! week = Some this_week /\ dom this = dom this_week.

(** *** The daily table *)

(** The timings that end on [day], and those of them with the activity [a]. *)
Definition on_day (l : list timing) (day : Z) : list timing :=
  filter (fun t => day_of_week t = day) l.

Definition on_day_of (l : list timing) (day : Z) (a : string) : list timing :=
  filter (fun t => day_of_week t = day /\ activity t = a) l.

(** The number of timings on [day] that follow a timing of another day
    (or none, with the cursor at [current_day]): what [day_cnts] counts. *)
Fixpoint day_changes (current_day : Z) (l : list timing) (day : Z) : Z :=
  match l with
  | [] => 0
  | t :: l' =>
      (if decide (day_of_week t = day /\ day_of_week t <> current_day) then 1 else 0)
      + day_changes (day_of_week t) l' day
  end.

(** The three counters of an entry. *)
Definition counters (entry : gmap string day_value) (context_switches day_cnts total_time : Z)
  : Prop :=
  entry !! "context_switches" = Some (DInt context_switches) /\
  entry !! "day_cnts" = Some (DInt day_cnts) /\
  entry !! "total_time" = Some (DInt total_time).

(** What a timing makes of the record of its activity. *)
Definition act_bump (delta : Z) (o : option day_value) : day_value :=
  match o with
  | Some (DAct total cnt) => DAct (total + delta) (cnt + 1)
  | _ => DAct delta 1
  end.

(** The entry of the day of a timing once its three counters are updated. *)
Definition counted (entry : gmap string day_value) (cs dc tt : Z) (current_day : Z)
    (t : timing) : gmap string day_value :=
  <["total_time" := DInt (tt + time_delta t)]>
    (<["context_switches" := DInt (cs + 1)]>
       (<["day_cnts" := DInt (dc + if decide (day_of_week t <> current_day) then 1 else 0)]>
          entry)).

(** Every entry has its three counters. *)
Definition all_counted (ds : gmap Z (gmap string day_value)) : Prop :=
  forall day entry, ds !! day = Some entry -> exists cs dc tt, counters entry cs dc tt.

(** *** The overall records *)

(** The timings of an activity. *)
Definition timings_with (l : list timing) (a : string) : list timing :=
  filter (fun t => activity t = a) l.

(** A timing is of the weekday class (days 1 to 5) or, with [weekend], of
    the other one. *)
Definition in_class (weekend : bool) (t : timing) : Prop :=
  bool_decide (day_of_week t ∈ [1; 2; 3; 4; 5]) = negb weekend.

#[global] Instance in_class_dec weekend t : Decision (in_class weekend t).
Proof. unfold in_class. apply _. Defined.

(** The durations of an activity in a class, in the order yielded. *)
Definition class_durations (weekend : bool) (l : list timing) (a : string) : list Z :=
  time_delta <$> filter (fun t => activity t = a /\ in_class weekend t) l.

(** The number of timings of a class at which the (day, week) cursor
    moves: what [weekday_cnt] and [weekend_cnt] count. *)
Fixpoint cursor_moves (weekend : bool) (current_day current_week : Z) (l : list timing) : Z :=
  match l with
  | [] => 0
  | t :: l' =>
      (if decide (in_class weekend t /\
                  (day_of_week t <> current_day \/ week_number t <> current_week))
       then 1 else 0)
      + cursor_moves weekend (day_of_week t) (week_number t) l'
  end.

(** Where the cursor stands after the timings [l]. *)
Definition cursor_after (d0 w0 : Z) (l : list timing) : Z * Z :=
  match last l with
  | Some t => (day_of_week t, week_number t)
  | None => (d0, w0)
  end.

(** The record of an activity, with the percentage [p]. *)
Definition record_of (l : list timing) (a : string) (p : option float) : activity_info :=
  mk_activity_info (py_sum (time_delta <$> timings_with l a))
    (class_durations false l a) (Z.of_nat (length (class_durations false l a)))
    (class_durations true l a) (Z.of_nat (length (class_durations true l a)))
    p.

(** A state of the loop agrees with the timings [l] read so far. *)
Definition overall_agrees (l : list timing) (st : overall_state) : Prop :=
  ov_total st = py_sum (time_delta <$> l) /\
  weekday_cnt (ov_counts st) = cursor_moves false (-1) (-1) l /\
  weekend_cnt (ov_counts st) = cursor_moves true (-1) (-1) l /\
  (ov_current_day st, ov_current_week st) = cursor_after (-1) (-1) l /\
  forall a, ov_activities st !! a
            = match timings_with l a with
              | [] => None
              | _ => Some (record_of l a None)
              end.

(** *** The reports *)

(** A week of 2024 with an hour of coding on each of its days. *)
Definition full_week : gmap string string :=
  list_to_map
    [("20240101080000", "Off");
     ("20240101090000", "Coding"); ("20240101100000", "Off");
     ("20240102090000", "Coding"); ("20240102100000", "Off");
     ("20240103090000", "Coding"); ("20240103100000", "Off");
     ("20240104090000", "Coding"); ("20240104100000", "Off");
     ("20240105090000", "Coding"); ("20240105100000", "Off");
     ("20240106090000", "Coding"); ("20240106100000", "Off");
     ("20240107090000", "Coding"); ("20240107100000", "Off")].

(** A history with an activity named like a counter of the daily table. *)
Definition counter_named_history : gmap string string :=
  list_to_map
    [("20240101080000", "Off");
     ("20240101090000", "Coding"); ("20240101100000", "total_time");
     ("20240101110000", "Off")].

(** *** The plot of changes *)

(** The body of [for week in week_labels] of [show_wow_activity_plot]:
    the state is [wow_cnt_change] and [wow_time_change]. *)
Definition wow_plot_step (percentage_cap : float) (activity : string)
    (wow_changes : gmap string (gmap string wow))
    (st : list float * list float) (week : string) : result (list float * list float) :=
  let '(wow_cnt_change, wow_time_change) := st in
  this_week ← getitem wow_changes week;
  match this_week !! activity with
  | Some w =>
      let wow_cnt_change :=
        if (percentage_cap <? wow_count w)%float then wow_cnt_change ++ [percentage_cap]
        else wow_cnt_change ++ [wow_count w] in
      let wow_time_change :=
        if (percentage_cap <? wow_time w)%float then wow_time_change ++ [percentage_cap]
        else wow_time_change ++ [wow_time w] in
      Ok (wow_cnt_change, wow_time_change)
  | None => Ok (wow_cnt_change ++ [0.0%float], wow_time_change ++ [0.0%float])
  end.

(** What [show_wow_activity_plot] hands to [xticks] and [plot]: the week
    labels and the two series. *)
Definition wow_plot_series (activity : string) (wow_changes : gmap string (gmap string wow))
  : result (list string * list float * list float) :=
  let percentage_cap := 1000.0%float in
  let week_labels := sorted_str (keys wow_changes) in
  st ← foldl (fun acc week => st ← acc; wow_plot_step percentage_cap activity wow_changes st week)
         (Ok ([], [])) week_labels;
  Ok (week_labels, st.1, st.2).

Definition show_wow_activity_plot (activity : string) (weeks : Z) (acts : gmap string string)
  : result (list string * list float * list float) :=
  wow_changes ← get_wow_changes weeks acts;
  wow_plot_series activity wow_changes.

(** A value the plot shows is not above the cap. *)
Definition within_cap (v : float) : Prop := (1000.0 <? v)%float = false.

(** ** Calendar arithmetic *)

Lemma days_before_year_succ y :
  days_before_year (y + 1) = days_before_year y + (if is_leap y then 366 else 365).
Proof.
  unfold days_before_year, is_leap.
  replace (y + 1 - 1) with y by lia.
  destruct (y mod 4 =? 0) eqn:E4; destruct (y mod 100 =? 0) eqn:E100;
    destruct (y mod 400 =? 0) eqn:E400; simpl;
    rewrite ?Z.eqb_eq, ?Z.eqb_neq in *;
    Z.div_mod_to_equations; lia.
Qed.

Lemma days_before_year_mono y1 y2 :
  y1 < y2 -> days_before_year y1 + 365 <= days_before_year y2.
Proof.
  intros H. replace y2 with (y1 + 1 + Z.of_nat (Z.to_nat (y2 - y1 - 1))) by lia.
  induction (Z.to_nat (y2 - y1 - 1)) as [|n IH].
  - rewrite Z.add_0_r, days_before_year_succ. destruct (is_leap y1); lia.
  - replace (y1 + 1 + Z.of_nat (S n)) with (y1 + 1 + Z.of_nat n + 1) by lia.
    rewrite days_before_year_succ. destruct (is_leap _); lia.
Qed.

Lemma month_cases_of m : 1 <= m <= 12 -> month_cases m.
Proof. unfold month_cases. lia. Qed.

Lemma days_in_month_pos y m : 1 <= m <= 12 -> 28 <= days_in_month y m <= 31.
Proof.
  intros Hm. apply month_cases_of in Hm. unfold days_in_month.
  destruct (is_leap y);
    repeat (destruct Hm as [->|Hm]; [simpl; lia|]); subst; simpl; lia.
Qed.

Lemma days_before_month_next y m :
  1 <= m < 12 -> days_before_month y (m + 1) = days_before_month y m + days_in_month y m.
Proof.
  intros Hm. assert (month_cases m) as Hc by (apply month_cases_of; lia).
  unfold days_before_month, days_in_month.
  destruct (is_leap y);
    repeat (destruct Hc as [->|Hc]; [simpl; lia|]); subst; simpl; lia.
Qed.

Lemma days_before_month_last y :
  days_before_month y 12 + days_in_month y 12 = if is_leap y then 366 else 365.
Proof. unfold days_before_month, days_in_month. destruct (is_leap y); reflexivity. Qed.

Lemma days_before_month_mono y m1 m2 :
  1 <= m1 -> m1 < m2 -> m2 <= 12 ->
  days_before_month y m1 + days_in_month y m1 <= days_before_month y m2.
Proof.
  intros H1 H12 H2.
  replace m2 with (m1 + 1 + Z.of_nat (Z.to_nat (m2 - m1 - 1))) in * by lia.
  induction (Z.to_nat (m2 - m1 - 1)) as [|n IH].
  - rewrite Z.add_0_r, days_before_month_next; lia.
  - replace (m1 + 1 + Z.of_nat (S n)) with (m1 + 1 + Z.of_nat n + 1) in * by lia.
    rewrite days_before_month_next by lia.
    pose proof (days_in_month_pos y (m1 + 1 + Z.of_nat n)). lia.
Qed.

Lemma days_before_month_bound y m :
  1 <= m <= 12 ->
  0 <= days_before_month y m /\
  days_before_month y m + days_in_month y m <= if is_leap y then 366 else 365.
Proof.
  intros Hm. split.
  - apply month_cases_of in Hm. unfold days_before_month.
    destruct (is_leap y);
      repeat (destruct Hm as [->|Hm]; [simpl; lia|]); subst; simpl; lia.
  - destruct (decide (m = 12)) as [->|Hne].
    + rewrite days_before_month_last. lia.
    + pose proof (days_before_month_mono y m 12).
      pose proof (days_before_month_last y).
      pose proof (days_in_month_pos y 12). lia.
Qed.

(** ** Stamps, seconds and the order of digit strings *)

Lemma valid_bounds d :
  valid d = true ->
  1 <= dt_year d <= 9999 /\ 1 <= dt_month d <= 12 /\
  1 <= dt_day d <= days_in_month (dt_year d) (dt_month d) /\
  0 <= dt_hour d <= 23 /\ 0 <= dt_minute d <= 59 /\ 0 <= dt_second d <= 59.
Proof.
  unfold valid. rewrite !andb_true_iff, !Z.leb_le. lia.
Qed.

Lemma sub_seconds a b :
  td_days (Datetime.sub a b) * 24 * 3600 + td_seconds (Datetime.sub a b)
  = epoch a - epoch b.
Proof.
  unfold Datetime.sub, make_timedelta, epoch. simpl.
  set (s := dt_second a + dt_minute a * 60 + dt_hour a * 3600
            - (dt_second b + dt_minute b * 60 + dt_hour b * 3600)).
  pose proof (Z.div_mod s 86400). lia.
Qed.

Lemma ymd2ord_mono y1 m1 d1 y2 m2 d2 :
  1 <= m1 <= 12 -> 1 <= d1 <= days_in_month y1 m1 ->
  1 <= m2 <= 12 -> 1 <= d2 <= days_in_month y2 m2 ->
  y1 < y2 \/ (y1 = y2 /\ (m1 < m2 \/ (m1 = m2 /\ d1 < d2))) ->
  ymd2ord y1 m1 d1 < ymd2ord y2 m2 d2.
Proof.
  intros Hm1 Hd1 Hm2 Hd2 Hlt. unfold ymd2ord.
  pose proof (days_before_month_bound y1 m1 Hm1) as [B1 B1'].
  pose proof (days_before_month_bound y2 m2 Hm2) as [B2 B2'].
  destruct Hlt as [Hy|[-> [Hm|[-> Hd]]]].
  - assert (y1 + 1 <= y2) as Hy' by lia.
    pose proof (days_before_year_succ y1) as Hs.
    destruct (decide (y1 + 1 = y2)) as [<-|Hne].
    + destruct (is_leap y1); lia.
    + pose proof (days_before_year_mono (y1 + 1) y2). destruct (is_leap y1); lia.
  - pose proof (days_before_month_mono y2 m1 m2). lia.
  - lia.
Qed.

Lemma stamp_epoch_lt d1 d2 :
  valid d1 = true -> valid d2 = true -> stamp d1 < stamp d2 -> epoch d1 < epoch d2.
Proof.
  intros V1 V2. apply valid_bounds in V1, V2.
  destruct d1 as [y1 m1 a1 h1 n1 s1], d2 as [y2 m2 a2 h2 n2 s2].
  unfold stamp, epoch, toordinal; simpl in *. intros Hlt.
  pose proof (days_in_month_pos y1 m1). pose proof (days_in_month_pos y2 m2).
  assert (y1 < y2 \/ (y1 = y2 /\ (m1 < m2 \/ (m1 = m2 /\ a1 < a2)))
          \/ (y1 = y2 /\ m1 = m2 /\ a1 = a2 /\
              h1 * 3600 + n1 * 60 + s1 < h2 * 3600 + n2 * 60 + s2)) as [H1|[H1|H1]] by lia.
  - pose proof (ymd2ord_mono y1 m1 a1 y2 m2 a2). lia.
  - pose proof (ymd2ord_mono y1 m1 a1 y2 m2 a2). lia.
  - destruct H1 as (-> & -> & -> & ?). lia.
Qed.

Lemma stamp_epoch_le d1 d2 :
  valid d1 = true -> valid d2 = true -> stamp d1 <= stamp d2 -> epoch d1 <= epoch d2.
Proof.
  intros V1 V2 Hle.
  destruct (decide (stamp d1 = stamp d2)) as [Heq|Hne].
  - pose proof (valid_bounds _ V1). pose proof (valid_bounds _ V2).
    pose proof (days_in_month_pos (dt_year d1) (dt_month d1)).
    pose proof (days_in_month_pos (dt_year d2) (dt_month d2)).
    destruct d1 as [y1 m1 a1 h1 n1 s1], d2 as [y2 m2 a2 h2 n2 s2].
    unfold stamp in Heq; simpl in *.
    assert (y1 = y2 /\ m1 = m2 /\ a1 = a2 /\ h1 = h2 /\ n1 = n2 /\ s1 = s2)
      as (-> & -> & -> & -> & -> & ->) by lia.
    lia.
  - pose proof (stamp_epoch_lt d1 d2 V1 V2). lia.
Qed.

(** *** Digit strings *)

Lemma digit_of_char_bound c d : digit_of_char c = Some d -> 0 <= d <= 9.
Proof.
  unfold digit_of_char.
  destruct (_ && _) eqn:E; [|discriminate].
  apply andb_true_iff in E as [E1 E2]. intros [= <-]. lia.
Qed.

Lemma digit_of_char_compare c1 c2 d1 d2 :
  digit_of_char c1 = Some d1 -> digit_of_char c2 = Some d2 ->
  Ascii.compare c1 c2 = (d1 ?= d2).
Proof.
  unfold digit_of_char, Ascii.compare.
  destruct (_ && _); [|discriminate]. destruct (_ && _); [|discriminate].
  intros [= <-] [= <-].
  rewrite <- N2Z.inj_compare.
  destruct (Z.compare_spec (Z.of_N (N_of_ascii c1)) (Z.of_N (N_of_ascii c2)));
    symmetry; [apply Z.compare_eq_iff|apply Z.compare_lt_iff|apply Z.compare_gt_iff]; lia.
Qed.

Lemma digits_value_acc s a n :
  digits_value s a = Some n ->
  exists v, 0 <= v < 10 ^ Z.of_nat (String.length s) /\
            forall a', digits_value s a' = Some (a' * 10 ^ Z.of_nat (String.length s) + v).
Proof.
  revert a n. induction s as [|c s IH]; intros a n; simpl.
  - intros _. exists 0. split; [lia|]. intros a'. f_equal. lia.
  - destruct (digit_of_char c) as [d|] eqn:Hd; [|discriminate].
    intros Hs. apply IH in Hs as (v & Hv & Hall).
    pose proof (digit_of_char_bound _ _ Hd).
    rewrite Nat2Z.inj_succ, Z.pow_succ_r by lia.
    exists (d * 10 ^ Z.of_nat (String.length s) + v). split; [nia|].
    intros a'. rewrite Hall. f_equal. lia.
Qed.

Lemma digits_value_compare s1 s2 n1 n2 :
  String.length s1 = String.length s2 ->
  digits_value s1 0 = Some n1 -> digits_value s2 0 = Some n2 ->
  String.compare s1 s2 = (n1 ?= n2).
Proof.
  revert s2 n1 n2. induction s1 as [|c1 s1 IH]; intros [|c2 s2] n1 n2; simpl; try discriminate.
  - intros _ [= <-] [= <-]. reflexivity.
  - intros [= Hlen].
    destruct (digit_of_char c1) as [d1|] eqn:Hd1; [|discriminate].
    destruct (digit_of_char c2) as [d2|] eqn:Hd2; [|discriminate].
    intros H1 H2.
    rewrite (digit_of_char_compare _ _ _ _ Hd1 Hd2).
    pose proof (digit_of_char_bound _ _ Hd1). pose proof (digit_of_char_bound _ _ Hd2).
    destruct (digits_value_acc _ _ _ H1) as (v1 & Hv1 & A1).
    destruct (digits_value_acc _ _ _ H2) as (v2 & Hv2 & A2).
    rewrite A1 in H1. rewrite A2 in H2. injection H1 as <-. injection H2 as <-.
    rewrite <- Hlen in *.
    set (p := 10 ^ Z.of_nat (String.length s1)) in *.
    destruct (d1 ?= d2) eqn:Hc.
    + apply Z.compare_eq in Hc as ->.
      rewrite (IH s2 v1 v2 Hlen).
      * rewrite Z.add_compare_mono_l. reflexivity.
      * rewrite (A1 0). f_equal; lia.
      * rewrite (A2 0). f_equal; lia.
    + symmetry. apply Z.compare_lt_iff. change (d1 < d2) in Hc.
      assert ((d1 + 1) * p <= d2 * p) by (apply Z.mul_le_mono_nonneg_r; lia). lia.
    + symmetry. apply Z.compare_gt_iff. apply Z.compare_gt_iff in Hc.
      assert ((d2 + 1) * p <= d1 * p) by (apply Z.mul_le_mono_nonneg_r; lia). lia.
Qed.

Lemma strptime_inv ts d :
  strptime ts = Ok d ->
  String.length ts = 14%nat /\ valid d = true /\ digits_value ts 0 = Some (stamp d).
Proof.
  unfold strptime. destruct (String.length ts =? 14)%nat eqn:Hlen; [|discriminate].
  apply Nat.eqb_eq in Hlen.
  destruct (digits_value ts 0) as [n|] eqn:Hn; [|discriminate].
  destruct (valid _) eqn:Hv; [|discriminate].
  intros [= <-]. split; [done|]. split; [done|].
  f_equal. unfold stamp; simpl.
  apply valid_bounds in Hv. simpl in Hv.
  Z.div_mod_to_equations. lia.
Qed.

Lemma strptime_compare ts1 ts2 d1 d2 :
  strptime ts1 = Ok d1 -> strptime ts2 = Ok d2 ->
  String.compare ts1 ts2 = (epoch d1 ?= epoch d2).
Proof.
  intros H1 H2.
  apply strptime_inv in H1 as (L1 & V1 & D1). apply strptime_inv in H2 as (L2 & V2 & D2).
  rewrite (digits_value_compare ts1 ts2 _ _ (eq_trans L1 (eq_sym L2)) D1 D2).
  destruct (stamp d1 ?= stamp d2) eqn:Hc; symmetry.
  - apply Z.compare_eq in Hc. apply Z.compare_eq_iff.
    pose proof (stamp_epoch_le d1 d2 V1 V2). pose proof (stamp_epoch_le d2 d1 V2 V1). lia.
  - apply Z.compare_lt_iff. change (stamp d1 < stamp d2) in Hc. by apply stamp_epoch_lt.
  - apply Z.compare_gt_iff. apply Z.compare_gt_iff in Hc.
    pose proof (stamp_epoch_lt d2 d1 V2 V1). lia.
Qed.

(** *** The order of strings *)

Lemma str_compare_lt_trans s1 s2 s3 :
  String.compare s1 s2 = Lt -> String.compare s2 s3 = Lt -> String.compare s1 s3 = Lt.
Proof.
  revert s2 s3. induction s1 as [|c1 s1 IH]; intros [|c2 s2] [|c3 s3]; simpl; try done.
  unfold Ascii.compare.
  destruct (N.compare_spec (N_of_ascii c1) (N_of_ascii c2)) as [E12|L12|G12]; try done;
    destruct (N.compare_spec (N_of_ascii c2) (N_of_ascii c3)) as [E23|L23|G23]; try done;
    destruct (N.compare_spec (N_of_ascii c1) (N_of_ascii c3)) as [E13|L13|G13];
    try done; try lia.
  apply IH.
Qed.

Lemma str_le_lt s1 s2 : str_le s1 s2 <-> str_lt s1 s2 \/ s1 = s2.
Proof.
  unfold str_le, str_lt, String.leb, String.ltb.
  destruct (String.compare s1 s2) eqn:Hc; simpl.
  - apply String.compare_eq_iff in Hc. tauto.
  - tauto.
  - split; [discriminate|]. intros [?| ->]; [discriminate|]. 
    pose proof (String.compare_antisym s2 s2) as Ha. rewrite Hc in Ha. discriminate.
Qed.

Lemma str_lt_irrefl s : ~ str_lt s s.
Proof.
  unfold str_lt, String.ltb. pose proof (String.compare_antisym s s).
  destruct (String.compare s s); done.
Qed.

Lemma str_lt_trans s1 s2 s3 : str_lt s1 s2 -> str_lt s2 s3 -> str_lt s1 s3.
Proof.
  unfold str_lt, String.ltb.
  destruct (String.compare s1 s2) eqn:H12; try done.
  destruct (String.compare s2 s3) eqn:H23; try done.
  by rewrite (str_compare_lt_trans _ _ _ H12 H23).
Qed.

#[global] Instance str_le_trans : Transitive str_le.
Proof.
  intros s1 s2 s3. rewrite !str_le_lt.
  intros [H12| ->] [H23| ->]; eauto using str_lt_trans.
Qed.

#[global] Instance str_le_total : Total str_le.
Proof. intros s1 s2. apply String.leb_total. Qed.

#[global] Instance str_le_antisym : AntiSymm (=) str_le.
Proof. intros s1 s2. apply String.leb_antisym. Qed.

#[global] Instance key_le_trans {A} : Transitive (@key_le A).
Proof. intros a b c. unfold key_le. apply str_le_trans. Qed.

#[global] Instance key_le_total {A} : Total (@key_le A).
Proof. intros a b. unfold key_le. apply str_le_total. Qed.

(** *** The ordered stream *)

Lemma StronglySorted_strict {A} (l : list (string * A)) :
  NoDup l.*1 -> StronglySorted key_le l -> StronglySorted key_lt l.
Proof.
  induction l as [|a l IH]; intros Hnd Hs; [constructor|].
  apply NoDup_cons in Hnd as [Hnotin Hnd].
  apply StronglySorted_inv in Hs as [Hs Hall].
  constructor; [by apply IH|].
  rewrite Forall_forall in *. intros b Hb.
  specialize (Hall b Hb). unfold key_le in Hall. apply str_le_lt in Hall as [?|Heq]; [done|].
  exfalso. apply Hnotin. rewrite Heq. apply list_elem_of_fmap. eauto.
Qed.

Lemma ordered_Permutation (acts : gmap string string) :
  get_ordered_activity_timestamps acts ≡ₚ map_to_list acts.
Proof. apply merge_sort_Permutation. Qed.

Lemma ordered_length (acts : gmap string string) :
  length (get_ordered_activity_timestamps acts) = size acts.
Proof. rewrite ordered_Permutation. apply length_map_to_list. Qed.

Lemma ordered_sorted (acts : gmap string string) :
  StronglySorted key_lt (get_ordered_activity_timestamps acts).
Proof.
  apply StronglySorted_strict.
  - rewrite ordered_Permutation. apply NoDup_fst_map_to_list.
  - apply (StronglySorted_merge_sort key_le).
Qed.

Lemma sorted_lookup_lt {A} (l : list (string * A)) i j a b :
  StronglySorted key_lt l -> l !! i = Some a -> l !! j = Some b -> (i < j)%nat ->
  str_lt a.1 b.1.
Proof.
  intros Hs. revert i j. induction Hs as [|x l Hs IH Hall]; intros i j Hi Hj Hlt.
  - done.
  - destruct j as [|j]; [lia|]. simpl in Hj.
    destruct i as [|i]; simpl in Hi.
    + injection Hi as ->. rewrite Forall_forall in Hall. apply Hall.
      by eapply list_elem_of_lookup_2.
    + apply (IH i j); [done..|lia].
Qed.

(** ** The interval reconstructor *)

Lemma timing_at_yield filter_off ots x t :
  timing_at filter_off ots x = Ok (Some t) ->
  exists end_ts end_activity start_ts d_end d_start,
    ots !! Z.to_nat x = Some (end_ts, end_activity) /\
    ots !! Z.to_nat (x - 1) = Some (start_ts, activity t) /\
    strptime end_ts = Ok d_end /\ strptime start_ts = Ok d_start /\
    time_delta t = epoch d_end - epoch d_start /\
    (year t, week_number t, day_of_week t) = isocalendar d_end /\
    (filter_off = true -> activity t <> "Off").
Proof.
  unfold timing_at.
  destruct (ots !! Z.to_nat x) as [[end_ts end_activity]|] eqn:Hx; [|discriminate].
  destruct (ots !! Z.to_nat (x - 1)) as [[start_ts start_activity]|] eqn:Hx1; [|discriminate].
  destruct (filter_off && String.eqb start_activity "Off") eqn:Hf; [discriminate|].
  destruct (strptime end_ts) as [d_end|] eqn:He; [|discriminate].
  destruct (strptime start_ts) as [d_start|] eqn:Hs; [|discriminate].
  simpl. destruct (isocalendar d_end) as [[y w] d] eqn:Hiso.
  intros [= <-]. simpl.
  exists end_ts, end_activity, start_ts, d_end, d_start.
  repeat split; try done.
  - apply sub_seconds.
  - intros ->. simpl in Hf. apply String.eqb_neq in Hf. done.
Qed.

Lemma timings_from_length filter_off ots xs :
  (length (timings_from filter_off ots xs).1 <= length xs)%nat.
Proof.
  induction xs as [|x xs IH]; simpl; [lia|].
  destruct (timing_at filter_off ots x) as [[t|]|e]; simpl; lia.
Qed.

Lemma timings_from_ends filter_off ots xs :
  StronglySorted key_lt ots ->
  StronglySorted (fun a b => b < a) xs ->
  Forall (fun x => 1 <= x) xs ->
  exists ends,
    Forall2 (ends_at filter_off ots) ends (timings_from filter_off ots xs).1 /\
    StronglySorted (flip str_lt) ends /\
    Forall (fun e => exists x a, x ∈ xs /\ ots !! Z.to_nat x = Some (e, a)) ends.
Proof.
  intros Hots. induction xs as [|x xs IH]; intros Hxs Hge; simpl.
  - exists []. repeat constructor.
  - apply StronglySorted_inv in Hxs as [Hxs Hlt].
    apply Forall_cons in Hge as [Hx Hge].
    destruct (IH Hxs Hge) as (ends & Hends & Hsorted & Hidx).
    assert (Forall (fun e => exists x0 a, x0 ∈ x :: xs /\ ots !! Z.to_nat x0 = Some (e, a)) ends)
      as Hidx'.
    { eapply Forall_impl; [exact Hidx|]. intros e (x0 & a & ? & ?).
      exists x0, a. split; [by right|done]. }
    destruct (timing_at filter_off ots x) as [[t|]|e] eqn:Ht; simpl.
    + destruct (timing_at_yield _ _ _ _ Ht) as (end_ts & end_activity & _ & _ & _ & Hi & _).
      exists (end_ts :: ends). split; [|split].
      * constructor; [|done]. exists x, end_activity. done.
      * constructor; [done|].
        eapply Forall_impl; [exact Hidx|]. intros e (x0 & a & Hin & Hlook). simpl.
        rewrite Forall_forall in Hlt, Hge.
        specialize (Hlt _ Hin). specialize (Hge _ Hin).
        apply (sorted_lookup_lt ots (Z.to_nat x0) (Z.to_nat x) (e, a) (end_ts, end_activity));
          [done..|lia].
      * constructor; [|done]. exists x, end_activity. split; [by left|done].
    + exists ends. done.
    + exists []. repeat constructor.
Qed.

Lemma range_down_length start stop :
  length (range_down start stop) = Z.to_nat (start - stop).
Proof. unfold range_down. by rewrite length_fmap, length_seq. Qed.

Lemma range_down_elem start stop x :
  x ∈ range_down start stop <-> stop < x <= start.
Proof.
  unfold range_down. rewrite list_elem_of_fmap. setoid_rewrite elem_of_seq. split.
  - intros (k & -> & Hk). lia.
  - intros Hx. exists (Z.to_nat (start - x)). lia.
Qed.

Lemma range_down_sorted start stop :
  StronglySorted (fun a b => b < a) (range_down start stop).
Proof.
  unfold range_down. generalize (Z.to_nat (start - stop)) as n. generalize 0%nat as k.
  intros k n. revert k. induction n as [|n IH]; intros k; simpl; constructor.
  - apply IH.
  - apply Forall_forall. intros b. rewrite list_elem_of_fmap. setoid_rewrite elem_of_seq.
    intros (j & -> & Hj). lia.
Qed.

(** C4.  On the ordered stream of a history of N >= 2 events the
    generator yields at most N - 2 timings; every [time_delta] yielded is
    non-negative; and the timings come newest first: the stamps of the
    events they end at are strictly descending. *)
Theorem reconstructor_bounds (filter_off : bool) (acts : gmap string string) :
  (2 <= size acts)%nat ->
  let ordered_timestamps := get_ordered_activity_timestamps acts in
  let yielded := (get_activity_timings filter_off acts).1 in
  (length yielded <= size acts - 2)%nat /\
  Forall (fun t => 0 <= time_delta t) yielded /\
  exists ends,
    Forall2 (ends_at filter_off ordered_timestamps) ends yielded /\
    StronglySorted (flip str_lt) ends.
Proof.
  intros HN ots yielded. subst yielded. unfold get_activity_timings. fold ots.
  pose proof (ordered_sorted acts) as Hsorted. fold ots in Hsorted.
  pose proof (ordered_length acts) as Hlen. fold ots in Hlen.
  set (xs := range_down (Z.of_nat (length ots) - 1) 1).
  assert (Forall (fun x => 2 <= x) xs) as Hge.
  { apply Forall_forall. intros x Hx. apply range_down_elem in Hx. lia. }
  split; [|split].
  - etrans; [apply timings_from_length|]. unfold xs. rewrite range_down_length. lia.
  - clearbody xs. clear Hlen HN.
    induction xs as [|x xs IH]; simpl; [constructor|].
    apply Forall_cons in Hge as [Hx Hge].
    destruct (timing_at filter_off ots x) as [[t|]|e] eqn:Ht; simpl; auto.
    constructor; [|auto].
    destruct (timing_at_yield _ _ _ _ Ht)
      as (end_ts & end_activity & start_ts & d_end & d_start & Hi & Hi1 & He & Hs & -> & _).
    assert (str_lt start_ts end_ts) as Hlt.
    { apply (sorted_lookup_lt ots _ _ _ _ Hsorted Hi1 Hi). lia. }
    unfold str_lt, String.ltb in Hlt.
    rewrite (strptime_compare _ _ _ _ Hs He) in Hlt.
    destruct (epoch d_start ?= epoch d_end) eqn:Hc; simpl in Hlt; try discriminate.
    change (epoch d_start < epoch d_end) in Hc. lia.
  - destruct (timings_from_ends filter_off ots xs Hsorted) as (ends & H1 & H2 & _).
    + apply range_down_sorted.
    + eapply Forall_impl; [exact Hge|]. simpl. lia.
    + exists ends. done.
Qed.

Lemma reconstructor_bounds_witness :
  (length (get_activity_timings true scenario).1 <= size scenario - 2)%nat /\
  Forall (fun t => 0 <= time_delta t) (get_activity_timings true scenario).1 /\
  exists ends,
    Forall2 (ends_at true (get_ordered_activity_timestamps scenario)) ends
      (get_activity_timings true scenario).1 /\
    StronglySorted (flip str_lt) ends.
Proof. apply (reconstructor_bounds true scenario). vm_compute. lia. Defined.

(** ** The end-to-end scenario *)

Lemma sorted_by_key_unique {A} (l l' : list (string * A)) :
  l ≡ₚ l' -> NoDup l.*1 -> StronglySorted key_le l' -> sorted_by_key l = l'.
Proof.
  intros Hperm Hnd Hs. apply (StronglySorted_unique_strong key_le).
  - intros [k1 v1] [k2 v2] H1 H2 Hle1 Hle2. unfold key_le in *. simpl in *.
    assert (k1 = k2) as <- by (by apply (anti_symm str_le)).
    f_equal.
    unfold sorted_by_key in H1. rewrite merge_sort_Permutation in H1.
    rewrite <- Hperm in H2.
    apply (elem_of_list_to_map (M := gmap string)) in H1, H2; try done.
    congruence.
  - apply (StronglySorted_merge_sort key_le).
  - done.
  - unfold sorted_by_key. by rewrite merge_sort_Permutation.
Qed.

Lemma str_lt_of_epoch ts1 ts2 d1 d2 :
  strptime ts1 = Ok d1 -> strptime ts2 = Ok d2 -> epoch d1 < epoch d2 -> str_lt ts1 ts2.
Proof.
  intros H1 H2 Hlt. unfold str_lt, String.ltb.
  rewrite (strptime_compare _ _ _ _ H1 H2). by rewrite Hlt.
Qed.

Lemma str_lt_le s1 s2 : str_lt s1 s2 -> str_le s1 s2.
Proof. intros. apply str_le_lt. by left. Qed.

Lemma str_lt_ne s1 s2 : str_lt s1 s2 -> s1 <> s2.
Proof. intros Hlt ->. by apply str_lt_irrefl in Hlt. Qed.

Lemma four_events_ordered k0 k1 k2 k3 :
  str_lt k0 k1 -> str_lt k1 k2 -> str_lt k2 k3 ->
  get_ordered_activity_timestamps (four_events k0 k1 k2 k3)
  = [(k0, "Off"); (k1, "Coding"); (k2, "Meetings"); (k3, "Off")].
Proof.
  intros H01 H12 H23.
  pose proof (str_lt_trans _ _ _ H01 H12) as H02.
  pose proof (str_lt_trans _ _ _ H12 H23) as H13.
  pose proof (str_lt_trans _ _ _ H01 H13) as H03.
  apply sorted_by_key_unique.
  - unfold four_events.
    assert (forall a b, str_lt a b -> b <> a) as Hne
      by (intros a b Hab ->; by apply str_lt_irrefl in Hab).
    rewrite !map_to_list_insert, map_to_list_empty; [done|..];
      rewrite ?lookup_insert_ne, ?lookup_empty; auto.
  - apply NoDup_fst_map_to_list.
  - unfold key_le. repeat constructor; simpl; auto using str_lt_le.
Qed.

Lemma timing_at_eval filter_off ots x end_ts end_activity start_ts start_activity
    d_end d_start :
  ots !! Z.to_nat x = Some (end_ts, end_activity) ->
  ots !! Z.to_nat (x - 1) = Some (start_ts, start_activity) ->
  filter_off && String.eqb start_activity "Off" = false ->
  strptime end_ts = Ok d_end -> strptime start_ts = Ok d_start ->
  timing_at filter_off ots x
  = Ok (Some (mk_timing start_activity (isocalendar d_end).1.1 (isocalendar d_end).1.2
                (isocalendar d_end).2 (epoch d_end - epoch d_start))).
Proof.
  intros Hx Hx1 Hf He Hs. unfold timing_at. rewrite Hx, Hx1, Hf, He, Hs.
  cbn [mbind result_bind]. rewrite sub_seconds.
  by destruct (isocalendar d_end) as [[y w] d].
Qed.

(** C1, as the code has it.  For four events [Off] at T0, [Coding] an hour
    later, [Meetings] three hours after T0 and [Off] four hours after T0,
    with [filter_off] set, the generator yields two timings and ends
    normally: first [Meetings] with 3600 seconds, then [Coding] with 7200
    seconds, each with the ISO calendar position of the event it ends
    at. *)
Theorem scenario_two_intervals (k0 k1 k2 k3 : string) (d0 d1 d2 d3 : datetime) :
  strptime k0 = Ok d0 -> strptime k1 = Ok d1 ->
  strptime k2 = Ok d2 -> strptime k3 = Ok d3 ->
  epoch d1 = epoch d0 + 3600 ->
  epoch d2 = epoch d0 + 3 * 3600 ->
  epoch d3 = epoch d0 + 4 * 3600 ->
  exists t1 t2,
    get_activity_timings true (four_events k0 k1 k2 k3) = ([t1; t2], None) /\
    activity t1 = "Meetings" /\ time_delta t1 = 3600 /\
    (year t1, week_number t1, day_of_week t1) = isocalendar d3 /\
    activity t2 = "Coding" /\ time_delta t2 = 7200 /\
    (year t2, week_number t2, day_of_week t2) = isocalendar d2.
Proof.
  intros P0 P1 P2 P3 E1 E2 E3.
  assert (str_lt k0 k1) by (apply (str_lt_of_epoch _ _ d0 d1); [done..|lia]).
  assert (str_lt k1 k2) by (apply (str_lt_of_epoch _ _ d1 d2); [done..|lia]).
  assert (str_lt k2 k3) by (apply (str_lt_of_epoch _ _ d2 d3); [done..|lia]).
  unfold get_activity_timings. rewrite four_events_ordered by done.
  change (range_down _ 1) with [3; 2]. cbn [timings_from].
  erewrite (timing_at_eval true _ 3) by (done || reflexivity).
  erewrite (timing_at_eval true _ 2) by (done || reflexivity).
  eexists _, _. split; [reflexivity|]. cbn [activity time_delta year week_number day_of_week].
  destruct (isocalendar d3) as [[y3 w3] a3], (isocalendar d2) as [[y2 w2] a2].
  repeat split; lia.
Qed.

Lemma scenario_two_intervals_witness :
  exists t1 t2,
    get_activity_timings true scenario = ([t1; t2], None) /\
    activity t1 = "Meetings" /\ time_delta t1 = 3600 /\
    (year t1, week_number t1, day_of_week t1) = (2024, 1, 1) /\
    activity t2 = "Coding" /\ time_delta t2 = 7200 /\
    (year t2, week_number t2, day_of_week t2) = (2024, 1, 1).
Proof.
  apply (scenario_two_intervals _ _ _ _
           (mk_datetime 2024 1 1 8 0 0) (mk_datetime 2024 1 1 9 0 0)
           (mk_datetime 2024 1 1 11 0 0) (mk_datetime 2024 1 1 12 0 0));
    vm_compute; reflexivity.
Defined.

(** C1, as stated, fails on the scenario of 1 January 2024: the timings
    yielded are not a single [Coding] one. *)
Lemma scenario_not_single :
  ~ (exists t, (get_activity_timings true scenario).1 = [t] /\
               activity t = "Coding" /\ time_delta t = 7200).
Proof.
  intros (t & Hone & _).
  assert (length (get_activity_timings true scenario).1 = 2%nat) as Hlen
    by (vm_compute; reflexivity).
  rewrite Hone in Hlen. discriminate.
Qed.

(** ** Week indices *)

Lemma py_int_str z : py_int (py_str z) = Ok z.
Proof.
  unfold py_int, py_str. rewrite NilZero.isi.
  - by rewrite DecimalZ.of_to.
  - destruct z; simpl; try discriminate.
    intros [= H]. by apply (DecimalPos.Unsigned.to_uint_nonnil p).
  - destruct z; simpl; try discriminate.
    intros [= H]. by apply (DecimalPos.Unsigned.to_uint_nonnil p).
Qed.

Lemma append_cons c (s r : string) : String c s +:+ r = String c (s +:+ r).
Proof. reflexivity. Qed.

Lemma append_nil (r : string) : "" +:+ r = r.
Proof. reflexivity. Qed.

Lemma append_empty_r (s : string) : s +:+ "" = s.
Proof. induction s as [|c s IH]; [done|]. by rewrite append_cons, IH. Qed.

Lemma split_on_nonempty sep s : split_on sep s <> [].
Proof. destruct s; simpl; [done|]. by repeat case_match. Qed.

Lemma split_on_uint (d : uint) (rest : string) :
  split_on "-" (NilEmpty.string_of_uint d +:+ rest)
  = match split_on "-" rest with
    | w :: ws => (NilEmpty.string_of_uint d +:+ w) :: ws
    | [] => [NilEmpty.string_of_uint d]
    end.
Proof.
  pose proof (split_on_nonempty "-" rest) as Hne.
  induction d; cbn [NilEmpty.string_of_uint]; rewrite ?append_cons, ?append_nil;
    cbn [split_on Ascii.eqb Bool.eqb]; rewrite ?IHd;
    destruct (split_on "-" rest); done.
Qed.

Lemma py_str_nonneg z :
  0 <= z -> exists d, py_str z = NilEmpty.string_of_uint d.
Proof.
  intros Hz. unfold py_str. destruct z as [|p|p]; [| |lia].
  - by exists (D0 Nil).
  - exists (Pos.to_uint p). simpl. unfold NilZero.string_of_uint.
    pose proof (DecimalPos.Unsigned.to_uint_nonnil p). by destruct (Pos.to_uint p).
Qed.

Lemma split_on_digits (d : uint) :
  split_on "-" (NilEmpty.string_of_uint d) = [NilEmpty.string_of_uint d].
Proof.
  pose proof (split_on_uint d "") as H. rewrite append_empty_r in H.
  rewrite H. cbn [split_on]. by rewrite append_empty_r.
Qed.

Lemma split_on_index (d1 d2 : uint) :
  split_on "-" (NilEmpty.string_of_uint d1 +:+ "-" +:+ NilEmpty.string_of_uint d2)
  = [NilEmpty.string_of_uint d1; NilEmpty.string_of_uint d2].
Proof.
  rewrite split_on_uint, append_cons, append_nil. cbn [split_on Ascii.eqb Bool.eqb].
  rewrite split_on_digits. by rewrite append_empty_r.
Qed.

Lemma weekly_key_split yr week :
  0 <= yr -> 0 <= week ->
  exists current_week,
    split_on "-" (weekly_key yr week) = [py_str yr; current_week] /\
    py_int current_week = Ok week.
Proof.
  intros Hyr Hweek. unfold weekly_key.
  destruct (py_str_nonneg yr Hyr) as [dy Hy].
  destruct (week <? 10) eqn:Hlt.
  - apply Z.ltb_lt in Hlt.
    exists ("0" +:+ py_str week). split.
    + destruct (py_str_nonneg week Hweek) as [dw Hw]. rewrite Hy, Hw.
      change ("-0" +:+ NilEmpty.string_of_uint dw)
        with ("-" +:+ NilEmpty.string_of_uint (D0 dw)).
      apply split_on_index.
    + assert (week = 0 \/ week = 1 \/ week = 2 \/ week = 3 \/ week = 4 \/ week = 5 \/
              week = 6 \/ week = 7 \/ week = 8 \/ week = 9) as Hc by lia.
      repeat (destruct Hc as [->|Hc]; [reflexivity|]). by subst.
  - exists (py_str week). split; [|apply py_int_str].
    destruct (py_str_nonneg week Hweek) as [dw Hw]. rewrite Hy, Hw.
    apply split_on_index.
Qed.

(** C6.  From the key of week [w] of year [yr], stepping [n >= 1] weeks
    back gives the index of week [w - n] of the same year when
    [w - n >= 1], and of week [52 + (w - n)] of the year before otherwise.
    From week 1 of 2024 the steps 1 and 2 give weeks 52 and 51 of 2023,
    under the very keys [get_weekly_info] files them. *)
Theorem weeks_ago_index_wraps (yr w n : Z) :
  0 <= yr -> 0 <= w -> 1 <= n ->
  compute_weeks_ago_index (weekly_key yr w) n
  = Ok (if 1 <=? w - n then week_index yr (w - n)
        else week_index (yr - 1) (52 + (w - n)))
  /\ compute_weeks_ago_index (weekly_key 2024 1) 1 = Ok (week_index 2023 52)
  /\ compute_weeks_ago_index (weekly_key 2024 1) 2 = Ok (week_index 2023 51)
  /\ week_index 2023 52 = weekly_key 2023 52
  /\ week_index 2023 51 = weekly_key 2023 51.
Proof.
  intros Hyr Hw Hn. split; [|by vm_compute].
  unfold compute_weeks_ago_index.
  destruct (weekly_key_split yr w Hyr Hw) as (current_week & -> & ->).
  cbn [mbind result_bind].
  rewrite Z.leb_antisym. destruct (w - n <? 1); cbn [negb]; [|done].
  by rewrite py_int_str.
Qed.

Lemma weeks_ago_index_wraps_witness :
  compute_weeks_ago_index (weekly_key 2024 2) 3 = Ok "2023-51".
Proof. apply (weeks_ago_index_wraps 2024 2 3); lia. Defined.

(** ** Weekly aggregation *)

Lemma weekly_step_insert (m : gmap string (gmap string tally)) t :
  weekly_step m t
  = let k := weekly_key (year t) (week_number t) in
    let week := default ∅ (m !! k) in
    <[k := <[activity t := bump (time_delta t) (week !! activity t)]> week]> m.
Proof.
  unfold weekly_step. cbn zeta.
  destruct (m !! weekly_key (year t) (week_number t)) as [week|] eqn:Hk.
  - rewrite Hk. simpl. by destruct (week !! activity t).
  - rewrite lookup_insert_eq. simpl. rewrite lookup_empty. simpl.
    by rewrite insert_insert_eq.
Qed.

Lemma bump_bump d1 d2 o : bump d1 (Some (bump d2 o)) = bump d2 (Some (bump d1 o)).
Proof. destruct o as [[c t]|]; simpl; f_equal; lia. Qed.

Lemma weekly_step_comm (m : gmap string (gmap string tally)) t1 t2 :
  weekly_step (weekly_step m t1) t2 = weekly_step (weekly_step m t2) t1.
Proof.
  rewrite !weekly_step_insert. cbn zeta.
  set (k1 := weekly_key (year t1) (week_number t1)).
  set (k2 := weekly_key (year t2) (week_number t2)).
  destruct (decide (k1 = k2)) as [Hk|Hk].
  - rewrite <- Hk. rewrite !lookup_insert_eq, !insert_insert_eq. simpl. f_equal.
    set (week := default ∅ (m !! k1)).
    destruct (decide (activity t1 = activity t2)) as [Ha|Ha].
    + rewrite <- Ha. rewrite !lookup_insert_eq, !insert_insert_eq. f_equal.
      apply bump_bump.
    + rewrite !lookup_insert_ne by done. by apply insert_insert_ne.
  - rewrite !lookup_insert_ne by done. by apply insert_insert_ne.
Qed.

Lemma foldl_Permutation {A B} (f : B -> A -> B) (l l' : list A) :
  (forall b x y, f (f b x) y = f (f b y) x) ->
  l ≡ₚ l' -> forall b, foldl f b l = foldl f b l'.
Proof.
  intros Hf Hperm. induction Hperm as [|x l l' _ IH|x y l|l1 l2 l3 _ IH1 _ IH2]; intros b; simpl.
  - done.
  - apply IH.
  - by rewrite Hf.
  - by rewrite IH1.
Qed.

Lemma for_each_pure {A S} (f : S -> A -> S) (l : list A) (e : option exn) (init : S) :
  for_each (l, e) (fun s t => Ok (f s t)) init
  = match e with
    | None => Ok (foldl f init l)
    | Some e => Raise e
    end.
Proof.
  unfold for_each. cbn [fst snd].
  assert (forall r, foldl (fun acc t => s ← acc; Ok (f s t)) (Ok r) l = Ok (foldl f r l)) as ->.
  { induction l as [|x l IH]; intros r; simpl; [done|]. apply IH. }
  done.
Qed.

(** C7.  The weekly table does not depend on the order of the timings:
    two sequences that are permutations of each other fold to the same
    table. *)
Theorem weekly_info_order_independent (l l' : list timing) (e : option exn) :
  l ≡ₚ l' -> weekly_info_of (l, e) = weekly_info_of (l', e).
Proof.
  intros Hperm. unfold weekly_info_of. rewrite !for_each_pure.
  destruct e; [done|]. f_equal.
  apply foldl_Permutation; [|done]. intros. apply weekly_step_comm.
Qed.

Lemma weekly_info_order_independent_witness :
  weekly_info_of ([mk_timing "Coding" 2024 1 1 7200; mk_timing "Meetings" 2024 1 1 3600], None)
  = weekly_info_of ([mk_timing "Meetings" 2024 1 1 3600; mk_timing "Coding" 2024 1 1 7200], None).
Proof. apply weekly_info_order_independent. apply Permutation_swap. Defined.

(** ** Week over week changes *)

Lemma leb_one_nonzero (p : float) :
  (1.0 <=? p)%float = true -> PrimFloat.eqb p 0%float = false.
Proof.
  rewrite FloatAxioms.leb_spec, FloatAxioms.eqb_spec.
  change (Prim2SF 1.0) with (S754_finite false 4503599627370496 (-52)).
  change (Prim2SF 0) with (S754_zero false).
  destruct (Prim2SF p) as [s|s| |s m e]; try destruct s; try done.
Qed.

Lemma ltb_one_nonzero (p : float) :
  (float_of_Z 1 <? p)%float = true -> PrimFloat.eqb p 0%float = false.
Proof.
  rewrite FloatAxioms.ltb_spec, FloatAxioms.eqb_spec.
  change (Prim2SF (float_of_Z 1)) with (S754_finite false 4503599627370496 (-52)).
  change (Prim2SF 0) with (S754_zero false).
  destruct (Prim2SF p) as [s|s| |s m e]; try destruct s; try done.
Qed.

(** *** Loops that can raise *)

Lemma foldl_result_inv {A S} (Inv : S -> Prop) (body : S -> A -> result S)
    (l : list A) (init r : S) :
  Inv init ->
  (forall s x s', x ∈ l -> Inv s -> body s x = Ok s' -> Inv s') ->
  foldl (fun acc x => s ← acc; body s x) (Ok init) l = Ok r -> Inv r.
Proof.
  revert init. induction l as [|x l IH]; intros init Hinit Hstep; simpl.
  - by intros [= <-].
  - destruct (body init x) as [s'|e] eqn:Hb.
    + apply IH.
      * eapply Hstep; [by left|done..].
      * intros s y s'' Hy. apply Hstep. by right.
    + assert (forall l', foldl (fun acc x => s ← acc; body s x) (Raise e) l' = Raise e) as ->
        by (induction l' as [|? ? IH']; simpl; [done|apply IH']).
      discriminate.
Qed.

Lemma for_items_inv `{Countable K} {V S} (Inv : S -> Prop) (d : gmap K V)
    (body : S -> K -> V -> result S) (init r : S) :
  Inv init ->
  (forall s k v s', d !! k = Some v -> Inv s -> body s k v = Ok s' -> Inv s') ->
  for_items d body init = Ok r -> Inv r.
Proof.
  intros Hinit Hstep. unfold for_items.
  cut (forall d', d' ⊆ d -> forall r',
         map_fold (fun k v acc => s ← acc; body s k v) (Ok init) d' = Ok r' -> Inv r').
  { intros Hcut. by apply Hcut. }
  intros d'.
  induction d' as [|k v d' Hk Hfold IH] using map_first_key_ind; intros Hsub r'.
  - rewrite map_fold_empty. by intros [= <-].
  - rewrite map_fold_insert_first_key by done.
    destruct (map_fold _ _ d') as [s|e] eqn:Hs; [|discriminate].
    cbn [mbind result_bind]. apply Hstep.
    + eapply lookup_weaken; [|exact Hsub]. apply lookup_insert_eq.
    + apply (IH ltac:(etrans; [by apply insert_subseteq|done]) s eq_refl).
Qed.

(** *** The guarded percentages *)

Lemma wow_of_guarded cur previous activity w :
  wow_of cur previous activity = Ok w -> guarded_change cur previous activity w.
Proof.
  unfold wow_of, guarded_change.
  destruct (previous !! activity) as [avg|]; [|by intros [= <-]].
  change (float_of_Z 1) with 1%float.
  destruct (1 <=? avg_count avg)%float eqn:Hc;
    destruct (1 <? avg_time avg)%float eqn:Ht; unfold py_fdiv;
    rewrite ?(leb_one_nonzero _ Hc), ?(ltb_one_nonzero _ Ht);
    cbn [mbind result_bind]; by intros [= <-].
Qed.

Lemma getitem_insert `{Countable K} {V} (d : gmap K V) k v :
  getitem (<[k := v]> d) k = Ok v.
Proof. unfold getitem. by rewrite lookup_insert_eq. Qed.

Lemma wow_activity_step_ok weeks_ago weekly_info week this_week st activity v st' :
  weekly_info !! week = Some this_week -> this_week !! activity = Some v ->
  wow_table_ok weeks_ago weekly_info st.1 ->
  wow_activity_step weeks_ago week weekly_info st activity v = Ok st' ->
  wow_table_ok weeks_ago weekly_info st'.1.
Proof.
  intros Hweek Hact Hinv. destruct st as [wow_change cwi]. unfold wow_activity_step.
  cbv beta zeta.
  destruct (get_previous_weekly_tally weeks_ago week weekly_info) as [previous|] eqn:Hprev;
    [|discriminate].
  cbn [mbind result_bind]. rewrite getitem_insert. cbn [mbind result_bind].
  destruct (wow_of _ previous activity) as [w|] eqn:Hw; [|discriminate].
  cbn [mbind result_bind]. unfold getitem.
  destruct (wow_change !! week) as [this|] eqn:Hthis; [|discriminate].
  intros [= <-]. cbn [fst].
  intros week' this' activity' w' Hl1 Hl2.
  destruct (decide (week = week')) as [<-|Hne].
  - rewrite lookup_insert_eq in Hl1. injection Hl1 as <-.
    destruct (decide (activity = activity')) as [<-|Hne].
    + rewrite lookup_insert_eq in Hl2. injection Hl2 as <-.
      exists this_week, v, previous. repeat split; try done.
      apply wow_of_guarded. by destruct v.
    + rewrite lookup_insert_ne in Hl2 by done. by apply (Hinv week this).
  - rewrite lookup_insert_ne in Hl1 by done. by apply (Hinv week' this').
Qed.

Lemma wow_week_step_ok weeks_ago weekly_info st cw st' :
  wow_table_ok weeks_ago weekly_info st.1 ->
  wow_week_step weeks_ago weekly_info st cw = Ok st' ->
  wow_table_ok weeks_ago weekly_info st'.1.
Proof.
  intros Hinv. destruct cw as [cnt week], st as [wow_change cwi]. unfold wow_week_step.
  destruct (weeks_ago <? cnt); [|by intros [= <-]].
  unfold getitem. destruct (weekly_info !! week) as [this_week|] eqn:Hweek; [|discriminate].
  cbn [mbind result_bind].
  apply (for_items_inv (fun s => wow_table_ok weeks_ago weekly_info s.1)).
  - cbn [fst]. intros week' this' activity' w' Hl1 Hl2.
    destruct (decide (week = week')) as [<-|Hne].
    + rewrite lookup_insert_eq in Hl1. injection Hl1 as <-. by rewrite lookup_empty in Hl2.
    + rewrite lookup_insert_ne in Hl1 by done. by apply (Hinv week' this').
  - intros s k v s' Hk Hs. by apply (wow_activity_step_ok _ _ _ this_week).
Qed.

Lemma wow_changes_of_ok weeks_ago weekly_info wow_change :
  wow_changes_of weeks_ago weekly_info = Ok wow_change ->
  wow_table_ok weeks_ago weekly_info wow_change.
Proof.
  unfold wow_changes_of.
  destruct (foldl _ _ _) as [st|] eqn:Hfold; [|discriminate].
  intros [= <-].
  apply (foldl_result_inv (fun s => wow_table_ok weeks_ago weekly_info s.1)) in Hfold; [done|..].
  - cbn [fst]. intros week this activity w Hl. by rewrite lookup_empty in Hl.
  - intros s x s' _. apply wow_week_step_ok.
Qed.

(** C5.  Every entry of the table of changes follows the two guards: with
    the averages of the preceding weeks at hand, [wow_count] is
    [100 * (cur - avg) / avg] when the average count is at least 1 and 0.0
    otherwise, [wow_time] is the same on times when the average time is
    above 1 and 0.0 otherwise, and both are 0.0 for an activity the
    preceding weeks do not have.  An average count of 0.5 gives 0.0; an
    average count of 1.0 gives the percentage, where an average time of
    1.0 gives 0.0. *)
Theorem wow_guard_thresholds (weeks_ago : Z)
    (weekly_info : gmap string (gmap string tally))
    (wow_change : gmap string (gmap string wow)) (week activity : string)
    (this : gmap string wow) (w : wow) :
  wow_changes_of weeks_ago weekly_info = Ok wow_change ->
  wow_change !! week = Some this -> this !! activity = Some w ->
  (exists this_week cur previous,
     weekly_info !! week = Some this_week /\ this_week !! activity = Some cur /\
     get_previous_weekly_tally weeks_ago week weekly_info = Ok previous /\
     guarded_change cur previous activity w)
  /\ get_previous_weekly_tally 2 "2024-12" half_average_weeks
     = Ok {["Coding" := mk_average 0.5 1800]}
  /\ wow_changes_of 2 half_average_weeks
     = Ok {["2024-12" := {["Coding" := mk_wow 0 300]}]}
  /\ get_previous_weekly_tally 2 "2024-12" unit_average_weeks
     = Ok {["Coding" := mk_average 1 1]}
  /\ wow_changes_of 2 unit_average_weeks
     = Ok {["2024-12" := {["Coding" := mk_wow 200 0]}]}.
Proof.
  intros Hok Hweek Hact. split.
  - by apply (wow_changes_of_ok _ _ _ Hok week this).
  - repeat split; vm_compute; reflexivity.
Qed.

Lemma wow_guard_thresholds_witness :
  exists this_week cur previous,
    unit_average_weeks !! "2024-12" = Some this_week /\ this_week !! "Coding" = Some cur /\
    get_previous_weekly_tally 2 "2024-12" unit_average_weeks = Ok previous /\
    guarded_change cur previous "Coding" (mk_wow 200 0).
Proof.
  apply (wow_guard_thresholds 2 unit_average_weeks
           {["2024-12" := {["Coding" := mk_wow 200 0]}]} "2024-12" "Coding"
           {["Coding" := mk_wow 200 0]} (mk_wow 200 0)); vm_compute; reflexivity.
Defined.

(** ** Daily statistics *)

Ltac in_fields := unfold field_names; rewrite ?elem_of_cons; auto 6.

Lemma zero_entry_ok : entry_ok zero_entry.
Proof.
  split.
  - by exists 0, 0, 0.
  - intros k n. unfold zero_entry, field_names.
    rewrite !lookup_insert. repeat case_decide; subst; try in_fields.
    by rewrite lookup_empty.
Qed.

Lemma daily_statistics_init_ok l : days_ok l daily_statistics_init.
Proof.
  split; [by vm_compute|].
  intros day entry. unfold daily_statistics_init. simpl. fold zero_entry.
  rewrite !lookup_insert. repeat case_decide; try (intros [= <-]; split; [apply zero_entry_ok|by left]).
  by rewrite lookup_empty.
Qed.

Lemma entry_ok_insert_int entry f n :
  f ∈ field_names -> entry_ok entry -> entry_ok (<[f := DInt n]> entry).
Proof.
  intros Hf [(cs & dc & tt & H1 & H2 & H3) Hint]. split.
  - unfold field_names in Hf.
    repeat (apply elem_of_cons in Hf as [->|Hf];
            [rewrite ?lookup_insert_eq, ?lookup_insert_ne by done; eauto 10|]).
    by apply elem_of_nil in Hf.
  - intros k m. rewrite lookup_insert. case_decide; [by intros _; subst|apply Hint].
Qed.

Lemma entry_ok_insert_act entry a total cnt :
  a ∉ field_names -> entry_ok entry -> entry_ok (<[a := DAct total cnt]> entry).
Proof.
  intros Ha [(cs & dc & tt & H1 & H2 & H3) Hint]. split.
  - exists cs, dc, tt. rewrite !lookup_insert_ne; [done|..]; intros ->; apply Ha; in_fields.
  - intros k m. rewrite lookup_insert. case_decide; [done|apply Hint].
Qed.

Lemma days_ok_update l ds t entry entry' :
  t ∈ l -> days_ok l ds -> ds !! day_of_week t = Some entry -> entry_ok entry' ->
  days_ok l (<[day_of_week t := entry']> ds).
Proof.
  intros Ht [Hdom Hall] Hentry Hok. split.
  - rewrite dom_insert_L, <- Hdom.
    assert (day_of_week t ∈ dom ds) as Hin by (apply elem_of_dom; eauto).
    apply set_eq. intros d. rewrite elem_of_union, elem_of_singleton.
    split; [intros [->|?]; done|by right].
  - intros day e. rewrite lookup_insert. case_decide.
    + intros [= <-]. split; [done|]. right. eauto.
    + apply Hall.
Qed.

Lemma add_to_field_inv ds day f delta ds' :
  add_to_field ds day f delta = Ok ds' ->
  exists entry n, ds !! day = Some entry /\ entry !! f = Some (DInt n) /\
                  ds' = <[day := <[f := DInt (n + delta)]> entry]> ds.
Proof.
  unfold add_to_field, getitem.
  destruct (ds !! day) as [entry|]; [|discriminate]. cbn [mbind result_bind].
  destruct (entry !! f) as [[n|total cnt]|] eqn:Hf; try discriminate.
  cbn [mbind result_bind as_int]. intros [= <-]. eauto.
Qed.

Lemma add_to_field_ok l ds t f delta ds' :
  t ∈ l -> f ∈ field_names -> days_ok l ds ->
  add_to_field ds (day_of_week t) f delta = Ok ds' -> days_ok l ds'.
Proof.
  intros Ht Hf Hok Hadd.
  apply add_to_field_inv in Hadd as (entry & n & Hentry & _ & ->).
  apply (days_ok_update l ds t entry); try done.
  apply entry_ok_insert_int; [done|]. by apply Hok in Hentry as [? _].
Qed.

Lemma daily_step_ok l st t st' :
  t ∈ l -> days_ok l st.1 -> daily_step st t = Ok st' -> days_ok l st'.1.
Proof.
  intros Ht Hok. destruct st as [ds current_day]. unfold daily_step. cbv beta zeta.
  cbn [fst] in Hok.
  set (first := if decide (day_of_week t ≠ current_day) then _ else _).
  assert (forall r, first = Ok r -> days_ok l r.1) as Hfirst.
  { subst first. intros r. case_decide; [|by intros [= <-]].
    destruct (add_to_field ds (day_of_week t) "day_cnts" 1) as [ds1|e] eqn:Hadd.
    - cbn [try_except mbind result_bind]. intros [= <-].
      apply (add_to_field_ok l ds t "day_cnts" 1); [done|in_fields|done..].
    - cbn [try_except]. case_decide; [|discriminate].
      cbn [mbind result_bind]. by intros [= <-]. }
  destruct first as [[ds1 cur1]|]; [|discriminate].
  specialize (Hfirst _ eq_refl). cbn [fst] in Hfirst. cbn [mbind result_bind].
  destruct (add_to_field ds1 _ "context_switches" 1) as [ds2|] eqn:H2; [|discriminate].
  apply (add_to_field_ok l _ t) in H2; [|done|in_fields|done].
  cbn [mbind result_bind].
  destruct (add_to_field ds2 _ "total_time" _) as [ds3|] eqn:H3; [|discriminate].
  apply (add_to_field_ok l _ t) in H3; [|done|in_fields|done].
  cbn [mbind result_bind]. unfold getitem.
  destruct (ds3 !! day_of_week t) as [entry|] eqn:Hentry; [|discriminate].
  cbn [mbind result_bind].
  pose proof (proj2 H3 _ _ Hentry) as [Hentry_ok _].
  assert (forall v, entry !! activity t = None \/ entry !! activity t = Some (DAct v.1 v.2) ->
                    activity t ∉ field_names) as Hfresh.
  { intros v Hv Hin. destruct Hentry_ok as [(cs & dc & tt & F1 & F2 & F3) _].
    unfold field_names in Hin.
    repeat (apply elem_of_cons in Hin as [Heq|Hin];
            [rewrite Heq in Hv; destruct Hv; congruence|]).
    by apply elem_of_nil in Hin. }
  destruct (entry !! activity t) as [[n|total cnt]|] eqn:Hact; [discriminate|..];
    intros [= <-]; cbn [fst];
    (apply (days_ok_update l ds3 t entry); [done..|]);
    (apply entry_ok_insert_act; [|done]).
  - apply (Hfresh (total, cnt)). by right.
  - apply (Hfresh (0, 0)). by left.
Qed.

Lemma foldl_result_total {A S} (Inv : S -> Prop) (body : S -> A -> result S)
    (l : list A) (init : S) :
  Inv init ->
  (forall s x, x ∈ l -> Inv s -> exists s', body s x = Ok s' /\ Inv s') ->
  exists r, foldl (fun acc x => s ← acc; body s x) (Ok init) l = Ok r.
Proof.
  revert init. induction l as [|x l IH]; intros init Hinit Hstep; simpl; [eauto|].
  destruct (Hstep init x) as (s' & -> & Hs'); [by left|done|].
  apply IH; [done|]. intros s y Hy. apply Hstep. by right.
Qed.

Lemma add_to_field_total l ds day f delta :
  days_ok l ds -> 1 <= day <= 7 -> f ∈ field_names ->
  exists ds', add_to_field ds day f delta = Ok ds'.
Proof.
  intros [Hdom Hall] Hday Hf.
  assert (day ∈ dom ds) as Hin.
  { rewrite Hdom. rewrite elem_of_list_to_set, !elem_of_cons. lia. }
  apply elem_of_dom in Hin as [entry Hentry].
  destruct (Hall _ _ Hentry) as [[(cs & dc & tt & F1 & F2 & F3) _] _].
  unfold add_to_field, getitem. rewrite Hentry. cbn [mbind result_bind].
  unfold field_names in Hf.
  repeat (apply elem_of_cons in Hf as [->|Hf];
          [rewrite ?F1, ?F2, ?F3; cbn [mbind result_bind as_int]; eauto|]).
  by apply elem_of_nil in Hf.
Qed.

Lemma daily_step_total l st t :
  t ∈ l -> days_ok l st.1 -> 1 <= day_of_week t <= 7 -> activity t ∉ field_names ->
  exists st', daily_step st t = Ok st'.
Proof.
  intros Ht Hok Hday Hact. destruct st as [ds current_day]. cbn [fst] in Hok.
  unfold daily_step. cbv beta zeta.
  set (first := if decide (day_of_week t ≠ current_day) then _ else _).
  assert (exists r, first = Ok r /\ days_ok l r.1) as ([ds1 cur1] & -> & Hok1).
  { subst first. case_decide; [|eauto].
    destruct (add_to_field_total l ds (day_of_week t) "day_cnts" 1) as [ds1 Hadd];
      [done..|in_fields|].
    rewrite Hadd. cbn [try_except mbind result_bind]. eexists; split; [done|].
    cbn [fst]. apply (add_to_field_ok l ds t "day_cnts" 1); [done|in_fields|done..]. }
  cbn [fst] in Hok1. cbn [mbind result_bind].
  destruct (add_to_field_total l ds1 (day_of_week t) "context_switches" 1) as [ds2 H2];
    [done..|in_fields|].
  rewrite H2. apply (add_to_field_ok l _ t) in H2; [|done|in_fields|done].
  cbn [mbind result_bind].
  destruct (add_to_field_total l ds2 (day_of_week t) "total_time" (time_delta t)) as [ds3 H3];
    [done..|in_fields|].
  rewrite H3. apply (add_to_field_ok l _ t) in H3; [|done|in_fields|done].
  cbn [mbind result_bind].
  destruct (add_to_field_total l ds3 (day_of_week t) "total_time" 0) as [ds4 H4];
    [done..|in_fields|].
  apply add_to_field_inv in H4 as (entry & n & Hentry & _ & _).
  unfold getitem. rewrite Hentry. cbn [mbind result_bind].
  destruct (entry !! activity t) as [[m|total cnt]|] eqn:Hlook; eauto.
  exfalso. apply Hact. by apply (proj2 (proj1 (proj2 H3 _ _ Hentry)) _ m).
Qed.

Lemma daily_statistics_of_returns (g : generated timing) :
  g.2 = None ->
  Forall (fun t => 1 <= day_of_week t <= 7 /\ activity t ∉ field_names) g.1 ->
  exists ds, daily_statistics_of g = Ok ds.
Proof.
  destruct g as [l e]. cbn [fst snd]. unfold daily_statistics_of, for_each. cbn [fst snd].
  intros -> Hwf.
  destruct (foldl_result_total (fun s => days_ok l s.1) daily_step l (daily_statistics_init, 0))
    as [r ->].
  - apply daily_statistics_init_ok.
  - intros s t Ht Hs. rewrite Forall_forall in Hwf. destruct (Hwf t Ht) as [Hday Hact].
    destruct (daily_step_total l s t Ht Hs Hday Hact) as [s' Hs'].
    exists s'. split; [done|]. by apply (daily_step_ok l s t).
  - cbn [mbind result_bind]. eauto.
Qed.

Lemma daily_statistics_of_days_ok (g : generated timing) ds :
  daily_statistics_of g = Ok ds -> days_ok g.1 ds.
Proof.
  destruct g as [l e]. cbn [fst snd]. unfold daily_statistics_of, for_each. cbn [fst snd].
  destruct (foldl _ _ l) as [st|] eqn:Hfold; [|discriminate]. cbn [mbind result_bind].
  destruct e; [discriminate|]. cbn [mbind result_bind]. intros [= <-].
  apply (foldl_result_inv (fun s => days_ok l s.1)) in Hfold; [done|..].
  - apply daily_statistics_init_ok.
  - intros s t s' Ht. by apply daily_step_ok.
Qed.

(** C10.  Whatever timings it is fed, the mapping [daily_statistics]
    returns has exactly the keys 1 to 7; every entry holds the three
    counters [context_switches], [day_cnts] and [total_time]; and the
    entry of a day on which no timing ends is the initial one, with all
    three at 0.  It does return when the generator ends normally, the
    days are ISO weekdays and no activity bears the name of a counter (an
    activity so named makes the loop raise [TypeError]). *)
Theorem daily_statistics_shape (g : generated timing) :
  (g.2 = None ->
   Forall (fun t => 1 <= day_of_week t <= 7 /\ activity t ∉ field_names) g.1 ->
   exists ds, daily_statistics_of g = Ok ds) /\
  (forall ds, daily_statistics_of g = Ok ds ->
     dom ds = list_to_set [1; 2; 3; 4; 5; 6; 7] /\
     forall day entry, ds !! day = Some entry ->
       (exists context_switches day_cnts total_time,
          entry !! "context_switches" = Some (DInt context_switches) /\
          entry !! "day_cnts" = Some (DInt day_cnts) /\
          entry !! "total_time" = Some (DInt total_time)) /\
       ((forall t, t ∈ g.1 -> day_of_week t <> day) -> entry = zero_entry)).
Proof.
  split; [apply daily_statistics_of_returns|].
  intros ds Hds. apply daily_statistics_of_days_ok in Hds as [Hdom Hall].
  split; [done|].
  intros day entry Hentry. destruct (Hall _ _ Hentry) as [[Hfields _] Hzero].
  split; [done|]. intros Hnone. destruct Hzero as [?|(t & Ht & Hd)]; [done|].
  by destruct (Hnone t Ht).
Qed.

Lemma daily_statistics_shape_witness :
  exists ds, daily_statistics_of ([mk_timing "Coding" 2024 1 1 7200], None) = Ok ds /\
    dom ds = list_to_set [1; 2; 3; 4; 5; 6; 7] /\
    ds !! 2 = Some zero_entry.
Proof.
  pose proof (daily_statistics_shape ([mk_timing "Coding" 2024 1 1 7200], None)) as [Hret Hshape].
  destruct Hret as [ds Hds].
  - reflexivity.
  - repeat constructor; cbn; try lia. unfold field_names. rewrite !elem_of_cons, elem_of_nil.
    intros [|[|[|]]]; done.
  - exists ds. split; [done|]. destruct (Hshape ds Hds) as [Hdom Hall]. split; [done|].
    assert (2 ∈ dom ds) as Hin by (rewrite Hdom; by vm_compute).
    apply elem_of_dom in Hin as [entry Hentry]. rewrite Hentry. f_equal.
    apply (Hall 2 entry Hentry).
    intros t Ht. apply list_elem_of_singleton in Ht as ->. done.
Defined.

Lemma isocalendar_day_range d : 1 <= (isocalendar d).2 <= 7.
Proof.
  unfold isocalendar. cbv zeta.
  repeat match goal with |- context [if ?b then _ else _] => destruct b end;
    cbn [snd];
    match goal with |- context [?x mod 7] => pose proof (Z.mod_pos_bound x 7) end; lia.
Qed.

Lemma timing_at_day_range filter_off ots x t :
  timing_at filter_off ots x = Ok (Some t) -> 1 <= day_of_week t <= 7.
Proof.
  intros Ht. apply timing_at_yield in Ht as (_ & _ & _ & d_end & _ & _ & _ & _ & _ & _ & Hiso & _).
  pose proof (isocalendar_day_range d_end) as Hr. rewrite <- Hiso in Hr. done.
Qed.

Lemma timings_from_day_range filter_off ots xs :
  Forall (fun t => 1 <= day_of_week t <= 7) (timings_from filter_off ots xs).1.
Proof.
  induction xs as [|x xs IH]; simpl; [constructor|].
  destruct (timing_at filter_off ots x) as [[t|]|e] eqn:Ht; simpl; auto.
  constructor; [by eapply timing_at_day_range|done].
Qed.

Lemma daily_statistics_returns (acts : gmap string string) :
  (get_activity_timings true acts).2 = None ->
  Forall (fun t => activity t ∉ field_names) (get_activity_timings true acts).1 ->
  exists ds, daily_statistics acts = Ok ds.
Proof.
  intros Hnone Hact. unfold daily_statistics.
  apply daily_statistics_of_returns; [done|].
  pose proof (timings_from_day_range true (get_ordered_activity_timestamps acts)
                (range_down (Z.of_nat (length (get_ordered_activity_timestamps acts)) - 1) 1))
    as Hday.
  fold (get_activity_timings true acts) in Hday.
  rewrite Forall_forall in *. auto.
Qed.

(** ** The places where the script departs from its description *)

(** C2, at a history over ISO weeks 8, 9 and 10 of 2024.  The week before
    week 10 is looked up as ["2024-9"], the table has it as ["2024-09"],
    and nothing of it reaches the sum or the divisor: the changes of week
    10 are the defaults.  Two weeks later the same history gives 100 and
    50 percent. *)
Theorem single_digit_week_not_consulted :
  get_weekly_info single_digit_history
  = Ok (list_to_map [("2024-08", {["Coding" := mk_tally 1 3600]});
                     ("2024-09", {["Coding" := mk_tally 1 7200]});
                     ("2024-10", {["Coding" := mk_tally 2 10800]})])
  /\ compute_weeks_ago_index "2024-10" 1 = Ok "2024-9"
  /\ (wi ← get_weekly_info single_digit_history;
      get_previous_weekly_tally 1 "2024-10" wi) = Ok ∅
  /\ get_wow_changes 1 single_digit_history
     = Ok {["2024-10" := {["Coding" := mk_wow 0 0]}]}
  /\ get_wow_changes 1 double_digit_history
     = Ok {["2024-12" := {["Coding" := mk_wow 100 50]}]}.
Proof. repeat split; vm_compute; reflexivity. Qed.

(** C3, at a file of three lines whose second is malformed.  A stamp that
    does not parse is reported and then ends the load with [TypeError];
    a line without a space ends it with [ValueError].  No dictionary is
    returned in either case. *)
Theorem malformed_timestamp_aborts_load (astimezone : datetime -> datetime) :
  get_activities_in_localtime astimezone
    [["20240101080000 Off
"; "2024010109xx00 Coding
"; "20240101100000 Off
"]]
  = ([IssueConvertingTimestamp "2024010109xx00" LOG_TIMESTAMP_FORMAT], Raise TypeError)
  /\ get_activities_in_localtime astimezone
       [["20240101080000 Off
"; "20240101090000
"; "20240101100000 Off
"]]
     = ([], Raise ValueError).
Proof. split; reflexivity. Qed.

(** C8, at a history of two Mondays a week apart.  The two timings end on
    two distinct (Monday, week) pairs, [day_cnts] of Monday is 1, and the
    overall statistics, which compare the week as well, count 2. *)
Theorem day_cnts_misses_week_change :
  get_activity_timings true mondays
  = ([mk_timing "Coding" 2024 2 1 3600; mk_timing "Coding" 2024 1 1 3600], None)
  /\ distinct_days_seen (get_activity_timings true mondays).1 1 = 2%nat
  /\ (ds ← daily_statistics mondays; entry ← getitem ds 1; getitem entry "day_cnts")
     = Ok (DInt 1)
  /\ (info ← get_overall_actitivity_info mondays; Ok (weekday_cnt info.2)) = Ok 2.
Proof. repeat split; vm_compute; reflexivity. Qed.

(** C9, at the empty history and at a history with Mondays only.  On the
    empty history both reports divide by a day count of 0 and raise
    [ZeroDivisionError]; the daily report does so as well as soon as one
    day of the week has no timing.  The changes of an empty history are
    the empty table. *)
Theorem statistics_divide_by_zero :
  daily_statistics ∅ = Ok daily_statistics_init
  /\ get_daily_statistics ∅ = Raise ZeroDivisionError
  /\ get_activity_statistics ∅ = Raise ZeroDivisionError
  /\ get_daily_statistics mondays = Raise ZeroDivisionError
  /\ get_wow_changes 1 ∅ = Ok ∅.
Proof. repeat split; vm_compute; reflexivity. Qed.

(** ** The generator of timings *)

Lemma isoweek1monday_range y :
  days_before_year y - 2 <= isoweek1monday y <= days_before_year y + 4 /\
  isoweek1monday y mod 7 = 1.
Proof.
  unfold isoweek1monday, ymd2ord.
  change (days_before_month y 1) with 0.
  set (f := days_before_year y).
  destruct (3 <? (f + 0 + 1 + 6) mod 7) eqn:E; [apply Z.ltb_lt in E|apply Z.ltb_ge in E];
    Z.div_mod_to_equations; lia.
Qed.

Lemma toordinal_range d :
  valid d = true ->
  days_before_year (dt_year d) + 1 <= toordinal d
  <= days_before_year (dt_year d) + (if is_leap (dt_year d) then 366 else 365).
Proof.
  intros V. apply valid_bounds in V as (Hy & Hm & Hd & _).
  unfold toordinal, ymd2ord.
  pose proof (days_before_month_bound (dt_year d) (dt_month d) Hm). lia.
Qed.

Lemma toordinal_range' d :
  valid d = true ->
  days_before_year (dt_year d) + 1 <= toordinal d <= days_before_year (dt_year d + 1).
Proof.
  intros V. pose proof (toordinal_range d V). rewrite days_before_year_succ. lia.
Qed.

Lemma isocalendar_week_range d :
  valid d = true -> 1 <= (isocalendar d).1.2 <= 53.
Proof.
  intros V. pose proof (toordinal_range' d V) as Ht.
  pose proof (days_before_year_succ (dt_year d)) as Hs.
  pose proof (days_before_year_succ (dt_year d - 1)) as Hp.
  replace (dt_year d - 1 + 1) with (dt_year d) in Hp by lia.
  pose proof (isoweek1monday_range (dt_year d)) as [Hw Hwm].
  pose proof (isoweek1monday_range (dt_year d - 1)) as [Hw' Hwm'].
  unfold isocalendar. cbv zeta.
  set (today := toordinal d) in *.
  set (w := isoweek1monday (dt_year d)) in *.
  set (w' := isoweek1monday (dt_year d - 1)) in *.
  destruct ((today - w) / 7 <? 0) eqn:E1.
  - cbn [fst snd]. apply Z.ltb_lt in E1.
    destruct (is_leap (dt_year d)), (is_leap (dt_year d - 1));
      Z.div_mod_to_equations; lia.
  - apply Z.ltb_ge in E1.
    destruct (_ && _); cbn [fst snd]; [lia|].
    destruct (is_leap (dt_year d)), (is_leap (dt_year d - 1));
      Z.div_mod_to_equations; lia.
Qed.

Lemma timings_from_Forall (P : timing -> Prop) filter_off ots xs :
  (forall x t, x ∈ xs -> timing_at filter_off ots x = Ok (Some t) -> P t) ->
  Forall P (timings_from filter_off ots xs).1.
Proof.
  induction xs as [|x xs IH]; intros HP; simpl; [constructor|].
  assert (Forall P (timings_from filter_off ots xs).1) as IH'.
  { apply IH. intros y t Hy. apply HP. by right. }
  destruct (timing_at filter_off ots x) as [[t|]|e] eqn:Ht; simpl; auto.
  constructor; [|done]. apply (HP x); [by left|done].
Qed.

Lemma strptime_raise ts e : strptime ts = Raise e -> e = ValueError.
Proof.
  unfold strptime. repeat case_match; congruence.
Qed.

Lemma timing_at_raise filter_off ots x e :
  1 <= x -> (Z.to_nat x < length ots)%nat ->
  timing_at filter_off ots x = Raise e -> e = ValueError.
Proof.
  intros Hx Hlen. unfold timing_at.
  destruct (lookup_lt_is_Some_2 ots (Z.to_nat x) Hlen) as [[end_ts end_activity] ->].
  destruct (lookup_lt_is_Some_2 ots (Z.to_nat (x - 1)) ltac:(lia))
    as [[start_ts start_activity] ->].
  destruct (filter_off && _); [discriminate|].
  destruct (strptime end_ts) as [d_end|e1] eqn:He; cbn [mbind result_bind].
  - destruct (strptime start_ts) as [d_start|e2] eqn:Hs; cbn [mbind result_bind].
    + by destruct (isocalendar d_end) as [[? ?] ?].
    + intros [= <-]. by eapply strptime_raise.
  - intros [= <-]. by eapply strptime_raise.
Qed.

Lemma timings_from_end filter_off ots xs :
  Forall (fun x => 1 <= x /\ (Z.to_nat x < length ots)%nat) xs ->
  (timings_from filter_off ots xs).2 = None \/
  (timings_from filter_off ots xs).2 = Some ValueError.
Proof.
  induction xs as [|x xs IH]; intros Hxs; simpl; [by left|].
  apply Forall_cons in Hxs as [[Hx Hlen] Hxs].
  destruct (timing_at filter_off ots x) as [[t|]|e] eqn:Ht; simpl; auto.
  right. f_equal. by eapply timing_at_raise.
Qed.

Lemma visited_in_range (ots : list (string * string)) :
  Forall (fun x => 1 <= x /\ (Z.to_nat x < length ots)%nat)
    (range_down (Z.of_nat (length ots) - 1) 1).
Proof. apply Forall_forall. intros x Hx. apply range_down_elem in Hx. lia. Qed.

(** X1.  With [filter_off] set, no timing yielded has the activity ["Off"]. *)
Theorem off_is_filtered (acts : gmap string string) :
  Forall (fun t => activity t <> "Off") (get_activity_timings true acts).1.
Proof.
  apply timings_from_Forall. intros x t _ Ht.
  apply timing_at_yield in Ht as (_ & _ & _ & _ & _ & _ & _ & _ & _ & _ & _ & Hoff).
  by apply Hoff.
Qed.

(** X2.  A history of at most two events yields no timing at all, and no
    exception: the first pair is never visited. *)
Theorem short_history_yields_nothing (filter_off : bool) (acts : gmap string string) :
  (size acts <= 2)%nat -> get_activity_timings filter_off acts = ([], None).
Proof.
  intros Hsize. unfold get_activity_timings. rewrite ordered_length.
  unfold range_down. replace (Z.to_nat (Z.of_nat (size acts) - 1 - 1)) with 0%nat by lia.
  reflexivity.
Qed.

Lemma short_history_yields_nothing_witness :
  get_activity_timings true {["20240101080000" := "Coding"; "20240101090000" := "Off"]}
  = ([], None).
Proof. apply short_history_yields_nothing. vm_compute. lia. Defined.

(** X3.  The generator ends normally or with [ValueError], the exception
    of a stamp that does not parse; no index is ever out of range. *)
Theorem generator_raises_only_value_error (filter_off : bool) (acts : gmap string string) :
  (get_activity_timings filter_off acts).2 = None \/
  (get_activity_timings filter_off acts).2 = Some ValueError.
Proof. apply timings_from_end, visited_in_range. Qed.

(** X4.  Every timing yielded carries an ISO week number from 1 to 53 and
    an ISO weekday from 1 to 7. *)
Theorem timings_in_iso_ranges (filter_off : bool) (acts : gmap string string) :
  Forall (fun t => 1 <= week_number t <= 53 /\ 1 <= day_of_week t <= 7)
    (get_activity_timings filter_off acts).1.
Proof.
  apply timings_from_Forall. intros x t _ Ht.
  apply timing_at_yield in Ht as (end_ts & _ & _ & d_end & _ & _ & _ & He & _ & _ & Hiso & _).
  apply strptime_inv in He as (_ & V & _).
  pose proof (isocalendar_week_range d_end V) as Hw.
  pose proof (isocalendar_day_range d_end) as Hd.
  rewrite <- Hiso in Hw, Hd. done.
Qed.

Lemma range_down_cons hi lo :
  lo < hi -> range_down hi lo = hi :: range_down (hi - 1) lo.
Proof.
  intros Hlt. unfold range_down.
  replace (Z.to_nat (hi - lo)) with (S (Z.to_nat (hi - 1 - lo))) by lia.
  cbn [seq fmap list_fmap]. f_equal; [lia|].
  rewrite <- fmap_S_seq, <- list_fmap_compose.
  apply list_fmap_ext. intros _ k _. simpl. lia.
Qed.

Lemma py_sum_cons x l : py_sum (x :: l) = x + py_sum l.
Proof.
  unfold py_sum. cbn [foldl].
  assert (forall a, foldl Z.add a l = a + foldl Z.add 0 l) as H.
  { induction l as [|y l IH]; intros a; cbn [foldl]; [lia|].
    rewrite (IH (a + y)), (IH (0 + y)). lia. }
  rewrite H. lia.
Qed.

Lemma kept_cons filter_off a l :
  kept filter_off (a :: l)
  = if filter_off && String.eqb a "Off" then kept filter_off l else a :: kept filter_off l.
Proof.
  unfold kept. destruct filter_off; [|done]. cbn [andb].
  destruct (String.eqb_spec a "Off") as [->|Hne].
  - by rewrite filter_cons_False by (intros H; by apply H).
  - by rewrite filter_cons_True.
Qed.

Lemma timings_from_range filter_off ots hi lo :
  1 <= lo <= hi ->
  (forall i, lo <= i <= hi ->
     exists ts a d, ots !! Z.to_nat i = Some (ts, a) /\ strptime ts = Ok d) ->
  let r := timings_from filter_off ots (range_down hi lo) in
  r.2 = None /\
  activity <$> r.1
  = kept filter_off (reverse (snd <$> take (Z.to_nat (hi - lo)) (drop (Z.to_nat lo) ots))) /\
  (filter_off = false ->
   py_sum (time_delta <$> r.1) = epoch_at ots (Z.to_nat hi) - epoch_at ots (Z.to_nat lo)).
Proof.
  intros Hlo Hparse. cbv zeta.
  remember (Z.to_nat (hi - lo)) as n eqn:Hn. revert hi Hlo Hparse Hn.
  induction n as [|n IH]; intros hi Hlo Hparse Hn.
  - assert (hi = lo) as -> by lia.
    unfold range_down. rewrite Z.sub_diag. cbn. unfold kept.
    split; [done|]. split; [by destruct filter_off|]. intros _. unfold py_sum. simpl. lia.
  - rewrite range_down_cons by lia. cbn [timings_from].
    destruct (IH (hi - 1)) as (IH1 & IH2 & IH3); [lia| |lia|].
    { intros i Hi. apply Hparse. lia. }
    destruct (Hparse hi ltac:(lia)) as (end_ts & end_activity & d_end & Hend & Pend).
    destruct (Hparse (hi - 1) ltac:(lia)) as (start_ts & start_activity & d_start & Hstart & Pstart).
    assert (take (S n) (drop (Z.to_nat lo) ots)
            = take n (drop (Z.to_nat lo) ots) ++ [(start_ts, start_activity)]) as Htake.
    { apply take_S_r. rewrite lookup_drop. rewrite <- Hstart. f_equal. lia. }
    rewrite Htake, fmap_app, reverse_app. cbn [fmap list_fmap reverse app snd].
    change (reverse [start_activity]) with [start_activity]. cbn [app].
    rewrite kept_cons.
    assert (epoch_at ots (Z.to_nat hi) = epoch d_end) as Ehi
      by (unfold epoch_at; by rewrite Hend, Pend).
    assert (epoch_at ots (Z.to_nat (hi - 1)) = epoch d_start) as Ehi1
      by (unfold epoch_at; by rewrite Hstart, Pstart).
    destruct (filter_off && String.eqb start_activity "Off") eqn:Hf.
    + assert (timing_at filter_off ots hi = Ok None) as ->.
      { unfold timing_at. by rewrite Hend, Hstart, Hf. }
      split; [done|]. split; [done|].
      intros ->. done.
    + rewrite (timing_at_eval filter_off ots hi _ _ _ _ d_end d_start Hend Hstart Hf Pend Pstart).
      cbn [fst snd fmap list_fmap activity time_delta].
      split; [done|]. split; [by rewrite <- IH2|].
      intros Hoff. rewrite py_sum_cons.
      change (list_fmap timing Z time_delta) with (fmap (M := list) time_delta).
      rewrite (IH3 Hoff). lia.
Qed.

Lemma ordered_parse (acts : gmap string string) i :
  stamps_parse acts -> (i < size acts)%nat ->
  exists ts a d, get_ordered_activity_timestamps acts !! i = Some (ts, a) /\ strptime ts = Ok d.
Proof.
  intros Hparse Hi. rewrite <- ordered_length in Hi.
  destruct (lookup_lt_is_Some_2 _ _ Hi) as [[ts a] Hlook].
  assert ((ts, a) ∈ map_to_list acts) as Hin.
  { rewrite <- ordered_Permutation. by eapply list_elem_of_lookup_2. }
  apply elem_of_map_to_list in Hin. destruct (Hparse ts a Hin) as [d Hd]. eauto.
Qed.

Lemma stamps_parse_check (acts : gmap string string) :
  forallb (fun p => match strptime p.1 with Ok _ => true | Raise _ => false end)
    (map_to_list acts) = true ->
  stamps_parse acts.
Proof.
  intros Hall k a Hk. rewrite forallb_forall in Hall.
  specialize (Hall (k, a)). cbn [fst] in Hall.
  destruct (strptime k) as [d|e]; [eauto|].
  discriminate Hall. apply list_elem_of_In. by apply elem_of_map_to_list.
Qed.

(** X5.  When every stamp parses, the generator ends normally, and the
    activities it yields are the labels of all events but the first and
    the last, newest first, less the ["Off"] ones when [filter_off] is
    set.  In particular with the filter off a history of N >= 2 events
    gives exactly N - 2 timings. *)
Theorem timings_when_stamps_parse (filter_off : bool) (acts : gmap string string) :
  stamps_parse acts ->
  (get_activity_timings filter_off acts).2 = None /\
  activity <$> (get_activity_timings filter_off acts).1
  = kept filter_off (started (get_ordered_activity_timestamps acts)) /\
  (filter_off = false ->
   length (get_activity_timings filter_off acts).1 = (size acts - 2)%nat).
Proof.
  intros Hparse.
  destruct (decide (size acts <= 1)%nat) as [Hsmall|Hbig].
  - unfold get_activity_timings, started. rewrite ordered_length.
    unfold range_down. replace (Z.to_nat (Z.of_nat (size acts) - 1 - 1)) with 0%nat by lia.
    replace (size acts - 2)%nat with 0%nat by lia. cbn. unfold kept.
    split; [done|]. split; [by destruct filter_off|done].
  - pose proof (timings_from_range filter_off (get_ordered_activity_timestamps acts)
                  (Z.of_nat (size acts) - 1) 1) as H.
    destruct H as (H1 & H2 & _); [lia| |].
    { intros i Hi. apply ordered_parse; [done|lia]. }
    unfold get_activity_timings. rewrite ordered_length.
    split; [done|].
    assert (activity <$> (timings_from filter_off (get_ordered_activity_timestamps acts)
                            (range_down (Z.of_nat (size acts) - 1) 1)).1
            = kept filter_off (started (get_ordered_activity_timestamps acts))) as Hact.
    { rewrite H2. unfold started. rewrite ordered_length. do 4 f_equal. lia. }
    split; [done|].
    intros ->. apply (f_equal length) in Hact. rewrite length_fmap in Hact. rewrite Hact.
    unfold kept, started.
    rewrite length_reverse, length_fmap, length_take, length_drop, ordered_length. lia.
Qed.

Lemma timings_when_stamps_parse_witness :
  (get_activity_timings true scenario).2 = None /\
  activity <$> (get_activity_timings true scenario).1
  = kept true (started (get_ordered_activity_timestamps scenario)) /\
  (true = false -> length (get_activity_timings true scenario).1 = (size scenario - 2)%nat).
Proof.
  apply (timings_when_stamps_parse true scenario).
  apply stamps_parse_check. vm_compute. reflexivity.
Defined.

(** X6.  With the filter off and every stamp parsing, the durations
    yielded add up to the time between the second event and the last:
    the span before the second event is never counted. *)
Theorem durations_telescope (acts : gmap string string)
    (second last_ts a1 a2 : string) (d_second d_last : datetime) :
  stamps_parse acts ->
  get_ordered_activity_timestamps acts !! 1%nat = Some (second, a1) ->
  get_ordered_activity_timestamps acts !! (size acts - 1)%nat = Some (last_ts, a2) ->
  strptime second = Ok d_second -> strptime last_ts = Ok d_last ->
  py_sum (time_delta <$> (get_activity_timings false acts).1)
  = epoch d_last - epoch d_second.
Proof.
  intros Hparse H1 Hlast P1 Plast.
  assert (2 <= size acts)%nat as Hsize.
  { apply lookup_lt_Some in H1. rewrite ordered_length in H1. lia. }
  pose proof (timings_from_range false (get_ordered_activity_timestamps acts)
                (Z.of_nat (size acts) - 1) 1) as H.
  destruct H as (_ & _ & H3); [lia| |].
  { intros i Hi. apply ordered_parse; [done|lia]. }
  unfold get_activity_timings. rewrite ordered_length, (H3 eq_refl).
  unfold epoch_at.
  replace (Z.to_nat (Z.of_nat (size acts) - 1)) with (size acts - 1)%nat by lia.
  change (Z.to_nat 1) with 1%nat.
  by rewrite H1, Hlast, P1, Plast.
Qed.

Lemma durations_telescope_witness :
  py_sum (time_delta <$> (get_activity_timings false scenario).1) = 3 * 3600.
Proof.
  rewrite (durations_telescope scenario "20240101090000" "20240101120000" "Coding" "Off"
             (mk_datetime 2024 1 1 9 0 0) (mk_datetime 2024 1 1 12 0 0));
    [vm_compute; reflexivity|apply stamps_parse_check|..]; vm_compute; reflexivity.
Defined.

(** ** The log writer and the loader *)









Lemma split_on_count c s : length (split_on c s) = S (count_char c s).
Proof.
  induction s as [|a s IH]; [done|]. cbn [split_on count_char].
  destruct (Ascii.eqb a c); cbn [length]; [by rewrite IH|].
  destruct (split_on c s); [done|]. apply IH.
Qed.






Section LoaderFacts.

Variable astimezone : datetime -> datetime.






(** X8.  A line is read only if, its last character apart, it has exactly
    one space: any other line ends the load with [ValueError], before its
    stamp is looked at and without a diagnostic.  A label with a space in
    it does so. *)
Theorem line_needs_one_space (st : loader_state) (entry : string) :
  count_char " " (drop_last entry) <> 1%nat ->
  load_entry astimezone st entry = (printed st, Raise ValueError).
Proof.
  intros Hcount. unfold load_entry.
  pose proof (split_on_count " " (drop_last entry)) as Hlen.
  destruct (split_on " " (drop_last entry)) as [|a [|b [|c l]]]; try done.
  simpl in Hlen. lia.
Qed.

(** X9.  The loader has three outcomes: a dictionary and no diagnostic;
    [ValueError] and no diagnostic (a line without exactly one space);
    or, for a stamp that does not parse, one diagnostic naming the stamp
    and [TypeError].  A diagnostic is never followed by a result. *)
Theorem loader_outcomes (log_files : list (list string)) :
  let r := get_activities_in_localtime astimezone log_files in
  (r.1 = [] /\ exists acts, r.2 = Ok acts) \/
  (r.1 = [] /\ r.2 = Raise ValueError) \/
  (exists ts, r.1 = [IssueConvertingTimestamp ts LOG_TIMESTAMP_FORMAT] /\ r.2 = Raise TypeError).
Proof.
  cbv zeta. unfold get_activities_in_localtime.
  generalize (concat log_files) as entries.
  assert (printed (mk_loader_state ∅ None []) = []) as Hinit by done.
  generalize dependent (mk_loader_state ∅ None []).
  intros st Hst entries. revert st Hst.
  induction entries as [|entry entries IH]; intros st Hst.
  - left. cbn. rewrite Hst. eauto.
  - cbn [load_entries]. unfold load_entry.
    destruct (split_on " " (drop_last entry)) as [|ts [|activity [|c l]]];
      try (right; left; cbn; by rewrite Hst).
    destruct (strptime ts) as [d|e] eqn:Hts.
    + cbn [fst snd mbind result_bind]. apply IH. cbn. done.
    + apply strptime_raise in Hts as ->.
      right; right. exists ts. cbn. by rewrite Hst.
Qed.

End LoaderFacts.


Lemma line_needs_one_space_witness :
  load_entry (fun d => d) (mk_loader_state ∅ None []) "20240101080000 Code Review
"
  = ([], Raise ValueError).
Proof. apply (line_needs_one_space (fun d => d)). vm_compute. lia. Defined.

(** ** The weekly table and its keys *)

Lemma tally_at_step m t k a :
  tally_at (weekly_step m t) k a
  = if decide (weekly_key (year t) (week_number t) = k /\ activity t = a)
    then Some (bump (time_delta t) (tally_at m k a))
    else tally_at m k a.
Proof.
  rewrite weekly_step_insert. cbv zeta. unfold tally_at.
  destruct (decide (weekly_key (year t) (week_number t) = k)) as [<-|Hk].
  - rewrite lookup_insert_eq. cbn [mbind option_bind].
    destruct (decide (activity t = a)) as [<-|Ha].
    + rewrite lookup_insert_eq, decide_True by done.
      by destruct (m !! weekly_key (year t) (week_number t)).
    + rewrite lookup_insert_ne, decide_False by tauto.
      destruct (m !! weekly_key (year t) (week_number t)); [done|].
      cbn [default from_option mbind option_bind]. by rewrite lookup_empty.
  - rewrite lookup_insert_ne, decide_False by tauto. done.
Qed.

Lemma tally_at_foldl l m k a :
  tally_at (foldl weekly_step m l) k a
  = foldl (fun o t => Some (bump (time_delta t) o)) (tally_at m k a) (timings_of l k a).
Proof.
  revert m. induction l as [|t l IH]; intros m; [done|].
  cbn [foldl]. rewrite IH, tally_at_step. unfold timings_of.
  destruct (decide _) as [H|H].
  - by rewrite filter_cons_True.
  - by rewrite filter_cons_False.
Qed.

Lemma bump_all c s (sel : list timing) :
  foldl (fun o t => Some (bump (time_delta t) o)) (Some (mk_tally c s)) sel
  = Some (mk_tally (c + Z.of_nat (length sel)) (s + py_sum (time_delta <$> sel))).
Proof.
  revert c s. induction sel as [|t sel IH]; intros c s.
  - cbn. unfold py_sum. cbn. do 2 f_equal; lia.
  - cbn [foldl bump count time]. rewrite IH. cbn [fmap list_fmap length].
    rewrite py_sum_cons. do 2 f_equal; lia.
Qed.

(** X10.  The weekly table holds, for a week and an activity, the number
    of timings of that week with that activity and the sum of their
    durations; it has no entry where there is no such timing. *)
Theorem weekly_tally_counts (l : list timing) (k a : string) :
  exists weekly_info,
    weekly_info_of (l, None) = Ok weekly_info /\
    tally_at weekly_info k a
    = match timings_of l k a with
      | [] => None
      | sel => Some (mk_tally (Z.of_nat (length sel)) (py_sum (time_delta <$> sel)))
      end.
Proof.
  exists (foldl weekly_step ∅ l). split.
  - unfold weekly_info_of. by rewrite for_each_pure.
  - rewrite tally_at_foldl.
    destruct (timings_of l k a) as [|t sel]; [done|].
    cbn [foldl]. unfold tally_at at 1. rewrite lookup_empty. cbn [mbind option_bind bump].
    rewrite bump_all. cbn [fmap list_fmap length]. rewrite py_sum_cons.
    do 2 f_equal; lia.
Qed.

Lemma field_ok_spec w s n :
  field_ok w s n = true -> String.length s = w /\ digits_value s 0 = Some n.
Proof.
  unfold field_ok. intros H. apply andb_true_iff in H as [H1 H2].
  apply Nat.eqb_eq in H1. split; [done|].
  destruct (digits_value s 0) as [v|]; [|discriminate]. apply Z.eqb_eq in H2. by subst.
Qed.

Lemma range_elem n k : 0 <= k < n -> In k (range n).
Proof.
  intros Hk. apply list_elem_of_In. unfold range. apply list_elem_of_fmap.
  exists (Z.to_nat k). split; [lia|]. apply elem_of_seq. lia.
Qed.

Lemma week_part_digits w :
  0 <= w < 100 -> String.length (week_part w) = 2%nat /\ digits_value (week_part w) 0 = Some w.
Proof.
  intros Hw. apply field_ok_spec.
  assert (forallb (fun w => field_ok 2 (week_part w) w) (range 100) = true) as Hall
    by (vm_compute; reflexivity).
  rewrite forallb_forall in Hall. by apply Hall, range_elem.
Qed.

Lemma year_digits y :
  1000 <= y < 10000 -> String.length (py_str y) = 4%nat /\ digits_value (py_str y) 0 = Some y.
Proof.
  intros Hy. apply field_ok_spec.
  assert (forallb (fun y => (y <? 1000) || field_ok 4 (py_str y) y) (range 10000) = true)
    as Hall by (vm_compute; reflexivity).
  rewrite forallb_forall in Hall. specialize (Hall y (range_elem 10000 y ltac:(lia))).
  replace (y <? 1000) with false in Hall by (symmetry; apply Z.ltb_ge; lia). done.
Qed.

Lemma weekly_key_parts yr week :
  weekly_key yr week = py_str yr +:+ String "-" (week_part week).
Proof. unfold weekly_key, week_part. by destruct (week <? 10). Qed.

Lemma compare_app (a1 a2 b1 b2 : string) :
  String.length a1 = String.length a2 ->
  String.compare (a1 +:+ b1) (a2 +:+ b2)
  = match String.compare a1 a2 with
    | Eq => String.compare b1 b2
    | c => c
    end.
Proof.
  revert a2. induction a1 as [|c1 a1 IH]; intros [|c2 a2]; try discriminate; [done|].
  intros [= Hlen]. rewrite !append_cons. cbn [String.compare].
  destruct (Ascii.compare c1 c2); [by apply IH|done..].
Qed.

Lemma weekly_key_compare y1 w1 y2 w2 :
  1000 <= y1 < 10000 -> 1000 <= y2 < 10000 -> 0 <= w1 < 100 -> 0 <= w2 < 100 ->
  String.compare (weekly_key y1 w1) (weekly_key y2 w2)
  = match y1 ?= y2 with
    | Eq => w1 ?= w2
    | c => c
    end.
Proof.
  intros Hy1 Hy2 Hw1 Hw2. rewrite !weekly_key_parts.
  destruct (year_digits y1 Hy1) as [Ly1 Vy1]. destruct (year_digits y2 Hy2) as [Ly2 Vy2].
  destruct (week_part_digits w1 Hw1) as [Lw1 Vw1]. destruct (week_part_digits w2 Hw2) as [Lw2 Vw2].
  rewrite compare_app by congruence.
  rewrite (digits_value_compare _ _ _ _ (eq_trans Ly1 (eq_sym Ly2)) Vy1 Vy2).
  destruct (y1 ?= y2); [|done..].
  cbn [String.compare]. change (Ascii.compare "-" "-") with Eq. cbv iota.
  apply digits_value_compare; congruence.
Qed.

(** X11.  For years of four digits the weekly keys sort like the weeks
    they stand for: one key is below another as a string exactly when
    its (year, week) comes first. *)
Theorem weekly_keys_sort_chronologically (y1 w1 y2 w2 : Z) :
  1000 <= y1 < 10000 -> 1000 <= y2 < 10000 -> 0 <= w1 < 100 -> 0 <= w2 < 100 ->
  str_lt (weekly_key y1 w1) (weekly_key y2 w2) <-> y1 < y2 \/ (y1 = y2 /\ w1 < w2).
Proof.
  intros Hy1 Hy2 Hw1 Hw2. unfold str_lt, String.ltb.
  rewrite (weekly_key_compare y1 w1 y2 w2) by done.
  destruct (Z.compare_spec y1 y2) as [->|?|?].
  - destruct (Z.compare_spec w1 w2); split; try discriminate; try lia; done.
  - split; [lia|done].
  - split; [discriminate|lia].
Qed.

Lemma weekly_keys_sort_chronologically_witness :
  str_lt (weekly_key 2023 52) (weekly_key 2024 9) <-> 2023 < 2024 \/ (2023 = 2024 /\ 52 < 9).
Proof. apply weekly_keys_sort_chronologically; lia. Defined.

Lemma compute_weeks_ago_index_target yr w n :
  0 <= yr -> 0 <= w ->
  compute_weeks_ago_index (weekly_key yr w) n
  = Ok (week_index (target_year yr w n) (target_week w n)).
Proof.
  intros Hyr Hw. unfold compute_weeks_ago_index, target_year, target_week.
  destruct (weekly_key_split yr w Hyr Hw) as (current_week & -> & ->).
  cbn [mbind result_bind].
  rewrite Z.leb_antisym. destruct (w - n <? 1); cbn [negb]; [|done].
  by rewrite py_int_str.
Qed.

Lemma py_str_length_digit k : 0 <= k <= 9 -> String.length (py_str k) = 1%nat.
Proof.
  intros Hk.
  assert (k = 0 \/ k = 1 \/ k = 2 \/ k = 3 \/ k = 4 \/ k = 5 \/ k = 6 \/ k = 7 \/ k = 8 \/ k = 9)
    as Hc by lia.
  repeat (destruct Hc as [->|Hc]; [reflexivity|]). by subst.
Qed.

Lemma week_index_not_key y k y' w' :
  0 <= y -> 0 <= k <= 9 -> 0 <= y' -> 0 <= w' ->
  week_index y k <> weekly_key y' w'.
Proof.
  intros Hy Hk Hy' Hw' Heq.
  assert (split_on "-" (week_index y k) = [py_str y; py_str k]) as Hsplit.
  { unfold week_index.
    destruct (py_str_nonneg y Hy) as [dy ->]. destruct (py_str_nonneg k ltac:(lia)) as [dk ->].
    apply split_on_index. }
  rewrite Heq in Hsplit.
  destruct (py_str_nonneg y' Hy') as [dy' Ey']. destruct (py_str_nonneg w' Hw') as [dw' Ew'].
  unfold weekly_key in Hsplit. rewrite Ey', Ew' in Hsplit.
  destruct (w' <? 10) eqn:Hlt.
  - change ("-0" +:+ NilEmpty.string_of_uint dw')
      with ("-" +:+ NilEmpty.string_of_uint (D0 dw')) in Hsplit.
    rewrite split_on_index in Hsplit. injection Hsplit as _ Hweek.
    apply (f_equal String.length) in Hweek.
    rewrite (py_str_length_digit k Hk) in Hweek. cbn [NilEmpty.string_of_uint String.length] in Hweek.
    rewrite <- Ew' in Hweek. apply Z.ltb_lt in Hlt.
    rewrite (py_str_length_digit w' ltac:(lia)) in Hweek. discriminate.
  - rewrite split_on_index in Hsplit. injection Hsplit as _ Hweek.
    rewrite <- Ew' in Hweek. apply (f_equal py_int) in Hweek.
    rewrite !py_int_str in Hweek. injection Hweek as <-. apply Z.ltb_ge in Hlt. lia.
Qed.

(** X12.  Stepping back onto a week below 10 gives an index that is the
    key of no week at all: [get_weekly_info] pads such a week to two
    digits and the index does not, so the week is never found, whatever
    the history. *)
Theorem single_digit_index_is_no_key (yr w n yr' w' : Z) :
  1 <= yr -> 0 <= w -> 0 <= target_week w n <= 9 -> 0 <= yr' -> 0 <= w' ->
  compute_weeks_ago_index (weekly_key yr w) n <> Ok (weekly_key yr' w').
Proof.
  intros Hyr Hw Ht Hyr' Hw'. rewrite compute_weeks_ago_index_target by lia.
  intros [= Heq]. revert Heq. apply week_index_not_key; try done.
  unfold target_year. destruct (1 <=? w - n); lia.
Qed.

Lemma single_digit_index_is_no_key_witness :
  compute_weeks_ago_index (weekly_key 2024 10) 1 <> Ok (weekly_key 2024 9).
Proof. apply single_digit_index_is_no_key; vm_compute; (discriminate || split; discriminate). Defined.

(** X13.  Stepping back onto a week from 10 on gives exactly the key
    [get_weekly_info] files that week under, in the same year or, across
    the new year, in the year before. *)
Theorem two_digit_index_is_the_key (yr w n : Z) :
  1 <= yr -> 0 <= w -> 10 <= target_week w n ->
  compute_weeks_ago_index (weekly_key yr w) n
  = Ok (weekly_key (target_year yr w n) (target_week w n)).
Proof.
  intros Hyr Hw Ht. rewrite compute_weeks_ago_index_target by lia.
  unfold week_index, weekly_key.
  by replace (target_week w n <? 10) with false by (symmetry; apply Z.ltb_ge; lia).
Qed.

Lemma two_digit_index_is_the_key_witness :
  compute_weeks_ago_index (weekly_key 2024 1) 2 = Ok (weekly_key 2023 51).
Proof. apply (two_digit_index_is_the_key 2024 1 2); vm_compute; discriminate. Defined.

(** ** The table of changes *)

Lemma for_items_ind `{Countable K} {V S} (P : gmap K V -> S -> Prop) (d : gmap K V)
    (body : S -> K -> V -> result S) (init r : S) :
  P ∅ init ->
  (forall d' s k v s', d' !! k = None -> d !! k = Some v -> P d' s ->
                       body s k v = Ok s' -> P (<[k := v]> d') s') ->
  for_items d body init = Ok r -> P d r.
Proof.
  intros Hinit Hstep. unfold for_items.
  cut (forall d', d' ⊆ d -> forall r',
         map_fold (fun k v acc => s ← acc; body s k v) (Ok init) d' = Ok r' -> P d' r').
  { intros Hcut. by apply Hcut. }
  intros d'.
  induction d' as [|k v d' Hk Hfold IH] using map_first_key_ind; intros Hsub r'.
  - rewrite map_fold_empty. by intros [= <-].
  - rewrite map_fold_insert_first_key by done.
    destruct (map_fold _ _ d') as [s|e] eqn:Hs; [|discriminate].
    cbn [mbind result_bind]. apply Hstep; [done| |].
    + eapply lookup_weaken; [|exact Hsub]. apply lookup_insert_eq.
    + apply (IH ltac:(etrans; [by apply insert_subseteq|done]) s eq_refl).
Qed.

Lemma wow_activity_step_inv weeks_ago week weekly_info st activity v st' :
  wow_activity_step weeks_ago week weekly_info st activity v = Ok st' ->
  exists this w, st.1 !! week = Some this /\
                 st'.1 = <[week := <[activity := w]> this]> st.1.
Proof.
  destruct st as [wow_change cwi]. unfold wow_activity_step. cbv beta zeta.
  destruct (get_previous_weekly_tally weeks_ago week weekly_info) as [previous|]; [|discriminate].
  cbn [mbind result_bind]. rewrite getitem_insert. cbn [mbind result_bind].
  destruct (wow_of _ previous activity) as [w|]; [|discriminate].
  cbn [mbind result_bind]. unfold getitem.
  destruct (wow_change !! week) as [this|] eqn:Hthis; [|discriminate].
  intros [= <-]. cbn [fst]. eauto.
Qed.

(** The inner loop fills the entry of [week], starting from an empty one,
    with the activities of the week, and touches no other week. *)
Lemma wow_week_filled weeks_ago week weekly_info this_week wow_change cwi st' :
  for_items this_week (wow_activity_step weeks_ago week weekly_info)
    (<[week := ∅]> wow_change, cwi) = Ok st' ->
  exists this, st'.1 = <[week := this]> wow_change /\ dom this = dom this_week.
Proof.
  apply (for_items_ind
           (fun d s => exists this, s.1 = <[week := this]> wow_change /\ dom this = dom d)).
  - exists ∅. cbn [fst]. by rewrite !dom_empty_L.
  - intros d' s k v s' Hk _ (this & Hs & Hdom) Hstep.
    apply wow_activity_step_inv in Hstep as (this0 & w & Hthis0 & ->).
    rewrite Hs in Hthis0. rewrite lookup_insert_eq in Hthis0. injection Hthis0 as <-.
    exists (<[k := w]> this). rewrite Hs, insert_insert_eq. split; [done|].
    by rewrite !dom_insert_L, Hdom.
Qed.

Lemma wow_week_step_inv weeks_ago weekly_info st cw st' :
  wow_week_step weeks_ago weekly_info st cw = Ok st' ->
  if decide (weeks_ago < cw.1)
  then exists this this_week,
         weekly_info !! cw.2 = Some this_week /\ dom this = dom this_week /\
         st'.1 = <[cw.2 := this]> st.1
  else st' = st.
Proof.
  destruct cw as [cnt week], st as [wow_change cwi]. unfold wow_week_step. cbn [fst snd].
  destruct (weeks_ago <? cnt) eqn:Hlt.
  - apply Z.ltb_lt in Hlt. rewrite decide_True by done.
    unfold getitem. destruct (weekly_info !! week) as [this_week|] eqn:Hweek; [|discriminate].
    cbn [mbind result_bind]. intros Hfill.
    apply wow_week_filled in Hfill as (this & -> & Hdom). eauto.
  - apply Z.ltb_ge in Hlt. rewrite decide_False by lia. by intros [= <-].
Qed.

Lemma wow_weeks_foldl weeks_ago weekly_info (l : list (Z * string)) st st' :
  foldl (fun acc cw => st ← acc; wow_week_step weeks_ago weekly_info st cw) (Ok st) l = Ok st' ->
  dom st'.1 = dom st.1 ∪ list_to_set (snd <$> filter (fun cw => weeks_ago < cw.1) l) /\
  (same_activities weekly_info st.1 -> same_activities weekly_info st'.1).
Proof.
  revert st. induction l as [|cw l IH]; intros st; cbn [foldl].
  - intros [= <-]. split; [|done]. cbn. by rewrite union_empty_r_L.
  - cbn [mbind result_bind].
    destruct (wow_week_step weeks_ago weekly_info st cw) as [st1|e] eqn:Hstep.
    + intros Hfold. destruct (IH st1 Hfold) as [Hdom Hsame].
      apply wow_week_step_inv in Hstep.
      destruct (decide (weeks_ago < cw.1)) as [Hlt|Hge].
      * destruct Hstep as (this & this_week & Hweek & Hd & Hst1).
        rewrite filter_cons_True by done. cbn [fmap list_fmap list_to_set].
        split.
        -- rewrite Hdom, Hst1, dom_insert_L. by rewrite (assoc_L (∪)), (comm_L (∪) (dom st.1)).
        -- intros Hst. apply Hsame. rewrite Hst1. intros week this0.
           rewrite lookup_insert. case_decide; [|apply Hst].
           intros [= <-]. subst. eauto.
      * subst st1. rewrite filter_cons_False by done. done.
    + assert (forall l', foldl (fun acc cw => st ← acc; wow_week_step weeks_ago weekly_info st cw)
                          (Raise e) l' = Raise e) as ->
        by (induction l' as [|? ? IH']; cbn [foldl]; [done|apply IH']).
      discriminate.
Qed.

(** X14.  When [get_wow_changes] returns, the weeks of its table are the
    weeks past the warm-up, those at a position above [weeks_ago] in
    sorted order, and each of them has exactly the activities the weekly
    table has for it. *)
Theorem wow_table_layout (weeks_ago : Z) (weekly_info : gmap string (gmap string tally))
    (wow_change : gmap string (gmap string wow)) :
  wow_changes_of weeks_ago weekly_info = Ok wow_change ->
  dom wow_change = list_to_set (reported_weeks weeks_ago weekly_info) /\
  same_activities weekly_info wow_change.
Proof.
  unfold wow_changes_of.
  destruct (foldl _ _ _) as [st|] eqn:Hfold; [|discriminate].
  intros [= <-]. apply wow_weeks_foldl in Hfold as [Hdom Hsame]. cbn [fst] in *.
  split.
  - rewrite Hdom, dom_empty_L, union_empty_l_L. done.
  - apply Hsame. intros week this. by rewrite lookup_empty.
Qed.

Lemma wow_table_layout_witness :
  dom ({["2024-12" := {["Coding" := mk_wow 200 0]}]} : gmap string (gmap string wow))
  = list_to_set (reported_weeks 2 unit_average_weeks) /\
  same_activities unit_average_weeks {["2024-12" := {["Coding" := mk_wow 200 0]}]}.
Proof. apply (wow_table_layout 2 unit_average_weeks). vm_compute. reflexivity. Defined.

Lemma enumerate_bound {A} (l : list A) cnt x :
  (cnt, x) ∈ enumerate l -> 0 <= cnt < Z.of_nat (length l).
Proof.
  unfold enumerate. intros Hin. apply elem_of_zip_l in Hin.
  unfold range in Hin. apply list_elem_of_fmap in Hin as (k & -> & Hk).
  apply elem_of_seq in Hk. lia.
Qed.

(** X15.  A history with no more than [weeks_ago + 1] weeks gives the
    empty table of changes: with the default of one week, the first
    changes appear in the third week. *)
Theorem wow_needs_history (weeks_ago : Z) (weekly_info : gmap string (gmap string tally)) :
  Z.of_nat (size weekly_info) <= weeks_ago + 1 ->
  wow_changes_of weeks_ago weekly_info = Ok ∅.
Proof.
  intros Hsize. unfold wow_changes_of.
  assert (length (sorted_str (keys weekly_info)) = size weekly_info) as Hlen.
  { unfold sorted_str, keys. rewrite merge_sort_Permutation, length_fmap.
    apply length_map_to_list. }
  assert (Forall (fun cw : Z * string => cw.1 <= weeks_ago)
            (enumerate (sorted_str (keys weekly_info)))) as Hall.
  { apply Forall_forall. intros [cnt week] Hin. apply enumerate_bound in Hin. cbn. lia. }
  assert (forall st, foldl (fun acc cw => st ← acc; wow_week_step weeks_ago weekly_info st cw)
                       (Ok st) (enumerate (sorted_str (keys weekly_info))) = Ok st) as ->; [|done].
  induction Hall as [|[cnt week] l Hcw _ IH]; intros st; [done|].
  cbn [foldl mbind result_bind]. unfold wow_week_step at 2.
  replace (weeks_ago <? cnt) with false by (symmetry; apply Z.ltb_ge; cbn in Hcw; lia).
  apply IH.
Qed.

Lemma wow_needs_history_witness :
  wow_changes_of 3 unit_average_weeks = Ok ∅.
Proof. apply wow_needs_history. vm_compute. discriminate. Defined.

(** ** The daily table *)

(** A closed equation, by evaluation of its left side. *)
Ltac by_vm := lazymatch goal with |- ?l = ?r => exact (eq_refl r <: l = r) end.

Lemma add_to_field_eval ds day f delta entry n :
  ds !! day = Some entry -> entry !! f = Some (DInt n) ->
  add_to_field ds day f delta = Ok (<[day := <[f := DInt (n + delta)]> entry]> ds).
Proof.
  intros Hd Hf. unfold add_to_field, getitem. rewrite Hd. cbn [mbind result_bind].
  rewrite Hf. reflexivity.
Qed.

Lemma daily_step_missing_day ds current_day t :
  ds !! day_of_week t = None -> daily_step (ds, current_day) t = Raise KeyError.
Proof.
  intros Hnone. unfold daily_step. cbv beta zeta.
  assert (add_to_field ds (day_of_week t) "day_cnts" 1 = Raise KeyError) as Hadd.
  { unfold add_to_field, getitem. by rewrite Hnone. }
  assert (add_to_field ds (day_of_week t) "context_switches" 1 = Raise KeyError) as Hadd2.
  { unfold add_to_field, getitem. by rewrite Hnone. }
  case_decide.
  - rewrite Hadd. cbn [try_except]. rewrite decide_False by discriminate. done.
  - cbn [mbind result_bind]. by rewrite Hadd2.
Qed.

Lemma daily_step_eval ds current_day t entry cs dc tt :
  ds !! day_of_week t = Some entry -> counters entry cs dc tt ->
  daily_step (ds, current_day) t
  = match counted entry cs dc tt current_day t !! activity t with
    | Some (DInt _) => Raise TypeError
    | o => Ok (<[day_of_week t :=
                   <[activity t := act_bump (time_delta t) o]>
                     (counted entry cs dc tt current_day t)]> ds,
               day_of_week t)
    end.
Proof.
  intros Hentry (Hcs & Hdc & Htt). unfold daily_step, counted. cbv beta zeta.
  set (e1 := <["day_cnts" := DInt (dc + if decide (day_of_week t <> current_day) then 1 else 0)]>
               entry).
  assert ((if decide (day_of_week t ≠ current_day)
           then daily_statistics ←
                  try_except (add_to_field ds (day_of_week t) "day_cnts" 1) ValueError (Ok ds);
                Ok (daily_statistics, day_of_week t)
           else Ok (ds, current_day))
          = Ok (<[day_of_week t := e1]> ds, day_of_week t)) as ->.
  { subst e1. case_decide as Hne.
    - by rewrite (add_to_field_eval _ _ _ _ _ _ Hentry Hdc).
    - rewrite Z.add_0_r, (insert_id entry), (insert_id ds) by done.
      by rewrite Hne. }
  cbn [mbind result_bind].
  rewrite (add_to_field_eval (<[day_of_week t := e1]> ds) (day_of_week t)
             "context_switches" 1 e1 cs);
    [|apply lookup_insert_eq|by (subst e1; rewrite lookup_insert_ne)].
  cbn [mbind result_bind]. rewrite insert_insert_eq.
  rewrite (add_to_field_eval (<[day_of_week t := <["context_switches" := DInt (cs + 1)]> e1]> ds)
             (day_of_week t) "total_time" (time_delta t)
             (<["context_switches" := DInt (cs + 1)]> e1) tt);
    [|apply lookup_insert_eq|by (subst e1; rewrite !lookup_insert_ne)].
  cbn [mbind result_bind]. rewrite insert_insert_eq, getitem_insert. cbn [mbind result_bind].
  destruct (<["total_time" := DInt (tt + time_delta t)]>
              (<["context_switches" := DInt (cs + 1)]> e1) !! activity t)
    as [[n|total cnt]|]; rewrite ?insert_insert_eq; reflexivity.
Qed.

Lemma counted_counters entry cs dc tt current_day t :
  counters (counted entry cs dc tt current_day t) (cs + 1)
    (dc + if decide (day_of_week t <> current_day) then 1 else 0) (tt + time_delta t).
Proof.
  unfold counters, counted.
  repeat split; rewrite ?lookup_insert_ne by done; apply lookup_insert_eq.
Qed.

Lemma counted_other entry cs dc tt current_day t a :
  a ∉ field_names -> counted entry cs dc tt current_day t !! a = entry !! a.
Proof.
  intros Ha. unfold counted.
  rewrite !lookup_insert_ne; [done|..]; intros <-; apply Ha; in_fields.
Qed.

Lemma counters_not_field entry cs dc tt a :
  counters entry cs dc tt -> (forall n, entry !! a <> Some (DInt n)) -> a ∉ field_names.
Proof.
  intros (Hcs & Hdc & Htt) Hno Hin. unfold field_names in Hin.
  repeat (apply elem_of_cons in Hin as [->|Hin]; [by eapply Hno|]).
  by apply elem_of_nil in Hin.
Qed.

(** A successful step, spelled out. *)
Lemma daily_step_inv ds current_day t entry cs dc tt st' :
  ds !! day_of_week t = Some entry -> counters entry cs dc tt ->
  daily_step (ds, current_day) t = Ok st' ->
  (activity t ∉ field_names) /\
  st' = (<[day_of_week t :=
             <[activity t := act_bump (time_delta t) (entry !! activity t)]>
               (counted entry cs dc tt current_day t)]> ds,
         day_of_week t).
Proof.
  intros Hentry Hc. rewrite (daily_step_eval _ _ _ _ _ _ _ Hentry Hc).
  pose proof (counted_counters entry cs dc tt current_day t) as Hcc.
  intros Hok.
  assert (activity t ∉ field_names) as Hfresh.
  { apply (counters_not_field _ _ _ _ _ Hcc). intros n Hn. by rewrite Hn in Hok. }
  split; [done|]. rewrite (counted_other _ _ _ _ _ _ _ Hfresh) in Hok.
  destruct (entry !! activity t) as [[n|total cnt]|]; congruence.
Qed.

Lemma foldl_raise {A S} (body : S -> A -> result S) e (l : list A) :
  foldl (fun acc x => s ← acc; body s x) (Raise e) l = Raise e.
Proof. induction l as [|x l IH]; [done|]. apply IH. Qed.

Lemma counters_eq entry cs dc tt cs' dc' tt' :
  counters entry cs dc tt -> cs = cs' -> dc = dc' -> tt = tt' -> counters entry cs' dc' tt'.
Proof. by intros H -> -> ->. Qed.

Lemma counters_insert_act entry cs dc tt a v :
  a ∉ field_names -> counters entry cs dc tt -> counters (<[a := v]> entry) cs dc tt.
Proof.
  intros Ha (K1 & K2 & K3). unfold counters.
  rewrite !lookup_insert_ne; [done|..]; intros ->; apply Ha; in_fields.
Qed.

Lemma counters_unique entry cs dc tt cs' dc' tt' :
  counters entry cs dc tt -> counters entry cs' dc' tt' -> cs = cs' /\ dc = dc' /\ tt = tt'.
Proof. intros (C1 & C2 & C3) (D1 & D2 & D3). repeat split; congruence. Qed.

Lemma daily_fold_counters l ds current_day st' day entry cs dc tt :
  all_counted ds ->
  foldl (fun acc t => s ← acc; daily_step s t) (Ok (ds, current_day)) l = Ok st' ->
  ds !! day = Some entry -> counters entry cs dc tt ->
  exists entry',
    st'.1 !! day = Some entry' /\
    counters entry' (cs + Z.of_nat (length (on_day l day)))
      (dc + day_changes current_day l day)
      (tt + py_sum (time_delta <$> on_day l day)).
Proof.
  revert ds current_day entry cs dc tt.
  induction l as [|t l IH]; intros ds current_day entry cs dc tt Hall Hfold Hentry Hc.
  - injection Hfold as <-. exists entry. split; [done|].
    apply (counters_eq _ _ _ _ _ _ _ Hc); cbn; unfold py_sum; cbn; lia.
  - cbn [foldl mbind result_bind] in Hfold.
    destruct (daily_step (ds, current_day) t) as [st1|e] eqn:Hstep;
      [|by rewrite foldl_raise in Hfold].
    destruct (ds !! day_of_week t) as [entry_t|] eqn:Ht;
      [|by rewrite (daily_step_missing_day _ _ _ Ht) in Hstep].
    destruct (Hall _ _ Ht) as (cs_t & dc_t & tt_t & Hct).
    destruct (daily_step_inv _ _ _ _ _ _ _ _ Ht Hct Hstep) as [Hfresh ->].
    pose proof (counted_counters entry_t cs_t dc_t tt_t current_day t) as Hcc.
    set (e1 := <[activity t := act_bump (time_delta t) (entry_t !! activity t)]>
                 (counted entry_t cs_t dc_t tt_t current_day t)) in *.
    assert (all_counted (<[day_of_week t := e1]> ds)) as Hall1.
    { intros d e0. rewrite lookup_insert.
      destruct (decide (day_of_week t = d)); [|apply (Hall d e0)].
      intros [= <-]. do 3 eexists. apply counters_insert_act; [done|exact Hcc]. }
    unfold on_day. cbn [day_changes].
    destruct (decide (day_of_week t = day)) as [Heq|Hne].
    + rewrite Heq in Ht. rewrite Ht in Hentry. injection Hentry as <-.
      destruct (counters_unique _ _ _ _ _ _ _ Hct Hc) as (-> & -> & ->).
      destruct (IH _ _ e1 (cs + 1)
                  (dc + if decide (day_of_week t <> current_day) then 1 else 0)
                  (tt + time_delta t) Hall1 Hfold) as (entry' & Hlook & Hcount).
      * cbn [fst]. rewrite Heq. apply lookup_insert_eq.
      * apply counters_insert_act; [done|exact Hcc].
      * exists entry'. split; [exact Hlook|].
        rewrite filter_cons_True by done. cbn [length fmap list_fmap].
        rewrite py_sum_cons. fold (on_day l day).
        apply (counters_eq _ _ _ _ _ _ _ Hcount); [lia| |lia].
        destruct (decide (day_of_week t <> current_day)) as [H1|H1].
        -- rewrite decide_True by done. lia.
        -- rewrite decide_False by tauto. lia.
    + destruct (IH _ _ entry cs dc tt Hall1 Hfold) as (entry' & Hlook & Hcount).
      * cbn [fst]. by rewrite lookup_insert_ne.
      * done.
      * exists entry'. split; [exact Hlook|].
        rewrite filter_cons_False by done. rewrite decide_False by tauto.
        rewrite Z.add_0_l. exact Hcount.
Qed.

Lemma daily_statistics_of_counters l e ds day entry :
  daily_statistics_of (l, e) = Ok ds -> ds !! day = Some entry ->
  counters entry (Z.of_nat (length (on_day l day))) (day_changes 0 l day)
    (py_sum (time_delta <$> on_day l day)).
Proof.
  unfold daily_statistics_of, for_each. cbn [fst snd].
  destruct (foldl _ _ l) as [st|] eqn:Hfold; [|discriminate].
  cbn [mbind result_bind]. destruct e; [discriminate|].
  cbn [mbind result_bind]. intros [= <-] Hentry.
  pose proof (daily_statistics_init_ok l) as [Hdom Hinit].
  assert (day ∈ dom daily_statistics_init) as Hin.
  { pose proof (daily_statistics_of_days_ok (l, None) st.1) as Hok.
    unfold daily_statistics_of, for_each in Hok. cbn [fst snd] in Hok. rewrite Hfold in Hok.
    destruct (Hok eq_refl) as [Hdom' _]. rewrite Hdom, <- Hdom'. apply elem_of_dom. eauto. }
  apply elem_of_dom in Hin as [entry0 Hentry0].
  assert (entry0 = zero_entry) as ->.
  { revert Hentry0. unfold daily_statistics_init. cbn. fold zero_entry.
    rewrite !lookup_insert. repeat case_decide; try (by intros [= <-]); by rewrite lookup_empty. }
  destruct (daily_fold_counters l daily_statistics_init 0 st day zero_entry 0 0 0)
    as (entry' & Hlook & Hcount); try done.
  - intros d e0 He0. destruct (Hinit d e0 He0) as [[Hf _] _]. destruct Hf as (a & b & c & ?).
    exists a, b, c. done.
  - rewrite Hentry in Hlook. injection Hlook as <-.
    by rewrite !Z.add_0_l in Hcount.
Qed.

(** X16.  When [daily_statistics] returns, the entry of each day holds
    the number of timings that end on that day as [context_switches] and
    the sum of their durations as [total_time]; its [day_cnts] is the
    number of those timings that follow a timing of another day (or
    none): a day is counted each time the sequence comes to it. *)
Theorem daily_counters_count (l : list timing) (ds : gmap Z (gmap string day_value))
    (day : Z) (entry : gmap string day_value) :
  daily_statistics_of (l, None) = Ok ds -> ds !! day = Some entry ->
  entry !! "context_switches" = Some (DInt (Z.of_nat (length (on_day l day)))) /\
  entry !! "day_cnts" = Some (DInt (day_changes 0 l day)) /\
  entry !! "total_time" = Some (DInt (py_sum (time_delta <$> on_day l day))).
Proof.
  intros Hds Hentry. exact (daily_statistics_of_counters l None ds day entry Hds Hentry).
Qed.

Lemma daily_counters_count_witness :
  let l := [mk_timing "Coding" 2024 1 1 60; mk_timing "Email" 2024 1 1 30] in
  let entry := <["Email" := DAct 30 1]> (<["Coding" := DAct 60 1]>
                 (<["total_time" := DInt 90]> (<["context_switches" := DInt 2]>
                    (<["day_cnts" := DInt 1]> zero_entry)))) in
  entry !! "context_switches" = Some (DInt (Z.of_nat (length (on_day l 1)))) /\
  entry !! "day_cnts" = Some (DInt (day_changes 0 l 1)) /\
  entry !! "total_time" = Some (DInt (py_sum (time_delta <$> on_day l 1))).
Proof.
  intros l entry.
  apply (daily_counters_count l (<[1 := entry]> daily_statistics_init) 1 entry); by_vm.
Defined.

Lemma daily_fold_activity l ds current_day st' day entry a :
  all_counted ds -> a ∉ field_names ->
  foldl (fun acc t => s ← acc; daily_step s t) (Ok (ds, current_day)) l = Ok st' ->
  ds !! day = Some entry ->
  exists entry',
    st'.1 !! day = Some entry' /\
    entry' !! a
    = foldl (fun o t => Some (act_bump (time_delta t) o)) (entry !! a) (on_day_of l day a).
Proof.
  intros Hall Ha. revert ds current_day entry Hall.
  induction l as [|t l IH]; intros ds current_day entry Hall Hfold Hentry.
  - injection Hfold as <-. by exists entry.
  - cbn [foldl mbind result_bind] in Hfold.
    destruct (daily_step (ds, current_day) t) as [st1|e] eqn:Hstep;
      [|by rewrite foldl_raise in Hfold].
    destruct (ds !! day_of_week t) as [entry_t|] eqn:Ht;
      [|by rewrite (daily_step_missing_day _ _ _ Ht) in Hstep].
    destruct (Hall _ _ Ht) as (cs_t & dc_t & tt_t & Hct).
    destruct (daily_step_inv _ _ _ _ _ _ _ _ Ht Hct Hstep) as [Hfresh ->].
    pose proof (counted_counters entry_t cs_t dc_t tt_t current_day t) as Hcc.
    set (e1 := <[activity t := act_bump (time_delta t) (entry_t !! activity t)]>
                 (counted entry_t cs_t dc_t tt_t current_day t)) in *.
    assert (all_counted (<[day_of_week t := e1]> ds)) as Hall1.
    { intros d e0. rewrite lookup_insert.
      destruct (decide (day_of_week t = d)); [|apply (Hall d e0)].
      intros [= <-]. do 3 eexists. apply counters_insert_act; [done|exact Hcc]. }
    unfold on_day_of.
    destruct (decide (day_of_week t = day)) as [Heq|Hne].
    + rewrite Heq in Ht. rewrite Ht in Hentry. injection Hentry as <-.
      destruct (IH _ _ e1 Hall1 Hfold) as (entry' & Hlook & Hact).
      { cbn [fst]. rewrite Heq. apply lookup_insert_eq. }
      exists entry'. split; [exact Hlook|]. rewrite Hact. unfold on_day_of.
      destruct (decide (activity t = a)) as [Heqa|Hnea].
      * rewrite filter_cons_True by done. cbn [foldl]. f_equal.
        subst e1. rewrite <- Heqa. by rewrite lookup_insert_eq.
      * rewrite filter_cons_False by tauto. f_equal.
        subst e1. rewrite lookup_insert_ne by done. by apply counted_other.
    + destruct (IH _ _ entry Hall1 Hfold) as (entry' & Hlook & Hact).
      { cbn [fst]. by rewrite lookup_insert_ne. }
      exists entry'. split; [exact Hlook|]. rewrite Hact. unfold on_day_of.
      by rewrite filter_cons_False by tauto.
Qed.

Lemma act_bump_all total cnt (sel : list timing) :
  foldl (fun o t => Some (act_bump (time_delta t) o)) (Some (DAct total cnt)) sel
  = Some (DAct (total + py_sum (time_delta <$> sel)) (cnt + Z.of_nat (length sel))).
Proof.
  revert total cnt. induction sel as [|t sel IH]; intros total cnt.
  - cbn. unfold py_sum. cbn. do 2 f_equal; lia.
  - cbn [foldl act_bump]. rewrite IH. cbn [fmap list_fmap length].
    rewrite py_sum_cons. do 2 f_equal; lia.
Qed.

(** X17.  When [daily_statistics] returns, the entry of a day holds,
    under an activity, the sum of the durations and the number of the
    timings of that activity that end on that day, and nothing under an
    activity with no timing on that day. *)
Theorem daily_activity_totals (l : list timing) (ds : gmap Z (gmap string day_value))
    (day : Z) (entry : gmap string day_value) (a : string) :
  daily_statistics_of (l, None) = Ok ds -> ds !! day = Some entry -> a ∉ field_names ->
  entry !! a
  = match on_day_of l day a with
    | [] => None
    | sel => Some (DAct (py_sum (time_delta <$> sel)) (Z.of_nat (length sel)))
    end.
Proof.
  unfold daily_statistics_of, for_each. cbn [fst snd].
  destruct (foldl _ _ l) as [st|] eqn:Hfold; [|discriminate].
  cbn [mbind result_bind]. intros [= <-] Hentry Ha.
  pose proof (daily_statistics_init_ok l) as [Hdom Hinit].
  assert (day ∈ dom daily_statistics_init) as Hin.
  { pose proof (daily_statistics_of_days_ok (l, None) st.1) as Hok.
    unfold daily_statistics_of, for_each in Hok. cbn [fst snd] in Hok. rewrite Hfold in Hok.
    destruct (Hok eq_refl) as [Hdom' _]. rewrite Hdom, <- Hdom'. apply elem_of_dom. eauto. }
  apply elem_of_dom in Hin as [entry0 Hentry0].
  assert (entry0 = zero_entry) as ->.
  { revert Hentry0. unfold daily_statistics_init. cbn. fold zero_entry.
    rewrite !lookup_insert. repeat case_decide; try (by intros [= <-]); by rewrite lookup_empty. }
  destruct (daily_fold_activity l daily_statistics_init 0 st day zero_entry a)
    as (entry' & Hlook & Hact); try done.
  - intros d e0 He0. destruct (Hinit d e0 He0) as [[Hf _] _]. destruct Hf as (x & y & z & ?).
    exists x, y, z. done.
  - rewrite Hentry in Hlook. injection Hlook as <-. rewrite Hact.
    assert (zero_entry !! a = None) as ->.
    { unfold zero_entry. rewrite !lookup_insert_ne; [apply lookup_empty|..];
        intros <-; apply Ha; in_fields. }
    destruct (on_day_of l day a) as [|t sel]; [done|].
    cbn [foldl act_bump]. rewrite act_bump_all. cbn [fmap list_fmap length].
    rewrite py_sum_cons. do 2 f_equal; lia.
Qed.

Lemma daily_activity_totals_witness :
  let l := [mk_timing "Coding" 2024 1 1 60; mk_timing "Email" 2024 1 1 30] in
  let entry := <["Email" := DAct 30 1]> (<["Coding" := DAct 60 1]>
                 (<["total_time" := DInt 90]> (<["context_switches" := DInt 2]>
                    (<["day_cnts" := DInt 1]> zero_entry)))) in
  entry !! "Coding"
  = match on_day_of l 1 "Coding" with
    | [] => None
    | sel => Some (DAct (py_sum (time_delta <$> sel)) (Z.of_nat (length sel)))
    end.
Proof.
  intros l entry.
  apply (daily_activity_totals l (<[1 := entry]> daily_statistics_init) 1 entry "Coding");
    [by_vm|by_vm|].
  unfold field_names. rewrite !elem_of_cons, elem_of_nil. intros [|[|[|]]]; done.
Defined.

(** ** The overall records *)

Lemma py_sum_app l1 l2 : py_sum (l1 ++ l2) = py_sum l1 + py_sum l2.
Proof.
  induction l1 as [|x l1 IH]; [unfold py_sum; cbn; lia|].
  cbn [app]. rewrite !py_sum_cons, IH. lia.
Qed.

Lemma py_sum_snoc l x : py_sum (l ++ [x]) = py_sum l + x.
Proof. rewrite py_sum_app, py_sum_cons. unfold py_sum at 2. cbn. lia. Qed.

Lemma py_sum_deltas_snoc (l : list timing) t :
  py_sum (time_delta <$> l ++ [t]) = py_sum (time_delta <$> l) + time_delta t.
Proof. rewrite fmap_app. apply py_sum_snoc. Qed.

Lemma cursor_moves_snoc weekend d0 w0 l t :
  cursor_moves weekend d0 w0 (l ++ [t])
  = cursor_moves weekend d0 w0 l
    + (if decide (in_class weekend t /\
                  (day_of_week t <> (cursor_after d0 w0 l).1 \/
                   week_number t <> (cursor_after d0 w0 l).2))
       then 1 else 0).
Proof.
  revert d0 w0. induction l as [|x l IH]; intros d0 w0.
  - cbn. lia.
  - cbn [app cursor_moves]. rewrite IH.
    assert (cursor_after (day_of_week x) (week_number x) l = cursor_after d0 w0 (x :: l)) as ->.
    { unfold cursor_after. rewrite last_cons. by destruct (last l). }
    lia.
Qed.

Lemma cursor_after_snoc d0 w0 l t :
  cursor_after d0 w0 (l ++ [t]) = (day_of_week t, week_number t).
Proof. unfold cursor_after. by rewrite last_snoc. Qed.

Lemma in_class_cases t : in_class false t \/ in_class true t.
Proof. unfold in_class. destruct (bool_decide _); auto. Qed.

Lemma in_class_excl t : in_class false t -> in_class true t -> False.
Proof. unfold in_class. destruct (bool_decide _); discriminate. Qed.

Lemma class_durations_snoc weekend l t a :
  class_durations weekend (l ++ [t]) a
  = class_durations weekend l a
    ++ (if decide (activity t = a /\ in_class weekend t) then [time_delta t] else []).
Proof.
  unfold class_durations. rewrite filter_app, fmap_app. f_equal.
  destruct (decide _) as [H|H].
  - by rewrite filter_cons_True.
  - by rewrite filter_cons_False.
Qed.

Lemma timings_with_snoc l t a :
  timings_with (l ++ [t]) a = timings_with l a ++ (if decide (activity t = a) then [t] else []).
Proof.
  unfold timings_with. rewrite filter_app. f_equal.
Qed.

Lemma class_durations_none weekend l a :
  timings_with l a = [] -> class_durations weekend l a = [].
Proof.
  unfold timings_with, class_durations. induction l as [|x l IH]; [done|].
  rewrite filter_cons. destruct (decide (activity x = a)); [discriminate|].
  intros H. rewrite filter_cons_False by (intros [? _]; done). auto.
Qed.

Lemma overall_step_agrees l st t :
  overall_agrees l st -> overall_agrees (l ++ [t]) (overall_step st t).
Proof.
  intros (Htot & Hwd & Hwe & Hcur & Hact).
  assert (Hd : ov_current_day st = (cursor_after (-1) (-1) l).1) by by rewrite <- Hcur.
  assert (Hw : ov_current_week st = (cursor_after (-1) (-1) l).2) by by rewrite <- Hcur.
  assert (Hrec : default (mk_activity_info 0 [] 0 [] 0 None)
                   (match ov_activities st !! activity t with
                    | None => <[activity t := mk_activity_info 0 [] 0 [] 0 None]> (ov_activities st)
                    | Some _ => ov_activities st
                    end !! activity t)
                 = record_of l (activity t) None).
  { pose proof (Hact (activity t)) as Ha.
    destruct (timings_with l (activity t)) eqn:Hf.
    - rewrite Ha, lookup_insert_eq. unfold record_of.
      rewrite Hf, !class_durations_none by done. done.
    - rewrite Ha. cbn. rewrite Ha. done. }
  assert (Hother : forall a, a <> activity t ->
            match ov_activities st !! activity t with
            | None => <[activity t := mk_activity_info 0 [] 0 [] 0 None]> (ov_activities st)
            | Some _ => ov_activities st
            end !! a = ov_activities st !! a).
  { intros a Ha. destruct (ov_activities st !! activity t); [done|].
    by rewrite lookup_insert_ne. }
  assert (Hnew : forall a, a <> activity t ->
            match timings_with (l ++ [t]) a with
            | [] => None
            | _ => Some (record_of (l ++ [t]) a None)
            end = ov_activities st !! a).
  { intros a Ha. rewrite Hact. unfold record_of.
    rewrite !class_durations_snoc, timings_with_snoc.
    rewrite (decide_False (P := activity t = a)) by congruence.
    do 2 rewrite decide_False by (intros [? _]; congruence).
    by rewrite !app_nil_r. }
  assert (Hsum : py_sum (time_delta <$> l ++ [t]) = ov_total st + time_delta t).
  { by rewrite py_sum_deltas_snoc, Htot. }
  assert (Hmoves : forall weekend,
            cursor_moves weekend (-1) (-1) (l ++ [t])
            = cursor_moves weekend (-1) (-1) l
              + (if bool_decide (day_of_week t ∈ [1; 2; 3; 4; 5]) then
                   if weekend then 0
                   else if bool_decide (day_of_week t ≠ ov_current_day st
                                        ∨ week_number t ≠ ov_current_week st)
                        then 1 else 0
                 else
                   if weekend then
                     if bool_decide (day_of_week t ≠ ov_current_day st
                                     ∨ week_number t ≠ ov_current_week st)
                     then 1 else 0
                   else 0)).
  { intros weekend. rewrite cursor_moves_snoc, <- Hd, <- Hw. f_equal.
    destruct (bool_decide (day_of_week t ∈ [1; 2; 3; 4; 5])) eqn:Hc, weekend.
    - rewrite decide_False; [done|].
      intros [Hx _]. unfold in_class in Hx. rewrite Hc in Hx. discriminate.
    - destruct (decide (day_of_week t ≠ ov_current_day st
                        ∨ week_number t ≠ ov_current_week st)) as [Hn|Hn].
      + rewrite bool_decide_eq_true_2 by done. rewrite decide_True; [done|].
        split; [|done]. unfold in_class. by rewrite Hc.
      + rewrite bool_decide_eq_false_2 by done. by rewrite decide_False by (intros [_ ?]; done).
    - destruct (decide (day_of_week t ≠ ov_current_day st
                        ∨ week_number t ≠ ov_current_week st)) as [Hn|Hn].
      + rewrite bool_decide_eq_true_2 by done. rewrite decide_True; [done|].
        split; [|done]. unfold in_class. by rewrite Hc.
      + rewrite bool_decide_eq_false_2 by done. by rewrite decide_False by (intros [_ ?]; done).
    - rewrite decide_False; [done|].
      intros [Hx _]. unfold in_class in Hx. rewrite Hc in Hx. discriminate. }
  assert (Hcursor :
            ((if bool_decide (day_of_week t ≠ ov_current_day st
                              ∨ week_number t ≠ ov_current_week st)
              then day_of_week t else ov_current_day st),
             (if bool_decide (day_of_week t ≠ ov_current_day st
                              ∨ week_number t ≠ ov_current_week st)
              then week_number t else ov_current_week st))
            = cursor_after (-1) (-1) (l ++ [t])).
  { rewrite cursor_after_snoc.
    destruct (decide (day_of_week t ≠ ov_current_day st
                      ∨ week_number t ≠ ov_current_week st)) as [Hn|Hn].
    - by rewrite bool_decide_eq_true_2 by done.
    - rewrite bool_decide_eq_false_2 by done.
      destruct (decide (day_of_week t = ov_current_day st)) as [<-|?];
        [|by destruct Hn; left].
      destruct (decide (week_number t = ov_current_week st)) as [<-|?];
        [done|by destruct Hn; right]. }
  assert (Hsame : forall r,
            (r = mk_activity_info
                   (total_time (record_of l (activity t) None) + time_delta t)
                   (if bool_decide (day_of_week t ∈ [1; 2; 3; 4; 5])
                    then weekday_timings (record_of l (activity t) None) ++ [time_delta t]
                    else weekday_timings (record_of l (activity t) None))
                   (if bool_decide (day_of_week t ∈ [1; 2; 3; 4; 5])
                    then weekday_count (record_of l (activity t) None) + 1
                    else weekday_count (record_of l (activity t) None))
                   (if bool_decide (day_of_week t ∈ [1; 2; 3; 4; 5])
                    then weekend_timings (record_of l (activity t) None)
                    else weekend_timings (record_of l (activity t) None) ++ [time_delta t])
                   (if bool_decide (day_of_week t ∈ [1; 2; 3; 4; 5])
                    then weekend_count (record_of l (activity t) None)
                    else weekend_count (record_of l (activity t) None) + 1)
                   (percentage_totals (record_of l (activity t) None))) ->
            forall (m : gmap string activity_info) a,
            (forall a, a <> activity t -> m !! a = ov_activities st !! a) ->
            <[activity t := r]> m !! a
            = match timings_with (l ++ [t]) a with
              | [] => None
              | _ => Some (record_of (l ++ [t]) a None)
              end).
  { intros r -> m a Hm. destruct (decide (a = activity t)) as [->|Ha].
    - rewrite lookup_insert_eq. rewrite timings_with_snoc, decide_True by done.
      destruct (timings_with l (activity t) ++ [t]) eqn:Happ;
        [ by destruct (timings_with l (activity t)) | ].
      f_equal. unfold record_of.
      rewrite !class_durations_snoc, timings_with_snoc.
      rewrite (decide_True (P := activity t = activity t)) by done.
      cbn [total_time weekday_timings weekday_count weekend_timings weekend_count
           percentage_totals].
      rewrite py_sum_deltas_snoc.
      destruct (bool_decide (day_of_week t ∈ [1; 2; 3; 4; 5])) eqn:Hc.
      + rewrite (decide_True (P := activity t = activity t ∧ in_class false t))
          by (split; [done|]; unfold in_class; by rewrite Hc).
        rewrite (decide_False (P := activity t = activity t ∧ in_class true t))
          by (intros [_ Hx]; unfold in_class in Hx; rewrite Hc in Hx; discriminate).
        rewrite app_nil_r, length_app. cbn [length]. f_equal. lia.
      + rewrite (decide_False (P := activity t = activity t ∧ in_class false t))
          by (intros [_ Hx]; unfold in_class in Hx; rewrite Hc in Hx; discriminate).
        rewrite (decide_True (P := activity t = activity t ∧ in_class true t))
          by (split; [done|]; unfold in_class; by rewrite Hc).
        rewrite app_nil_r, length_app. cbn [length]. f_equal. lia.
    - rewrite lookup_insert_ne by done. rewrite Hm by done. by rewrite Hnew. }
  unfold overall_step. rewrite Hrec.
  destruct (bool_decide (day_of_week t ∈ [1; 2; 3; 4; 5])) eqn:Hc;
    (split; [|split; [|split; [|split]]]); cbn [ov_total ov_counts ov_current_day ov_current_week
                                        ov_activities weekday_cnt weekend_cnt].
  all: try (by rewrite Hsum).
  all: try (rewrite Hmoves; cbv beta iota; first [ rewrite Hwd | rewrite Hwe ];
            destruct (bool_decide (day_of_week t ≠ ov_current_day st
                                   ∨ week_number t ≠ ov_current_week st)); lia).
  all: try exact Hcursor.
  all: intros a; apply Hsame; [by rewrite ?Hc | exact Hother].
Qed.

Lemma overall_fold_agrees l :
  overall_agrees l
    (foldl overall_step (mk_overall_state (mk_activity_counts 0 0) ∅ 0 (-1) (-1)) l).
Proof.
  induction l as [|t l IH] using rev_ind.
  - repeat split.
  - rewrite foldl_app. cbn [foldl]. by apply overall_step_agrees.
Qed.

Lemma overall_percentages (m : gmap string activity_info) (total : Z)
    (r : gmap string activity_info) :
  for_items m (fun activities activity a =>
      p ← py_fdiv (float_of_Z (total_time a) * 100.0) (float_of_Z total);
      Ok (<[activity := mk_activity_info (total_time a) (weekday_timings a)
                          (weekday_count a) (weekend_timings a) (weekend_count a)
                          (Some p)]> activities)) m = Ok r ->
  forall a,
    match m !! a with
    | None => r !! a = None
    | Some v =>
        exists p, py_fdiv (float_of_Z (total_time v) * 100.0) (float_of_Z total) = Ok p /\
                  r !! a = Some (mk_activity_info (total_time v) (weekday_timings v)
                                   (weekday_count v) (weekend_timings v) (weekend_count v)
                                   (Some p))
    end.
Proof.
  intros Hfold.
  pose (P := fun (d' acc : gmap string activity_info) =>
    forall a,
      match d' !! a with
      | None => acc !! a = m !! a
      | Some v =>
          exists p, py_fdiv (float_of_Z (total_time v) * 100.0) (float_of_Z total) = Ok p /\
                    acc !! a = Some (mk_activity_info (total_time v) (weekday_timings v)
                                       (weekday_count v) (weekend_timings v) (weekend_count v)
                                       (Some p))
      end).
  assert (HP : P m r).
  { eapply (for_items_ind P); [| |exact Hfold].
    - intros a. by rewrite lookup_empty.
    - intros d' s k v s' Hk Hm Hs Hbody a.
      cbv beta in Hbody.
      destruct (py_fdiv (float_of_Z (total_time v) * 100.0) (float_of_Z total))
        as [p|e] eqn:Hp; [|by cbn in Hbody].
      cbn in Hbody. injection Hbody as <-.
      destruct (decide (a = k)) as [->|Ha].
      + rewrite !lookup_insert_eq. eauto.
      + rewrite !lookup_insert_ne by done. apply Hs. }
  intros a. specialize (HP a). destruct (m !! a); done.
Qed.

Lemma overall_of_inv l e activities counts :
  overall_of (l, e) = Ok (activities, counts) ->
  exists st, overall_agrees l st /\ e = None /\ counts = ov_counts st /\
    for_items (ov_activities st) (fun activities activity a =>
      p ← py_fdiv (float_of_Z (total_time a) * 100.0) (float_of_Z (ov_total st));
      Ok (<[activity := mk_activity_info (total_time a) (weekday_timings a)
                          (weekday_count a) (weekend_timings a) (weekend_count a)
                          (Some p)]> activities)) (ov_activities st) = Ok activities.
Proof.
  unfold overall_of. rewrite for_each_pure. destruct e as [e|]; [done|].
  cbn [mbind result_bind]. intros H.
  eexists. split; [apply overall_fold_agrees|]. split; [done|].
  match type of H with
  | context [for_items ?m ?f ?i] => destruct (for_items m f i) as [r|] eqn:Hr; [|done]
  end.
  cbn in H. injection H as <- <-. done.
Qed.

(** X18.  When [get_overall_actitivity_info] returns, an activity has a
    record exactly if a timing carries it, and the record holds the sum
    of the activity's durations, its weekday durations and its weekend
    durations in the order yielded, their numbers, and the share of the
    sum in the total of all durations, which is then not zero. *)
Theorem overall_records (l : list timing) (e : option exn)
    (activities : gmap string activity_info) (counts : activity_counts) :
  overall_of (l, e) = Ok (activities, counts) ->
  forall a,
    match timings_with l a with
    | [] => activities !! a = None
    | _ => exists p,
        py_fdiv (float_of_Z (py_sum (time_delta <$> timings_with l a)) * 100.0)
                (float_of_Z (py_sum (time_delta <$> l))) = Ok p /\
        activities !! a = Some (record_of l a (Some p))
    end.
Proof.
  intros H a. apply overall_of_inv in H as (st & (Htot & _ & _ & _ & Hact) & _ & _ & Hfold).
  pose proof (overall_percentages _ _ _ Hfold a) as Hp.
  rewrite Hact, Htot in Hp. destruct (timings_with l a) eqn:Hf; [done|].
  destruct Hp as (p & Hp1 & Hp2). exists p. rewrite <- Hf. split; [exact Hp1|exact Hp2].
Qed.

(** X19.  When [get_overall_actitivity_info] returns, the generator ended
    normally, and the two day counts are the numbers of weekday and of
    weekend timings whose day of the week or week number differs from
    that of the timing before, of either class (for the first timing,
    from the initial cursor of -1 and -1). *)
Theorem overall_day_counts (l : list timing) (e : option exn)
    (activities : gmap string activity_info) (counts : activity_counts) :
  overall_of (l, e) = Ok (activities, counts) ->
  e = None /\
  weekday_cnt counts = cursor_moves false (-1) (-1) l /\
  weekend_cnt counts = cursor_moves true (-1) (-1) l.
Proof.
  intros H. apply overall_of_inv in H as (st & (_ & Hwd & Hwe & _) & He & -> & _).
  done.
Qed.

Lemma overall_records_witness :
  let l := [mk_timing "Coding" 2024 1 1 60; mk_timing "Email" 2024 1 6 30] in
  let activities :=
    <["Email" := mk_activity_info 30 [] 0 [30] 1
                   (Some (float_of_Z 30 * 100.0 / float_of_Z 90)%float)]>
      (<["Coding" := mk_activity_info 60 [60] 1 [] 0
                       (Some (float_of_Z 60 * 100.0 / float_of_Z 90)%float)]> ∅) in
  overall_of (l, None) = Ok (activities, mk_activity_counts 1 1) /\
  match timings_with l "Coding" with
  | [] => activities !! "Coding" = None
  | _ => exists p,
      py_fdiv (float_of_Z (py_sum (time_delta <$> timings_with l "Coding")) * 100.0)
              (float_of_Z (py_sum (time_delta <$> l))) = Ok p /\
      activities !! "Coding" = Some (record_of l "Coding" (Some p))
  end.
Proof.
  intros l activities. split; [by_vm|].
  apply (overall_records l None activities (mk_activity_counts 1 1)). by_vm.
Defined.

Lemma overall_day_counts_witness :
  let l := [mk_timing "Coding" 2024 1 1 60; mk_timing "Email" 2024 1 6 30] in
  let activities :=
    <["Email" := mk_activity_info 30 [] 0 [30] 1
                   (Some (float_of_Z 30 * 100.0 / float_of_Z 90)%float)]>
      (<["Coding" := mk_activity_info 60 [60] 1 [] 0
                       (Some (float_of_Z 60 * 100.0 / float_of_Z 90)%float)]> ∅) in
  overall_of (l, None) = Ok (activities, mk_activity_counts 1 1) /\
  (None : option exn) = None /\
  weekday_cnt (mk_activity_counts 1 1) = cursor_moves false (-1) (-1) l /\
  weekend_cnt (mk_activity_counts 1 1) = cursor_moves true (-1) (-1) l.
Proof.
  intros l activities. split; [by_vm|].
  apply (overall_day_counts l None activities (mk_activity_counts 1 1)). by_vm.
Defined.

(** ** The reports *)

Lemma int_of_float_raises x e :
  int_of_float x = Raise e -> e = OverflowError \/ e = ValueError.
Proof.
  unfold int_of_float. destruct (Prim2SF x); try discriminate; intros [= <-]; auto.
Qed.

Lemma fdiv_sixty x : py_fdiv x 60.0 = Ok (x / 60.0)%float.
Proof. reflexivity. Qed.

Lemma sorted_int_length l : length (sorted_int l) = length l.
Proof. unfold sorted_int. apply Permutation_length, merge_sort_Permutation. Qed.

(** X20.  The two summaries of a list of durations return an int or fail
    in the conversion [int(...)] of a float that is not finite: the
    divisions and the index into the sorted list are guarded. *)
Theorem timing_summaries_guarded (l : list Z) :
  ((exists n, average_mins l = Ok n) \/
   average_mins l = Raise OverflowError \/ average_mins l = Raise ValueError) /\
  ((exists n, medium_mins l = Ok n) \/
   medium_mins l = Raise OverflowError \/ medium_mins l = Raise ValueError).
Proof.
  assert (forall x, (exists n, int_of_float x = Ok n) \/
                    int_of_float x = Raise OverflowError \/ int_of_float x = Raise ValueError)
    as Hint.
  { intros x. destruct (int_of_float x) as [n|e] eqn:Hx; [eauto|].
    apply int_of_float_raises in Hx as [-> | ->]; auto. }
  split.
  - unfold average_mins. destruct (Z.of_nat (length l) =? 0) eqn:Hc; [eauto|].
    unfold py_idiv. rewrite Hc. cbn [mbind result_bind]. rewrite fdiv_sixty.
    cbn [mbind result_bind]. apply Hint.
  - unfold medium_mins. destruct (Z.of_nat (length l) =? 0) eqn:Hc; [eauto|].
    apply Z.eqb_neq in Hc. unfold py_idiv. cbn [Z.eqb mbind result_bind].
    destruct (lookup_lt_is_Some_2 (sorted_int l) (Z.to_nat (Z.of_nat (length l) / 2)))
      as [v ->].
    { rewrite sorted_int_length.
      assert (Z.of_nat (length l) / 2 < Z.of_nat (length l))
        by (apply Z.div_lt; lia).
      assert (0 <= Z.of_nat (length l) / 2) by (apply Z.div_pos; lia).
      lia. }
    rewrite fdiv_sixty. cbn [mbind result_bind]. apply Hint.
Qed.

Lemma day_changes_seen current_day l day :
  day_changes current_day l day <> 0 -> exists t, t ∈ l /\ day_of_week t = day.
Proof.
  revert current_day. induction l as [|t l IH]; intros current_day; cbn [day_changes]; [done|].
  destruct (decide (day_of_week t = day /\ day_of_week t <> current_day)) as [[Hd _]|_].
  - intros _. exists t. split; [by left|done].
  - intros H. destruct (IH (day_of_week t)) as (t' & Ht' & Hd); [lia|].
    exists t'. split; [by right|done].
Qed.

Lemma fdiv_by_zero x : py_fdiv x (float_of_Z 0) = Raise ZeroDivisionError.
Proof. reflexivity. Qed.

Lemma day_report_counted ds activities day rows :
  day_report ds activities day = Ok rows ->
  exists entry n, ds !! day = Some entry /\ entry !! "day_cnts" = Some (DInt n) /\ n <> 0.
Proof.
  unfold day_report, getitem.
  destruct (foldl _ _ activities) as [r|]; [|cbn [mbind result_bind]; discriminate].
  cbn [mbind result_bind].
  destruct (ds !! day) as [entry|] eqn:Hentry; [|cbn [mbind result_bind]; discriminate].
  cbn [mbind result_bind].
  destruct (entry !! "context_switches") as [[cs|]|];
    try (cbn [mbind result_bind as_int]; discriminate).
  cbn [mbind result_bind as_int].
  destruct (entry !! "day_cnts") as [[dc|]|] eqn:Hdc;
    try (cbn [mbind result_bind as_int]; discriminate).
  cbn [mbind result_bind as_int].
  destruct (entry !! "total_time") as [[tt|]|];
    try (cbn [mbind result_bind as_int]; discriminate).
  cbn [mbind result_bind as_int].
  intros H. exists entry, dc. split; [done|]. split; [done|].
  intros ->. rewrite fdiv_by_zero in H. cbn [mbind result_bind] in H. discriminate.
Qed.

Lemma foldl_result_each {A S} (body : S -> A -> result S) (l : list A) (init r : S) :
  foldl (fun acc x => s ← acc; body s x) (Ok init) l = Ok r ->
  forall x, x ∈ l -> exists s s', body s x = Ok s'.
Proof.
  revert init. induction l as [|y l IH]; intros init Hfold x Hx; [by apply elem_of_nil in Hx|].
  cbn [foldl mbind result_bind] in Hfold.
  destruct (body init y) as [s'|e] eqn:Hb; [|by rewrite foldl_raise in Hfold].
  apply elem_of_cons in Hx as [->|Hx]; [eauto|]. by apply (IH s').
Qed.

(** X21.  The daily report is produced only for a generator that ended
    normally and yielded a timing on every day of the week: a day
    without one makes the division by its [day_cnts] raise. *)
Theorem daily_report_needs_every_day (acts : gmap string string) (rows : list daily_row) :
  get_daily_statistics acts = Ok rows ->
  (get_activity_timings true acts).2 = None /\
  forall day, 1 <= day <= 7 ->
    exists t, t ∈ (get_activity_timings true acts).1 /\ day_of_week t = day.
Proof.
  unfold get_daily_statistics.
  destruct (daily_statistics acts) as [ds|] eqn:Hds; [|discriminate].
  cbn [mbind result_bind].
  destruct (foldl _ _ NUM_TO_DAY_MAP.*1) as [all_keys|]; [|discriminate].
  cbn [mbind result_bind]. intros Hrows. unfold daily_statistics in Hds.
  destruct (get_activity_timings true acts) as [l e] eqn:Hg. cbn [fst snd].
  assert (e = None) as ->.
  { revert Hds. unfold daily_statistics_of, for_each. cbn [fst snd].
    destruct (foldl _ _ l); [|discriminate]. cbn [mbind result_bind].
    by destruct e. }
  split; [done|]. intros day Hday.
  destruct (foldl_result_each _ _ _ _ Hrows day) as (s & s' & Hbody).
  { cbn. rewrite !elem_of_cons. lia. }
  cbv beta in Hbody.
  match type of Hbody with
  | context [day_report ?d ?a ?x] => destruct (day_report d a x) as [more|] eqn:Hrep; [|done]
  end.
  apply day_report_counted in Hrep as (entry & n & Hentry & Hn & Hne).
  destruct (daily_statistics_of_counters l None ds day entry Hds Hentry) as (_ & Hdc & _).
  rewrite Hn in Hdc. injection Hdc as ->.
  by apply day_changes_seen in Hne.
Qed.

Lemma daily_report_needs_every_day_witness :
  (get_activity_timings true full_week).2 = None /\
  forall day, 1 <= day <= 7 ->
    exists t, t ∈ (get_activity_timings true full_week).1 /\ day_of_week t = day.
Proof.
  apply (daily_report_needs_every_day full_week
           (flat_map (fun day => [Percentage day "Coding" 100.0; CtxSw day 1.0; WorkTm day 60.0])
                     [1; 2; 3; 4; 5; 6; 7])).
  by_vm.
Defined.

Lemma daily_step_type_error l st t :
  days_ok l st.1 -> 1 <= day_of_week t <= 7 -> activity t ∈ field_names ->
  daily_step st t = Raise TypeError.
Proof.
  destruct st as [ds current_day]. cbn [fst]. intros [Hdom Hall] Hday Hact.
  assert (day_of_week t ∈ dom ds) as Hin.
  { rewrite Hdom. rewrite elem_of_list_to_set, !elem_of_cons. lia. }
  apply elem_of_dom in Hin as [entry Hentry].
  destruct (Hall _ _ Hentry) as [[(cs & dc & tt & Hc) _] _].
  rewrite (daily_step_eval ds current_day t entry cs dc tt Hentry Hc).
  destruct (counted_counters entry cs dc tt current_day t) as (F1 & F2 & F3).
  unfold field_names in Hact.
  repeat (apply elem_of_cons in Hact as [->|Hact]; [by rewrite ?F1, ?F2, ?F3|]).
  by apply elem_of_nil in Hact.
Qed.

Lemma daily_fold_type_error l0 l st :
  (forall t, t ∈ l -> t ∈ l0) -> days_ok l0 st.1 ->
  Forall (fun t => 1 <= day_of_week t <= 7) l ->
  (exists t, t ∈ l /\ activity t ∈ field_names) ->
  foldl (fun acc t => s ← acc; daily_step s t) (Ok st) l = Raise TypeError.
Proof.
  revert st. induction l as [|t l IH]; intros st Hsub Hok Hday (t0 & Ht0 & Hact).
  { by apply elem_of_nil in Ht0. }
  apply Forall_cons in Hday as [Hd Hday]. cbn [foldl mbind result_bind].
  destruct (decide (activity t ∈ field_names)) as [Hf|Hf].
  - rewrite (daily_step_type_error l0 st t Hok Hd Hf). apply foldl_raise.
  - destruct (daily_step_total l0 st t) as [st' Hst']; [apply Hsub; by left|done..|].
    rewrite Hst'. apply IH.
    + intros t' Ht'. apply Hsub. by right.
    + apply (daily_step_ok l0 st t); [apply Hsub; by left|done..].
    + done.
    + apply elem_of_cons in Ht0 as [->|Ht0]; [done|]. eauto.
Qed.

(** X22.  An activity named like one of the three counters of a day's
    entry makes [daily_statistics] raise [TypeError], whatever else the
    history holds. *)
Theorem counter_named_activity_raises (acts : gmap string string) (t : timing) :
  t ∈ (get_activity_timings true acts).1 -> activity t ∈ field_names ->
  daily_statistics acts = Raise TypeError.
Proof.
  intros Ht Hact. unfold daily_statistics, daily_statistics_of, for_each.
  pose proof (timings_from_day_range true (get_ordered_activity_timestamps acts)
                (range_down (Z.of_nat (length (get_ordered_activity_timestamps acts)) - 1) 1))
    as Hday.
  fold (get_activity_timings true acts) in Hday.
  rewrite (daily_fold_type_error (get_activity_timings true acts).1); eauto.
  apply daily_statistics_init_ok.
Qed.

Lemma counter_named_activity_raises_witness :
  daily_statistics counter_named_history = Raise TypeError.
Proof.
  apply (counter_named_activity_raises counter_named_history
           (mk_timing "total_time" 2024 1 1 3600)).
  - vm_compute. left.
  - cbn [activity]. in_fields.
Defined.

(** ** The plot of changes *)

Lemma wow_plot_step_within activity wow_changes cs ts week :
  is_Some (wow_changes !! week) ->
  exists c t, wow_plot_step 1000.0 activity wow_changes (cs, ts) week = Ok (cs ++ [c], ts ++ [t])
              /\ within_cap c /\ within_cap t.
Proof.
  intros [this_week Hw]. unfold wow_plot_step, getitem. rewrite Hw. cbn [mbind result_bind].
  destruct (this_week !! activity) as [w|].
  - destruct (1000.0 <? wow_count w)%float eqn:Hc, (1000.0 <? wow_time w)%float eqn:Ht;
      do 2 eexists; (split; [reflexivity|]); split; done.
  - do 2 eexists. split; [reflexivity|]. split; reflexivity.
Qed.

Lemma wow_plot_fold activity wow_changes weeks cs ts :
  (forall week, week ∈ weeks -> is_Some (wow_changes !! week)) ->
  Forall within_cap cs -> Forall within_cap ts ->
  exists cs' ts',
    foldl (fun acc week => st ← acc; wow_plot_step 1000.0 activity wow_changes st week)
      (Ok (cs, ts)) weeks = Ok (cs', ts') /\
    length cs' = (length cs + length weeks)%nat /\
    length ts' = (length ts + length weeks)%nat /\
    Forall within_cap cs' /\ Forall within_cap ts'.
Proof.
  revert cs ts. induction weeks as [|week weeks IH]; intros cs ts Hin Hcs Hts.
  - exists cs, ts. cbn. repeat split; auto; lia.
  - destruct (wow_plot_step_within activity wow_changes cs ts week) as (c & t & Hstep & Hc & Ht).
    { apply Hin. by left. }
    cbn [foldl mbind result_bind]. rewrite Hstep.
    destruct (IH (cs ++ [c]) (ts ++ [t])) as (cs' & ts' & Hfold & Hlc & Hlt & Hcs' & Hts').
    + intros w Hw. apply Hin. by right.
    + apply Forall_app. split; [done|]. by constructor.
    + apply Forall_app. split; [done|]. by constructor.
    + exists cs', ts'. rewrite Hfold. rewrite Hlc, Hlt, !length_app. cbn [length].
      repeat split; auto; lia.
Qed.

(** X23.  From a table of changes, [show_wow_activity_plot] plots the
    weeks of the table in sorted order and, for each of them, one value
    in either series; no value plotted is above the cap of 1000. *)
Theorem wow_plot_capped (activity : string) (wow_changes : gmap string (gmap string wow)) :
  exists cnt_series time_series,
    wow_plot_series activity wow_changes
    = Ok (sorted_str (keys wow_changes), cnt_series, time_series) /\
    length cnt_series = size wow_changes /\
    length time_series = size wow_changes /\
    Forall within_cap cnt_series /\ Forall within_cap time_series.
Proof.
  assert (length (sorted_str (keys wow_changes)) = size wow_changes) as Hlen.
  { unfold sorted_str, keys. rewrite merge_sort_Permutation, length_fmap.
    apply length_map_to_list. }
  destruct (wow_plot_fold activity wow_changes (sorted_str (keys wow_changes)) [] [])
    as (cs & ts & Hfold & Hlc & Hlt & Hcs & Hts); [|constructor..|].
  - intros week Hw. unfold sorted_str in Hw. rewrite merge_sort_Permutation in Hw.
    unfold keys in Hw. apply list_elem_of_fmap in Hw as ([k v] & -> & Hkv).
    apply elem_of_map_to_list in Hkv. eauto.
  - exists cs, ts. unfold wow_plot_series. rewrite Hfold. cbn [mbind result_bind fst snd].
    rewrite Hlc, Hlt, Hlen. done.
Qed.
